(** * Daily-bar synchronisation: a shallow embedding of
    [get_crypto_data.py] and [get_crypto_data_binance.py].

    The two Python modules collect daily candles from an exchange and keep a
    MongoDB collection up to date.  The embedding keeps the structure of the
    source: one Rocq function per Python function, the same control flow
    (the retry loop, the pagination loop, the per-asset loops with their
    [try]/[except] blocks), explicit state for what the source mutates (the
    collection, the outside world reached through [requests.get],
    [time.sleep] and [datetime.utcnow]) and an event trace for what it does
    to the outside (requests, sleeps, writes, error logs). *)

From Stdlib Require Import QArith.
From stdpp Require Import base numbers list strings gmap sorting.

Local Open Scope Z_scope.

(** ** Data model *)

(** A [datetime] is the number of milliseconds of the naive datetime since
    the naive epoch; MongoDB keeps datetimes with exactly this precision. *)
Definition datetime := Z.

Definition DAY_MS : Z := 86400000.

(** [timedelta(days=n)] added to a datetime. *)
Definition add_days (d : datetime) (n : Z) : datetime := d + n * DAY_MS.

(** [d.replace(hour=0, minute=0, second=0, microsecond=0)]. *)
Definition midnight (d : datetime) : datetime := d - d `mod` DAY_MS.

(** The key of [d.strftime('%Y-%m-%d')]: the calendar day of [d], as the
    number of the day (two datetimes print the same string exactly when they
    lie on the same day). *)
Definition date_str (d : datetime) : Z := d `div` DAY_MS.

(** One element of [dayline].  The five quantities are Python floats; no
    function of the source computes with them, they are carried as
    rationals. *)
Record bar := mk_bar {
  b_date : datetime;
  b_open : Q; b_high : Q; b_low : Q; b_close : Q; b_volume : Q
}.

(** One candle of the exchange's answer:
    [[open_time, open, high, low, close, volume, ...]]. *)
Record kline := mk_kline {
  k_time : Z;
  k_open : Q; k_high : Q; k_low : Q; k_close : Q; k_volume : Q
}.

(** The [params] dict of a candle request.  ['interval'] is always ['1d']
    and ['limit'] always 1000; ['startTime'] and ['endTime'] are optional
    keys. *)
Record params := mk_params {
  p_symbol : string;
  p_startTime : option Z;
  p_endTime : option Z
}.

Definition PAGE_LIMIT : Z := 1000.

(** A document of the collection.  [symbol] and [name] can be missing from a
    document (the source reads them with [crypto['symbol']] and
    [crypto.get('name', ...)]); a missing [dayline] behaves as the empty
    array in every place the source reads or pushes to it. *)
Record doc := mk_doc {
  d_name : option string;
  d_symbol : option string;
  d_dayline : list bar
}.

Definition collection := list doc.

(** ** Exceptions, events *)

Inductive req_exc :=
| ConnectionError
| Timeout
| HTTPError (status : Z).

Inductive exn :=
| RequestException (cause : req_exc)
| KeyError (key : string)
| IndexError
| NameError (var : string).

Inductive http_result :=
| HttpOk (klines : list kline)
| HttpErr (cause : req_exc).

(** Where an error or warning is logged. *)
Inductive log_site :=
| At_make_request
| At_fetch_crypto_daily_binance
| At_fetch_crypto_daily
| At_init_asset
| At_update_asset
| At_init_crypto_daily
| At_update_crypto_daily.

(** What a run does to the outside, in order.  [logger.info] lines are left
    out of the trace; warnings and errors are in it. *)
Inductive event :=
| EvRequest (p : params)
| EvSleep (secs : Z)
| EvPush (symbol : string) (bars : list bar)
| EvSet (symbol : string) (bars : list bar)
| EvWarning (site : log_site) (e : exn)
| EvError (site : log_site) (sym : option string) (e : exn).

Definition is_request (ev : event) : bool :=
  match ev with EvRequest _ => true | _ => false end.

Definition is_write (ev : event) : bool :=
  match ev with EvPush _ _ | EvSet _ _ => true | _ => false end.

Definition requests_of (t : list event) : list event := filter is_request t.
Definition writes_of (t : list event) : list event := filter is_write t.

(** ** The environment

    The exchange, the clock and the passing of time are outside the
    program.  [http_get] answers one [requests.get(...).json()] on the
    candle endpoint (a [RequestException] or the decoded list), [utcnow]
    reads the UTC clock, [sleep] lets time pass.  [tz] is the offset of the
    local zone: [datetime.fromtimestamp] and [datetime.timestamp] convert
    between epoch milliseconds and naive local datetimes. *)
Class Env := mk_env {
  World : Type;
  utcnow : World → datetime;
  sleep : Z → World → World;
  http_get : params → World → http_result * World;
  tz : Z
}.

(** Result of a computation: a value, a Python exception, or the fuel of a
    [while True] loop ran out. *)
Inductive res (A : Type) :=
| Ok (a : A)
| Raise (e : exn)
| OutOfFuel.
Arguments Ok {A} a.
Arguments Raise {A} e.
Arguments OutOfFuel {A}.

Section Model.

Context {E : Env}.

Record State := mk_state {
  world : World;
  store : collection
}.

(** Computations: state in; result, state and events out. *)
Definition M (A : Type) : Type := State → res A * State * list event.

Definition ret {A} (a : A) : M A := fun st => (Ok a, st, []).

Definition raise {A} (e : exn) : M A := fun st => (Raise e, st, []).

Definition out_of_fuel {A} : M A := fun st => (OutOfFuel, st, []).

Definition bind {A B} (m : M A) (f : A → M B) : M B := fun st =>
  match m st with
  | (Ok a, st1, t1) =>
      match f a st1 with (r, st2, t2) => (r, st2, t1 ++ t2) end
  | (Raise e, st1, t1) => (Raise e, st1, t1)
  | (OutOfFuel, st1, t1) => (OutOfFuel, st1, t1)
  end.

(** [try: m  except Exception as e: h e]. *)
Definition try_except {A} (m : M A) (h : exn → M A) : M A := fun st =>
  match m st with
  | (Raise e, st1, t1) =>
      match h e st1 with (r, st2, t2) => (r, st2, t1 ++ t2) end
  | other => other
  end.

Definition emit (ev : event) : M unit := fun st => (Ok tt, st, [ev]).

(** [try: m  except Exception as e: logger.error(...); raise]. *)
Definition logged {A} (site : log_site) (sym : option string) (m : M A)
    : M A :=
  try_except m
    (fun e => bind (emit (EvError site sym e)) (fun _ => raise e)).

Notation "'let*' x ':=' m 'in' k" := (bind m (fun x => k))
  (at level 10, x name, m at level 200, k at level 200, only parsing).
Notation "m >>> k" := (bind m (fun _ => k))
  (at level 100, k at level 200, right associativity, only parsing).

Definition res_of {A} (x : res A * State * list event) : res A :=
  match x with (r, _, _) => r end.
Definition state_of {A} (x : res A * State * list event) : State :=
  match x with (_, st, _) => st end.
Definition trace_of {A} (x : res A * State * list event) : list event :=
  match x with (_, _, t) => t end.

(** ** Effects *)

Definition time_sleep (secs : Z) : M unit := fun st =>
  (Ok tt, mk_state (sleep secs (world st)) (store st), [EvSleep secs]).

Definition datetime_utcnow : M datetime := fun st =>
  (Ok (utcnow (world st)), st, []).

(** [requests.get(url, params=params, timeout=30)], [raise_for_status()] and
    [json()] on the candle endpoint. *)
Definition requests_get (p : params) : M (list kline) := fun st =>
  match http_get p (world st) with
  | (HttpOk j, w) => (Ok j, mk_state w (store st), [EvRequest p])
  | (HttpErr c, w) =>
      (Raise (RequestException c), mk_state w (store st), [EvRequest p])
  end.

(** [datetime.fromtimestamp(ms / 1000)] and [int(d.timestamp() * 1000)]. *)
Definition fromtimestamp (ms : Z) : datetime := ms + tz.
Definition timestamp (d : datetime) : Z := d - tz.

(** ** get_crypto_data_binance.py *)

Definition MAX_RETRIES : Z := 3.
Definition RETRY_DELAY : Z := 5.

(** The body of [for attempt in range(MAX_RETRIES)]; a loop that ends
    without returning makes the function return [None], here the empty
    answer. *)
Fixpoint make_request_loop (attempts : list Z) (p : params) : M (list kline) :=
  match attempts with
  | [] => ret []
  | attempt :: rest =>
      try_except (requests_get p)
        (fun e =>
           match e with
           | RequestException _ =>
               if attempt =? MAX_RETRIES - 1 then raise e
               else
                 emit (EvWarning At_make_request e) >>>
                 time_sleep RETRY_DELAY >>>
                 make_request_loop rest p
           | _ => raise e
           end)
  end.

Definition range (n : Z) : list Z := map Z.of_nat (seq 0 (Z.to_nat n)).

Definition make_request (p : params) : M (list kline) :=
  make_request_loop (range MAX_RETRIES) p.

Definition to_bar (k : kline) : bar :=
  mk_bar (fromtimestamp (k_time k))
         (k_open k) (k_high k) (k_low k) (k_close k) (k_volume k).

(** The [for kline in klines] loop: a candle whose day was seen is skipped,
    the others are appended to [all_daily_data] and their day recorded in
    [seen_dates]. *)
Fixpoint collect (klines : list kline) (all_daily_data : list bar)
    (seen_dates : gset Z) : list bar * gset Z :=
  match klines with
  | [] => (all_daily_data, seen_dates)
  | k :: ks =>
      let date := fromtimestamp (k_time k) in
      if decide (date_str date ∈ seen_dates)
      then collect ks all_daily_data seen_dates
      else collect ks (all_daily_data ++ [to_bar k])
                   ({[date_str date]} ∪ seen_dates)
  end.

(** [klines[-1][0]]. *)
Definition last_open_time (klines : list kline) : M Z :=
  match last klines with
  | Some k => ret (k_time k)
  | None => raise IndexError
  end.

(** [params.pop('startTime'); params.pop('endTime')]. *)
Definition pop_window (p : params) : M params :=
  match p_startTime p with
  | None => raise (KeyError "startTime")
  | Some _ =>
      match p_endTime p with
      | None => raise (KeyError "endTime")
      | Some _ => ret (mk_params (p_symbol p) None None)
      end
  end.

(** The [while True] loop of [fetch_crypto_daily_binance]; [fuel] bounds
    the number of iterations. *)
Fixpoint klines_loop (fuel : nat) (start_date : option datetime)
    (p : params) (all_daily_data : list bar) (seen_dates : gset Z)
    : M (list bar) :=
  match fuel with
  | O => out_of_fuel
  | S fuel' =>
      let* klines := make_request p in
      match klines with
      | [] => ret all_daily_data
      | _ :: _ =>
          let '(all', seen') := collect klines all_daily_data seen_dates in
          if Z.of_nat (length klines) <? PAGE_LIMIT then
            match start_date, p_endTime p with
            | None, Some _ =>
                let* p' := pop_window p in
                klines_loop fuel' start_date p' all' seen'
            | _, _ => ret all'
            end
          else
            let* t := last_open_time klines in
            let p' := mk_params (p_symbol p) (Some (t + 1)) (p_endTime p) in
            time_sleep 1 >>>
            klines_loop fuel' start_date p' all' seen'
      end
  end.

(** [list.sort(key=lambda x: x['date'])]: a stable sort by date. *)
Fixpoint insert_by_date (b : bar) (l : list bar) : list bar :=
  match l with
  | [] => [b]
  | x :: l' =>
      if b_date x <=? b_date b then x :: insert_by_date b l'
      else b :: x :: l'
  end.

Definition sort_by_date (l : list bar) : list bar :=
  fold_left (fun acc b => insert_by_date b acc) l [].

(** [datetime(2017, 8, 1)]. *)
Definition BINANCE_LAUNCH : datetime := 1501545600000.

Definition fetch_crypto_daily_binance (fuel : nat) (symbol : string)
    (start_date : option datetime) : M (list bar) :=
  logged At_fetch_crypto_daily_binance (Some symbol)
    (let p0 := mk_params symbol None None in
     let* p :=
       match start_date with
       | Some d => ret (mk_params symbol (Some (timestamp d)) None)
       | None =>
           let* recent_data := make_request p0 in
           match recent_data with
           | [] => ret p0
           | _ :: _ =>
               let* t := last_open_time recent_data in
               ret (mk_params symbol (Some (timestamp BINANCE_LAUNCH)) (Some t))
           end
       end in
     let* all_daily_data := klines_loop fuel start_date p [] ∅ in
     ret (sort_by_date all_daily_data)).

(** ** get_crypto_data.py: storage *)

Definition has_symbol (s : string) (d : doc) : bool :=
  bool_decide (d_symbol d = Some s).

(** [collection.find_one({'symbol': s}, ...)]: the first match. *)
Definition find_one (s : string) (c : collection) : option doc :=
  List.find (has_symbol s) c.

(** The projection [{'dayline': {'$slice': -1}}]. *)
Definition slice_last (l : list bar) : list bar :=
  match last l with
  | Some b => [b]
  | None => []
  end.

(** [collection.update_one({'symbol': s}, ...)]: the first match is
    changed, nothing happens without a match. *)
Fixpoint update_first (s : string) (f : doc → doc) (c : collection)
    : collection :=
  match c with
  | [] => []
  | d :: c' =>
      if has_symbol s d then f d :: c' else d :: update_first s f c'
  end.

Definition push_each (bars : list bar) (d : doc) : doc :=
  mk_doc (d_name d) (d_symbol d) (d_dayline d ++ bars).

Definition set_dayline (bars : list bar) (d : doc) : doc :=
  mk_doc (d_name d) (d_symbol d) bars.

Definition get_store : M collection := fun st => (Ok (store st), st, []).

(** [update_one(..., {'$push': {'dayline': {'$each': bars}}})]. *)
Definition update_one_push (s : string) (bars : list bar) : M unit :=
  fun st =>
    (Ok tt, mk_state (world st) (update_first s (push_each bars) (store st)),
     [EvPush s bars]).

(** [update_one(..., {'$set': {'dayline': bars}})]. *)
Definition update_one_set (s : string) (bars : list bar) : M unit :=
  fun st =>
    (Ok tt, mk_state (world st) (update_first s (set_dayline bars) (store st)),
     [EvSet s bars]).

(** [crypto['symbol']]. *)
Definition getitem_symbol (crypto : doc) : M string :=
  match d_symbol crypto with
  | Some s => ret s
  | None => raise (KeyError "symbol")
  end.

(** ** get_crypto_data.py: fetch and the two loops *)

Definition fetch_crypto_daily (fuel : nat) (symbol : string)
    (start_date : option datetime) : M (list bar) :=
  logged At_fetch_crypto_daily (Some symbol)
    (let* c := get_store in
     match find_one symbol c with
     | Some crypto_data =>
         match slice_last (d_dayline crypto_data) with
         | b :: _ =>
             let last_date := b_date b in
             let* now := datetime_utcnow in
             if midnight now <=? last_date then ret []
             else fetch_crypto_daily_binance fuel symbol
                    (Some (add_days last_date 1))
         | [] => fetch_crypto_daily_binance fuel symbol start_date
         end
     | None => fetch_crypto_daily_binance fuel symbol start_date
     end).

(** The body of the [for] loop of [init_crypto_daily], with its handler,
    which reads [crypto['symbol']] again. *)
Definition init_asset (fuel : nat) (crypto : doc) : M unit :=
  try_except
    (let* s := getitem_symbol crypto in
     let* daily_data := fetch_crypto_daily fuel s None in
     let* s' := getitem_symbol crypto in
     update_one_set s' daily_data >>>
     time_sleep 1)
    (fun e =>
       let* s := getitem_symbol crypto in
       emit (EvError At_init_asset (Some s) e)).

Fixpoint init_loop (fuel : nat) (cryptos : list doc) : M unit :=
  match cryptos with
  | [] => ret tt
  | crypto :: rest => init_asset fuel crypto >>> init_loop fuel rest
  end.

Definition init_crypto_daily (fuel : nat) : M unit :=
  logged At_init_crypto_daily None
    (let* cryptos := get_store in
     init_loop fuel cryptos).

(** The result of [collection.find({}, {'symbol': 1, 'name': 1,
    'dayline': {'$slice': -1}})], made a list before the loop starts. *)
Definition projected (d : doc) : doc :=
  mk_doc (d_name d) (d_symbol d) (slice_last (d_dayline d)).

Definition snapshot (c : collection) : list doc := map projected c.

(** From [daily_data = fetch_crypto_daily(symbol, start_date)] to
    [time.sleep(1)]. *)
Definition fetch_and_merge (fuel : nat) (symbol : string)
    (start_date : option datetime) : M unit :=
  let* daily_data := fetch_crypto_daily fuel symbol start_date in
  match daily_data with
  | [] => ret tt
  | _ :: _ => update_one_push symbol daily_data
  end >>>
  time_sleep 1.

(** [last_date]: [None], or [crypto['dayline'][0]['date']] when the
    document of the snapshot has a bar. *)
Definition snapshot_last_date (crypto : doc) : option datetime :=
  match d_dayline crypto with
  | b :: _ => Some (b_date b)
  | [] => None
  end.

(** [last_date >= yesterday], tested only when there is a [last_date]:
    the iteration then ends with [continue]. *)
Definition is_recent (yesterday : datetime) (last_date : option datetime)
    : bool :=
  match last_date with
  | Some d => yesterday <=? d
  | None => false
  end.

(** [last_date + timedelta(days=1) if last_date else None]. *)
Definition next_start_date (last_date : option datetime)
    : option datetime :=
  match last_date with
  | Some d => Some (add_days d 1)
  | None => None
  end.

(** The [try] body of the [for] loop of [update_crypto_daily] after
    [symbol = crypto['symbol']]. *)
Definition update_asset_body (fuel : nat) (yesterday : datetime)
    (crypto : doc) (symbol : string) : M unit :=
  let last_date := snapshot_last_date crypto in
  if is_recent yesterday last_date then ret tt
  else fetch_and_merge fuel symbol (next_start_date last_date).

(** The [except] clause of that loop: it reads the local variable
    [symbol], which only [symbol = crypto['symbol']] binds. *)
Definition update_asset_handler (symbol_var : option string) (e : exn)
    : M unit :=
  match symbol_var with
  | Some s => emit (EvError At_update_asset (Some s) e)
  | None => raise (NameError "symbol")
  end.

(** One iteration: the result is the binding of [symbol] after it. *)
Definition update_asset (fuel : nat) (yesterday : datetime)
    (crypto : doc) (symbol_var : option string) : M (option string) :=
  match d_symbol crypto with
  | None =>
      update_asset_handler symbol_var (KeyError "symbol") >>>
      ret symbol_var
  | Some s =>
      try_except (update_asset_body fuel yesterday crypto s)
                 (update_asset_handler (Some s)) >>>
      ret (Some s)
  end.

Fixpoint update_loop (fuel : nat) (yesterday : datetime)
    (cryptos : list doc) (symbol_var : option string) : M unit :=
  match cryptos with
  | [] => ret tt
  | crypto :: rest =>
      let* symbol_var' := update_asset fuel yesterday crypto symbol_var in
      update_loop fuel yesterday rest symbol_var'
  end.

Definition update_crypto_daily (fuel : nat) : M unit :=
  logged At_update_crypto_daily None
    (let* c := get_store in
     let cryptos := snapshot c in
     let* now := datetime_utcnow in
     let yesterday := add_days (midnight now) (-1) in
     update_loop fuel yesterday cryptos None).

End Model.

(** ** Simulated environments *)

(** A scripted exchange: the answers are taken from a list, in order,
    whatever is asked; once the list is used up every answer is empty.  The
    clock stands still. *)
Definition scripted (now : datetime) (zone : Z) : Env :=
  {| World := list http_result;
     utcnow := fun _ => now;
     sleep := fun _ w => w;
     http_get := fun _ w =>
       match w with
       | [] => (HttpOk [], [])
       | r :: w' => (r, w')
       end;
     tz := zone |}.

(** An exchange that keeps, for every symbol, a fixed list of candles,
    oldest first, and answers a request with at most 1000 candles of the
    requested window: the oldest ones when the request has a ['startTime'],
    the newest ones otherwise.  Requests for a symbol that is [down] fail.
    The clock stands still. *)
Definition in_window (p : params) (k : kline) : bool :=
  match p_startTime p with Some s => s <=? k_time k | None => true end &&
  match p_endTime p with Some e => k_time k <=? e | None => true end.

Definition page (p : params) (l : list kline) : list kline :=
  match p_startTime p with
  | Some _ => take 1000 l
  | None => drop (length l - 1000) l
  end.

Definition exchange (db : string → list kline) (down : string → bool)
    (now : datetime) (zone : Z) : Env :=
  {| World := unit;
     utcnow := fun _ => now;
     sleep := fun _ w => w;
     http_get := fun p w =>
       if down (p_symbol p) then (HttpErr ConnectionError, w)
       else (HttpOk (page p (List.filter (in_window p) (db (p_symbol p)))), w);
     tz := zone |}.

(** [n] daily candles, the first one opening at [t0]. *)
Definition daily_klines (t0 : Z) (n : nat) : list kline :=
  map (fun i => mk_kline (t0 + Z.of_nat i * DAY_MS) 1 1 1 1 1) (seq 0 n).

(** ** Scenarios *)

(** Midnight of the current UTC day, and the clock one hour later. *)
Definition TODAY : datetime := 1700006400000.
Definition NOW : datetime := TODAY + 3600000.

(** An exchange with candles for two symbols up to today; [ETHUSDT] can be
    switched off. *)
Definition market_db (symbol : string) : list kline :=
  if String.eqb symbol "BTCUSDT" then daily_klines (add_days TODAY (-10)) 11
  else if String.eqb symbol "ETHUSDT" then daily_klines (add_days TODAY (-4)) 5
  else if String.eqb symbol "BNBUSDT" then daily_klines (add_days TODAY (-6)) 7
  else [].

Definition market : Env := exchange market_db (fun _ => false) NOW 0.

Definition market_eth_down : Env :=
  exchange market_db (String.eqb "ETHUSDT") NOW 0.

Definition new_asset (symbol : string) : doc :=
  mk_doc (Some symbol) (Some symbol) [].

(** The two pages of the pagination scenario: 1000 daily candles from the
    launch date on, then 200 more; and the newest of these candles. *)
Definition first_page : list kline := daily_klines 1501545600000 1000.
Definition second_page : list kline :=
  daily_klines (1501545600000 + 1000 * DAY_MS) 200.
Definition last_of_first_page : kline :=
  mk_kline (1501545600000 + 999 * DAY_MS) 1 1 1 1 1.
Definition newest_candle : kline :=
  mk_kline (1501545600000 + 1199 * DAY_MS) 1 1 1 1 1.

(** A scripted exchange that answers with the two pages, and one that
    first answers with the newest candle. *)
Definition two_pages : State (E := scripted NOW 0) :=
  mk_state (E := scripted NOW 0) [HttpOk first_page; HttpOk second_page] [].

Definition newest_then_two_pages : State (E := scripted NOW 0) :=
  mk_state (E := scripted NOW 0)
    [HttpOk [newest_candle]; HttpOk first_page; HttpOk second_page] [].

Definition bar_at (d : datetime) : bar := mk_bar d 1 1 1 1 1.

(** An asset whose last stored bar is [n] days before today. *)
Definition old_asset (symbol : string) (n : Z) : doc :=
  mk_doc (Some symbol) (Some symbol) [bar_at (add_days TODAY (- n))].

Definition three_new_assets : collection :=
  [new_asset "BTCUSDT"; new_asset "ETHUSDT"; new_asset "BNBUSDT"].

(** A scripted exchange that answers every request with the one candle of
    ten days ago. *)
Definition stale_candle : kline := mk_kline (add_days TODAY (-10)) 1 1 1 1 1.

Definition replaying : Env := scripted NOW 0.

(** An exchange without state that answers every request, whatever its
    bounds, with that one candle. *)
Definition repeating : Env :=
  {| World := unit;
     utcnow := fun _ => NOW;
     sleep := fun _ w => w;
     http_get := fun _ w => (HttpOk [stale_candle], w);
     tz := 0 |}.

Definition replaying_state : State (E := replaying) :=
  mk_state (E := replaying)
    (replicate 8 (HttpOk [stale_candle])) [new_asset "BTCUSDT"].

(** ** Vocabulary of the properties *)

Definition date_lt (a b : bar) : Prop := b_date a < b_date b.

(** Strictly increasing dates: sorted, and no date twice. *)
Definition ascending (l : list bar) : Prop := StronglySorted date_lt l.

Definition well_ordered (c : collection) : Prop :=
  Forall (fun d => ascending (d_dayline d)) c.

(** How many bars a fetch returned, when it returned. *)
Definition returned_length (r : res (list bar)) : option nat :=
  match r with
  | Ok bars => Some (length bars)
  | _ => None
  end.

(** The key of a bar in [seen_dates]. *)
Definition day_of (b : bar) : Z := date_str (b_date b).

(** What the pagination loop keeps between [all_daily_data] and
    [seen_dates]: the set holds exactly the days of the bars collected, and
    no two of these bars lie on the same day. *)
Definition seen_inv (acc : list bar) (seen : gset Z) : Prop :=
  (∀ z, z ∈ seen ↔ z ∈ day_of <$> acc) ∧ NoDup (day_of <$> acc).

(** The requests for the candles of one symbol. *)
Definition is_request_for (s : string) (ev : event) : bool :=
  match ev with
  | EvRequest p => bool_decide (p_symbol p = s)
  | _ => false
  end.

Definition requests_for (s : string) (t : list event) : list event :=
  filter (is_request_for s) t.

(** Candles in the order of their opening times. *)
Definition time_sorted (ks : list kline) : Prop :=
  StronglySorted (fun a b => k_time a ≤ k_time b) ks.

(** What the [exchange] of the simulation answers to a request. *)
Definition exchange_answer (db : string → list kline) (p : params)
    : list kline :=
  page p (List.filter (in_window p) (db (p_symbol p))).

(** The first document of [s] is caught up with the exchange: no candle
    of [s] opens a day or more after its last bar. *)
Definition caught_up (db : string → list kline) (zone : Z) (s : string)
    (c : collection) : Prop :=
  ∃ d b, find_one s c = Some d ∧ last (d_dayline d) = Some b ∧
         Forall (fun k => k_time k + zone < b_date b + DAY_MS) (db s).

(** From [c] to [c'], documents have changed only by getting caught up. *)
Definition settles (db : string → list kline) (zone : Z)
    (c c' : collection) : Prop :=
  (∀ s, caught_up db zone s c → caught_up db zone s c') ∧
  (∀ s, caught_up db zone s c' ∨ find_one s c' = find_one s c) ∧
  Forall2 (fun d d' =>
             d' = d ∨
             ∃ s, d_symbol d = Some s ∧ d_symbol d' = Some s ∧
                  caught_up db zone s c') c c'.

(** The same documents, up to their daylines. *)
Definition same_documents (c c' : collection) : Prop :=
  d_symbol <$> c' = d_symbol <$> c ∧ d_name <$> c' = d_name <$> c.

(** A request for a symbol of [c], or no request at all. *)
Definition about_stored (c : collection) (ev : event) : Prop :=
  ∀ p, ev = EvRequest p → Some (p_symbol p) ∈ d_symbol <$> c.

Section Vocabulary.

Context {E : Env}.

(** The exchange answers a request that has a ['startTime'] with candles
    that open at or after it. *)
Definition honours_start : Prop :=
  ∀ (p : params) (w w' : World) (s : Z) (ks : list kline),
    p_startTime p = Some s →
    http_get p w = (HttpOk ks, w') →
    Forall (fun k => s ≤ k_time k) ks.

(** A computation that leaves the collection as it is. *)
Definition frame {A} (m : M A) : Prop :=
  ∀ st, store (state_of (m st)) = store st ∧
        writes_of (trace_of (m st)) = [].

(** The first thing a run does to the outside is [ev]. *)
Definition starts_with {A} (ev : event) (x : res A * State * list event)
    : Prop :=
  ∃ t, trace_of x = ev :: t.

(** A run that comes after the events [t]. *)
Definition after_events {A} (t : list event)
    (x : res A * State * list event) : res A * State * list event :=
  (res_of x, state_of x, t ++ trace_of x).

(** The day a candle falls on, as [seen_dates] records it. *)
Definition kline_day (k : kline) : Z := date_str (fromtimestamp (k_time k)).

(** A computation that keeps every stored dayline strictly increasing. *)
Definition keeps_order {A} (m : M A) : Prop :=
  ∀ st, well_ordered (store st) → well_ordered (store (state_of (m st))).

(** The operations that write daylines, and runs of them: an operation
    that raises leaves the state it reached, and the next one starts
    there. *)
Inductive operation :=
| Op_init_crypto_daily
| Op_update_crypto_daily.

Definition run_operation (fuel : nat) (op : operation) : M unit :=
  match op with
  | Op_init_crypto_daily => init_crypto_daily fuel
  | Op_update_crypto_daily => update_crypto_daily fuel
  end.

Definition run_operations (fuel : nat) (ops : list operation) (st : State)
    : State :=
  fold_left (fun st op => state_of (run_operation fuel op st)) ops st.

(** The clock does not go back when time passes or the exchange is
    asked. *)
Definition clock_monotone : Prop :=
  (∀ secs w, utcnow w ≤ utcnow (sleep secs w)) ∧
  (∀ p w, utcnow w ≤ utcnow (http_get p w).2).

(** A computation that keeps the property [P] of the world and all of
    whose events satisfy [Q]. *)
Definition safe {A} (P : World → Prop) (Q : event → Prop) (m : M A) : Prop :=
  ∀ st, P (world st) →
        P (world (state_of (m st))) ∧ Forall Q (trace_of (m st)).

(** A computation that does not read the collection: from two states with
    the same world it gives the same result, the same events and the same
    world. *)
Definition store_blind {A} (m : M A) : Prop :=
  ∀ st st', world st = world st' →
    res_of (m st) = res_of (m st') ∧
    trace_of (m st) = trace_of (m st') ∧
    world (state_of (m st)) = world (state_of (m st')).

(** A run that returned no bar: the empty list, an exception, or no
    result. *)
Definition no_bars (x : res (list bar) * State * list event) : Prop :=
  match res_of x with
  | Ok (_ :: _) => False
  | _ => True
  end.

(** The events of a failed [make_request]: three attempts, two waits. *)
Definition failed_request (p : params) (c1 c2 : req_exc) : list event :=
  [EvRequest p; EvWarning At_make_request (RequestException c1);
   EvSleep RETRY_DELAY;
   EvRequest p; EvWarning At_make_request (RequestException c2);
   EvSleep RETRY_DELAY;
   EvRequest p].

(** An iteration of the update loop on [x] from [st] that writes
    nothing: the document has no symbol, its symbol is [caught], it is
    recent, or its fetch returns no bar. *)
Definition quiet (fuel : nat) (yesterday : datetime) (caught : string → Prop)
    (st : State) (x : doc) : Prop :=
  match d_symbol x with
  | None => True
  | Some s =>
      caught s ∨ is_recent yesterday (snapshot_last_date x) = true ∨
      no_bars (fetch_crypto_daily fuel s
                 (next_start_date (snapshot_last_date x)) st)
  end.

End Vocabulary.

(** ** The asset list and the entry points

    [fetch_crypto_list_binance], [init_crypto_list], [update_crypto_list]
    and the entry points [update_daily_only], [initial_data] and
    [update_data].  They ask a second endpoint of the exchange and insert
    documents: their runs have these events besides those of the daily
    functions, and one more exception can arise. *)

(** One element of ['symbols'] in the answer of the exchange-information
    endpoint, with the four keys the source reads. *)
Record symbol_data := mk_symbol_data {
  s_symbol : string;
  s_baseAsset : string;
  s_quoteAsset : string;
  s_status : string
}.

(** One element of the list [fetch_crypto_list] returns:
    [{'name': ..., 'symbol': ...}]. *)
Record crypto_entry := mk_crypto_entry {
  c_name : string;
  c_symbol : string
}.

(** What the endpoint answers: a [RequestException], or the decoded
    answer, of which the source reads the list under ['symbols']. *)
Inductive info_result :=
| InfoOk (symbols : list symbol_data)
| InfoErr (cause : req_exc).

Class Listing (E : Env) := mk_listing {
  exchange_info : World → info_result * World
}.

(** The exceptions of the daily functions, and [TypeError] for subscripting
    [None]. *)
Inductive job_exn :=
| Exn (e : exn)
| TypeError.

Inductive job_site :=
| At_fetch_crypto_list_binance
| At_init_crypto_list
| At_update_crypto_list
| At_update_daily_only
| At_initial_data
| At_update_data.

Inductive job_event :=
| EvDaily (ev : event)
| EvInfoRequest
| EvInsert (d : doc)
| EvJobError (site : job_site) (e : job_exn).

Inductive job_res (A : Type) :=
| JOk (a : A)
| JRaise (e : job_exn)
| JOutOfFuel.
Arguments JOk {A} a.
Arguments JRaise {A} e.
Arguments JOutOfFuel {A}.

Definition is_insert (ev : job_event) : bool :=
  match ev with EvInsert _ => true | _ => false end.

Section Jobs.

Context {E : Env} {L : Listing E}.

Definition J (A : Type) : Type := State → job_res A * State * list job_event.

Definition jret {A} (a : A) : J A := fun st => (JOk a, st, []).

Definition jraise {A} (e : job_exn) : J A := fun st => (JRaise e, st, []).

Definition jbind {A B} (m : J A) (f : A → J B) : J B := fun st =>
  match m st with
  | (JOk a, st1, t1) =>
      match f a st1 with (r, st2, t2) => (r, st2, t1 ++ t2) end
  | (JRaise e, st1, t1) => (JRaise e, st1, t1)
  | (JOutOfFuel, st1, t1) => (JOutOfFuel, st1, t1)
  end.

Definition jtry_except {A} (m : J A) (h : job_exn → J A) : J A := fun st =>
  match m st with
  | (JRaise e, st1, t1) =>
      match h e st1 with (r, st2, t2) => (r, st2, t1 ++ t2) end
  | other => other
  end.

Definition jemit (ev : job_event) : J unit := fun st => (JOk tt, st, [ev]).

(** [try: m  except Exception as e: logger.error(...); raise]. *)
Definition jlogged {A} (site : job_site) (m : J A) : J A :=
  jtry_except m
    (fun e => jbind (jemit (EvJobError site e)) (fun _ => jraise e)).

(** A call of one of the daily functions. *)
Definition lift {A} (m : M A) : J A := fun st =>
  match m st with
  | (Ok a, st1, t) => (JOk a, st1, EvDaily <$> t)
  | (Raise e, st1, t) => (JRaise (Exn e), st1, EvDaily <$> t)
  | (OutOfFuel, st1, t) => (JOutOfFuel, st1, EvDaily <$> t)
  end.

Notation "'let*' x ':=' m 'in' k" := (jbind m (fun x => k))
  (at level 10, x name, m at level 200, k at level 200, only parsing).
Notation "m >>> k" := (jbind m (fun _ => k))
  (at level 100, k at level 200, right associativity, only parsing).

Definition jres_of {A} (x : job_res A * State * list job_event)
    : job_res A :=
  match x with (r, _, _) => r end.
Definition jstate_of {A} (x : job_res A * State * list job_event) : State :=
  match x with (_, st, _) => st end.
Definition jtrace_of {A} (x : job_res A * State * list job_event)
    : list job_event :=
  match x with (_, _, t) => t end.

(** [requests.get(url, timeout=30)], [raise_for_status()] and [json()] on
    the exchange-information endpoint, and [data['symbols']] of it. *)
Definition info_get : J (list symbol_data) := fun st =>
  match exchange_info (world st) with
  | (InfoOk j, w) => (JOk j, mk_state w (store st), [EvInfoRequest])
  | (InfoErr c, w) =>
      (JRaise (Exn (RequestException c)), mk_state w (store st),
       [EvInfoRequest])
  end.

(** [make_request] on that endpoint: the same loop; a loop that ends
    without returning makes the function return [None]. *)
Fixpoint make_request_info_loop (attempts : list Z)
    : J (option (list symbol_data)) :=
  match attempts with
  | [] => jret None
  | attempt :: rest =>
      jtry_except (let* j := info_get in jret (Some j))
        (fun e =>
           match e with
           | Exn (RequestException c) =>
               if attempt =? MAX_RETRIES - 1 then jraise e
               else
                 jemit (EvDaily
                          (EvWarning At_make_request (RequestException c))) >>>
                 lift (time_sleep RETRY_DELAY) >>>
                 make_request_info_loop rest
           | _ => jraise e
           end)
  end.

Definition make_request_info : J (option (list symbol_data)) :=
  make_request_info_loop (range MAX_RETRIES).

(** The [for symbol_data in data['symbols']] loop. *)
Fixpoint usdt_trading_loop (symbols : list symbol_data)
    (crypto_list : list crypto_entry) : list crypto_entry :=
  match symbols with
  | [] => crypto_list
  | symbol_data :: rest =>
      if String.eqb (s_quoteAsset symbol_data) "USDT" &&
         String.eqb (s_status symbol_data) "TRADING"
      then usdt_trading_loop rest
             (crypto_list ++
              [mk_crypto_entry (s_baseAsset symbol_data)
                 (s_symbol symbol_data)])
      else usdt_trading_loop rest crypto_list
  end.

Definition fetch_crypto_list_binance : J (list crypto_entry) :=
  jlogged At_fetch_crypto_list_binance
    (let* data := make_request_info in
     match data with
     | None => jraise TypeError
     | Some symbols => jret (usdt_trading_loop symbols [])
     end).

Definition fetch_crypto_list : J (list crypto_entry) :=
  fetch_crypto_list_binance.

(** [collection.insert_one(doc)]: the document comes last. *)
Definition insert_one (d : doc) : J unit := fun st =>
  (JOk tt, mk_state (world st) (store st ++ [d]), [EvInsert d]).

(** [{'name': crypto['name'], 'symbol': crypto['symbol'], 'dayline': []}]. *)
Definition new_document (crypto : crypto_entry) : doc :=
  mk_doc (Some (c_name crypto)) (Some (c_symbol crypto)) [].

(** The [for crypto in crypto_list] loop of [init_crypto_list]: the
    collection is asked for every entry. *)
Fixpoint init_list_loop (crypto_list : list crypto_entry) : J unit :=
  match crypto_list with
  | [] => jret tt
  | crypto :: rest =>
      (let* c := lift get_store in
       match find_one (c_symbol crypto) c with
       | Some _ => jret tt
       | None => insert_one (new_document crypto)
       end) >>>
      init_list_loop rest
  end.

Definition init_crypto_list : J unit :=
  jlogged At_init_crypto_list
    (let* crypto_list := fetch_crypto_list in
     init_list_loop crypto_list).

(** [set(doc['symbol'] for doc in collection.find({}, {'symbol': 1}))]. *)
Fixpoint existing_symbols_loop (docs : list doc) (acc : gset string)
    : J (gset string) :=
  match docs with
  | [] => jret acc
  | d :: rest =>
      match d_symbol d with
      | Some s => existing_symbols_loop rest ({[s]} ∪ acc)
      | None => jraise (Exn (KeyError "symbol"))
      end
  end.

(** The [for crypto in new_crypto_list] loop of [update_crypto_list]: the
    set made before the loop is asked for every entry. *)
Fixpoint update_list_loop (existing_symbols : gset string)
    (new_crypto_list : list crypto_entry) : J unit :=
  match new_crypto_list with
  | [] => jret tt
  | crypto :: rest =>
      (if decide (c_symbol crypto ∈ existing_symbols) then jret tt
       else insert_one (new_document crypto)) >>>
      update_list_loop existing_symbols rest
  end.

Definition update_crypto_list : J unit :=
  jlogged At_update_crypto_list
    (let* docs := lift get_store in
     let* existing_symbols := existing_symbols_loop docs ∅ in
     let* new_crypto_list := fetch_crypto_list in
     update_list_loop existing_symbols new_crypto_list).

(** [update_daily_only] logs the exception and returns. *)
Definition update_daily_only (fuel : nat) : J unit :=
  jtry_except (lift (update_crypto_daily fuel))
    (fun e => jemit (EvJobError At_update_daily_only e)).

Definition initial_data (fuel : nat) : J unit :=
  jlogged At_initial_data
    (init_crypto_list >>> lift (init_crypto_daily fuel)).

Definition update_data (fuel : nat) : J unit :=
  jlogged At_update_data
    (update_crypto_list >>> lift (update_crypto_daily fuel)).

(** The entries [fetch_crypto_list_binance] keeps. *)
Definition usdt_trading (symbol_data : symbol_data) : bool :=
  String.eqb (s_quoteAsset symbol_data) "USDT" &&
  String.eqb (s_status symbol_data) "TRADING".

Definition entry_of (symbol_data : symbol_data) : crypto_entry :=
  mk_crypto_entry (s_baseAsset symbol_data) (s_symbol symbol_data).

Definition listed (symbols : list symbol_data) : list crypto_entry :=
  entry_of <$> List.filter usdt_trading symbols.

(** The events of a listing that fails three times. *)
Definition failed_listing (c1 c2 : req_exc) : list job_event :=
  [EvInfoRequest;
   EvDaily (EvWarning At_make_request (RequestException c1));
   EvDaily (EvSleep RETRY_DELAY);
   EvInfoRequest;
   EvDaily (EvWarning At_make_request (RequestException c2));
   EvDaily (EvSleep RETRY_DELAY);
   EvInfoRequest].

End Jobs.

(** A listing for the exchange of the scenarios: three tradable pairs in
    USDT, one pair in another quote asset, one pair that is not traded. *)
Definition market_symbols : list symbol_data :=
  [mk_symbol_data "BTCUSDT" "BTC" "USDT" "TRADING";
   mk_symbol_data "ETHBTC" "ETH" "BTC" "TRADING";
   mk_symbol_data "ETHUSDT" "ETH" "USDT" "TRADING";
   mk_symbol_data "LUNAUSDT" "LUNA" "USDT" "BREAK";
   mk_symbol_data "BNBUSDT" "BNB" "USDT" "TRADING"].

Definition market_listing : Listing market :=
  {| exchange_info := fun w => (InfoOk market_symbols, w) |}.

(** An endpoint that is down, and one that lists a pair twice. *)
Definition listing_down : Listing market :=
  {| exchange_info := fun w => (InfoErr Timeout, w) |}.

Definition listing_twice : Listing market :=
  {| exchange_info := fun w =>
       (InfoOk [mk_symbol_data "BTCUSDT" "BTC" "USDT" "TRADING";
                mk_symbol_data "BTCUSDT" "BTC" "USDT" "TRADING"], w) |}.

(** * Properties *)

Section Facts.

Context {E : Env}.

(** ** Computations that leave the collection alone *)

Lemma writes_of_app (t1 t2 : list event) :
  writes_of (t1 ++ t2) = writes_of t1 ++ writes_of t2.
Proof. apply filter_app. Qed.

Lemma requests_of_app (t1 t2 : list event) :
  requests_of (t1 ++ t2) = requests_of t1 ++ requests_of t2.
Proof. apply filter_app. Qed.

Lemma frame_ret {A} (a : A) : frame (ret a).
Proof. by intros st. Qed.

Lemma frame_raise {A} (e : exn) : frame (raise (A := A) e).
Proof. by intros st. Qed.

Lemma frame_out_of_fuel {A} : frame (out_of_fuel (A := A)).
Proof. by intros st. Qed.

Lemma frame_emit (ev : event) : is_write ev = false → frame (emit ev).
Proof.
  intros Hev st. split; [done|]. by destruct ev.
Qed.

Lemma frame_time_sleep (secs : Z) : frame (time_sleep secs).
Proof. by intros st. Qed.

Lemma frame_datetime_utcnow : frame datetime_utcnow.
Proof. by intros st. Qed.

Lemma frame_get_store : frame get_store.
Proof. by intros st. Qed.

Lemma frame_requests_get (p : params) : frame (requests_get p).
Proof.
  intros st. unfold requests_get.
  by destruct (http_get p (world st)) as [[j|c] w].
Qed.

Lemma frame_bind {A B} (m : M A) (f : A → M B) :
  frame m → (∀ a, frame (f a)) → frame (bind m f).
Proof.
  intros Hm Hf st. unfold bind.
  specialize (Hm st).
  destruct (m st) as [[[a|e|] st1] t1]; simpl in Hm; try done.
  specialize (Hf a st1).
  destruct (f a st1) as [[r st2] t2]; simpl in *.
  destruct Hm as [Hs1 Hw1], Hf as [Hs2 Hw2].
  split; [congruence|]. by rewrite writes_of_app, Hw1, Hw2.
Qed.

Lemma frame_try_except {A} (m : M A) (h : exn → M A) :
  frame m → (∀ e, frame (h e)) → frame (try_except m h).
Proof.
  intros Hm Hh st. unfold try_except.
  specialize (Hm st).
  destruct (m st) as [[[a|e|] st1] t1]; simpl in Hm; try done.
  specialize (Hh e st1).
  destruct (h e st1) as [[r st2] t2]; simpl in *.
  destruct Hm as [Hs1 Hw1], Hh as [Hs2 Hw2].
  split; [congruence|]. by rewrite writes_of_app, Hw1, Hw2.
Qed.

Lemma frame_logged {A} (site : log_site) (sym : option string) (m : M A) :
  frame m → frame (logged site sym m).
Proof.
  intros Hm. apply frame_try_except; [done|].
  intros e. apply frame_bind; [by apply frame_emit|].
  intros _. apply frame_raise.
Qed.

Lemma frame_make_request_loop (attempts : list Z) (p : params) :
  frame (make_request_loop attempts p).
Proof.
  induction attempts as [|attempt rest IH]; simpl.
  - apply frame_ret.
  - apply frame_try_except; [apply frame_requests_get|].
    intros [c|k| |v]; try apply frame_raise.
    destruct (attempt =? MAX_RETRIES - 1); [apply frame_raise|].
    apply frame_bind; [by apply frame_emit|]. intros _.
    apply frame_bind; [apply frame_time_sleep|]. by intros _.
Qed.

Lemma frame_make_request (p : params) : frame (make_request p).
Proof. apply frame_make_request_loop. Qed.

Lemma frame_last_open_time (ks : list kline) : frame (last_open_time ks).
Proof.
  unfold last_open_time. destruct (last ks); [apply frame_ret|apply frame_raise].
Qed.

Lemma frame_pop_window (p : params) : frame (pop_window p).
Proof.
  unfold pop_window.
  destruct (p_startTime p); [|apply frame_raise].
  destruct (p_endTime p); [apply frame_ret|apply frame_raise].
Qed.

Lemma frame_klines_loop (fuel : nat) (sd : option datetime) (p : params)
    (acc : list bar) (seen : gset Z) :
  frame (klines_loop fuel sd p acc seen).
Proof.
  revert p acc seen. induction fuel as [|fuel IH]; intros p acc seen; simpl.
  - apply frame_out_of_fuel.
  - apply frame_bind; [apply frame_make_request|].
    intros [|k ks]; [apply frame_ret|].
    destruct (collect (k :: ks) acc seen) as [acc' seen'].
    destruct (_ <? _).
    + destruct sd; [apply frame_ret|].
      destruct (p_endTime p); [|apply frame_ret].
      apply frame_bind; [apply frame_pop_window|]. intros p'. apply IH.
    + apply frame_bind; [apply frame_last_open_time|]. intros t.
      apply frame_bind; [apply frame_time_sleep|]. intros _. apply IH.
Qed.

Lemma frame_fetch_crypto_daily_binance (fuel : nat) (symbol : string)
    (sd : option datetime) :
  frame (fetch_crypto_daily_binance fuel symbol sd).
Proof.
  apply frame_logged.
  apply frame_bind.
  - destruct sd; [apply frame_ret|].
    apply frame_bind; [apply frame_make_request|].
    intros [|k ks]; [apply frame_ret|].
    apply frame_bind; [apply frame_last_open_time|]. intros t. apply frame_ret.
  - intros p. apply frame_bind; [apply frame_klines_loop|].
    intros l. apply frame_ret.
Qed.

Lemma frame_fetch_crypto_daily (fuel : nat) (symbol : string)
    (sd : option datetime) :
  frame (fetch_crypto_daily fuel symbol sd).
Proof.
  apply frame_logged.
  apply frame_bind; [apply frame_get_store|]. intros c.
  destruct (find_one symbol c) as [d|];
    [|apply frame_fetch_crypto_daily_binance].
  destruct (slice_last (d_dayline d)) as [|b l];
    [apply frame_fetch_crypto_daily_binance|].
  apply frame_bind; [apply frame_datetime_utcnow|]. intros now.
  destruct (_ <=? _); [apply frame_ret|apply frame_fetch_crypto_daily_binance].
Qed.

(** ** Inversion of successful computations *)

Lemma bind_Ok {A B} (m : M A) (f : A → M B) st b st' t :
  bind m f st = (Ok b, st', t) →
  ∃ a st1 t1 t2,
    m st = (Ok a, st1, t1) ∧ f a st1 = (Ok b, st', t2) ∧ t = t1 ++ t2.
Proof.
  unfold bind. destruct (m st) as [[[a|e|] st1] t1]; try done.
  destruct (f a st1) as [[r st2] t2] eqn:Hf. intros [= -> -> <-].
  by exists a, st1, t1, t2.
Qed.

Lemma logged_Ok {A} site sym (m : M A) st a st' t :
  logged site sym m st = (Ok a, st', t) → m st = (Ok a, st', t).
Proof.
  unfold logged, try_except. by destruct (m st) as [[[a'|e|] st1] t1].
Qed.

Lemma bind_get_store {A} (f : collection → M A) st :
  bind get_store f st = f (store st) st.
Proof.
  unfold bind, get_store. by destruct (f (store st) st) as [[r st2] t2].
Qed.

Lemma bind_utcnow {A} (f : datetime → M A) st :
  bind datetime_utcnow f st = f (utcnow (world st)) st.
Proof.
  unfold bind, datetime_utcnow.
  by destruct (f (utcnow (world st)) st) as [[r st2] t2].
Qed.

Lemma logged_res_of {A} site sym (m : M A) st :
  res_of (logged site sym m st) = res_of (m st).
Proof.
  unfold logged, try_except. by destruct (m st) as [[[a|e|] st1] t1].
Qed.

Lemma logged_state_of {A} site sym (m : M A) st :
  state_of (logged site sym m st) = state_of (m st).
Proof.
  unfold logged, try_except. by destruct (m st) as [[[a|e|] st1] t1].
Qed.

Lemma ret_Ok {A} (a b : A) st st' t :
  ret a st = (Ok b, st', t) → b = a ∧ st' = st ∧ t = [].
Proof. by intros [= -> -> <-]. Qed.

(** ** Days seen, bars collected *)

Lemma seen_inv_empty : seen_inv [] ∅.
Proof. split; [set_solver|constructor]. Qed.

Lemma collect_seen_inv (ks : list kline) (acc : list bar) (seen : gset Z) :
  seen_inv acc seen →
  seen_inv (collect ks acc seen).1 (collect ks acc seen).2.
Proof.
  revert acc seen. induction ks as [|k ks IH]; intros acc seen Hinv; [done|].
  simpl. destruct (decide _) as [Hin|Hnin]; [by apply IH|].
  apply IH. destruct Hinv as [Hseen Hnd].
  assert (Hday : day_of (to_bar k) = date_str (fromtimestamp (k_time k)))
    by done.
  split.
  - intros z. rewrite fmap_app, elem_of_app, elem_of_union, Hseen. simpl.
    rewrite elem_of_singleton, list_elem_of_singleton, Hday. tauto.
  - rewrite fmap_app. apply NoDup_app. split; [done|]. split.
    + intros z Hz. simpl. rewrite list_elem_of_singleton, Hday.
      intros ->. apply Hnin. by apply Hseen.
    + simpl. apply NoDup_singleton.
Qed.

Lemma collect_Forall (P : bar → Prop) (ks : list kline) (acc : list bar)
    (seen : gset Z) :
  Forall P acc → Forall (fun k => P (to_bar k)) ks →
  Forall P (collect ks acc seen).1.
Proof.
  revert acc seen. induction ks as [|k ks IH]; intros acc seen Hacc Hks;
    [done|].
  inversion Hks as [|? ? Hk Hks']; subst.
  simpl. destruct (decide _); [by apply IH|].
  apply IH; [|done]. apply Forall_app. split; [done|]. by constructor.
Qed.

(** ** Sorting by date *)

Lemma insert_by_date_perm (b : bar) (l : list bar) :
  insert_by_date b l ≡ₚ b :: l.
Proof.
  induction l as [|x l IH]; simpl; [done|].
  destruct (_ <=? _); [|done].
  rewrite IH. apply Permutation_swap.
Qed.

Lemma insert_by_date_ascending (b : bar) (l : list bar) :
  ascending l → b_date b ∉ b_date <$> l → ascending (insert_by_date b l).
Proof.
  unfold ascending.
  induction l as [|x l IH]; simpl; intros Hl Hnin.
  - repeat constructor.
  - apply StronglySorted_cons in Hl as [Hx Hl].
    apply not_elem_of_cons in Hnin as [Hne Hnin].
    destruct (b_date x <=? b_date b) eqn:Hc.
    + apply Z.leb_le in Hc. apply StronglySorted_cons. split; [|by apply IH].
      rewrite insert_by_date_perm. constructor; [|done].
      unfold date_lt. lia.
    + apply Z.leb_gt in Hc. apply StronglySorted_cons. split.
      * constructor; [done|].
        eapply Forall_impl; [exact Hx|]. unfold date_lt. intros; lia.
      * by apply StronglySorted_cons.
Qed.

Lemma sort_fold_perm (l acc : list bar) :
  fold_left (fun acc b => insert_by_date b acc) l acc ≡ₚ acc ++ l.
Proof.
  revert acc. induction l as [|b l IH]; intros acc; simpl.
  - by rewrite app_nil_r.
  - rewrite IH, insert_by_date_perm. simpl. apply Permutation_middle.
Qed.

Lemma sort_fold_ascending (l acc : list bar) :
  ascending acc → NoDup (b_date <$> (acc ++ l)) →
  ascending (fold_left (fun acc b => insert_by_date b acc) l acc).
Proof.
  revert acc. induction l as [|b l IH]; intros acc Hacc Hnd; simpl; [done|].
  assert (Hp : b :: acc ++ l ≡ₚ acc ++ b :: l) by apply Permutation_middle.
  rewrite <- Hp in Hnd. simpl in Hnd. apply NoDup_cons in Hnd as [Hb Hnd].
  apply IH.
  - apply insert_by_date_ascending; [done|].
    intros Hin. apply Hb. rewrite fmap_app. apply elem_of_app. by left.
  - rewrite insert_by_date_perm. simpl. by apply NoDup_cons.
Qed.

Lemma sort_by_date_perm (l : list bar) : sort_by_date l ≡ₚ l.
Proof. apply sort_fold_perm. Qed.

Lemma NoDup_day_date (l : list bar) :
  NoDup (day_of <$> l) → NoDup (b_date <$> l).
Proof.
  intros Hnd. apply (NoDup_fmap_1 date_str).
  by rewrite <- list_fmap_compose.
Qed.

Lemma sort_by_date_ascending (l : list bar) :
  NoDup (day_of <$> l) → ascending (sort_by_date l).
Proof.
  intros Hnd. apply sort_fold_ascending; [constructor|].
  by apply NoDup_day_date.
Qed.

(** ** What the exchange fetch returns *)

Lemma make_request_loop_answer (attempts : list Z) (p : params) st ks st1 t1 :
  make_request_loop attempts p st = (Ok ks, st1, t1) →
  ks = [] ∨ ∃ w w', http_get p w = (HttpOk ks, w').
Proof.
  revert st t1. induction attempts as [|attempt rest IH]; intros st t1; simpl.
  - intros [= <- _ _]. by left.
  - unfold try_except, requests_get.
    destruct (http_get p (world st)) as [[j|c] w] eqn:Hget.
    + intros [= <- _ _]. right. eauto.
    + destruct (attempt =? MAX_RETRIES - 1); [done|].
      unfold bind at 1, emit at 1. simpl.
      unfold bind at 1, time_sleep at 1. simpl.
      destruct (make_request_loop rest p _) as [[r st2] t2] eqn:Hrest.
      intros [= -> <- _]. eauto.
Qed.

Lemma make_request_honours (p : params) (s : Z) st ks st1 t1 :
  honours_start → p_startTime p = Some s →
  make_request p st = (Ok ks, st1, t1) →
  Forall (fun k => s ≤ k_time k) ks.
Proof.
  intros Hh Hs Hreq.
  destruct (make_request_loop_answer _ _ _ _ _ _ Hreq) as [->|(w & w' & Hw)];
    [constructor|eauto].
Qed.

Lemma last_open_time_Ok (ks : list kline) st t st' tr :
  last_open_time ks st = (Ok t, st', tr) →
  ∃ k, last ks = Some k ∧ t = k_time k ∧ st' = st ∧ tr = [].
Proof.
  unfold last_open_time. destruct (last ks) as [k|]; [|done].
  intros [= <- <- <-]. eauto.
Qed.

Lemma klines_loop_result (fuel : nat) (sd : option datetime) (p : params)
    (acc : list bar) (seen : gset Z) st l st' t :
  klines_loop fuel sd p acc seen st = (Ok l, st', t) →
  seen_inv acc seen →
  NoDup (day_of <$> l) ∧
  (honours_start → ∀ d s,
     sd = Some d → p_startTime p = Some s → timestamp d ≤ s →
     Forall (fun b => d ≤ b_date b) acc →
     Forall (fun b => d ≤ b_date b) l).
Proof.
  revert p acc seen st t.
  induction fuel as [|fuel IH]; intros p acc seen st t; simpl; [done|].
  intros Hrun Hinv.
  apply bind_Ok in Hrun as (ks & st1 & t1 & t2 & Hreq & Hrun & ->).
  destruct ks as [|k ks].
  { apply ret_Ok in Hrun as (-> & _ & _). split; [apply Hinv|]. eauto. }
  pose proof (collect_seen_inv (k :: ks) acc seen Hinv) as Hinv'.
  assert (Hlow : honours_start → ∀ d s,
    p_startTime p = Some s → timestamp d ≤ s →
    Forall (fun b => d ≤ b_date b) acc →
    Forall (fun b => d ≤ b_date b) (collect (k :: ks) acc seen).1).
  { intros Hh d s Hs Hds Hacc. apply collect_Forall; [done|].
    eapply Forall_impl; [by eapply make_request_honours|].
    intros k' Hk'. unfold to_bar, fromtimestamp, timestamp in *. simpl. lia. }
  destruct (collect (k :: ks) acc seen) as [acc' seen'] eqn:Hcol.
  simpl in Hinv', Hlow.
  destruct (_ <? _).
  - destruct sd as [d0|].
    + apply ret_Ok in Hrun as (-> & _ & _). split; [apply Hinv'|].
      intros Hh d s [= ->]. eauto.
    + destruct (p_endTime p).
      * apply bind_Ok in Hrun as (p' & st2 & t3 & t4 & _ & Hrun & ->).
        destruct (IH _ _ _ _ _ Hrun Hinv') as [Hnd _]. split; [done|].
        by intros _ d s.
      * apply ret_Ok in Hrun as (-> & _ & _). split; [apply Hinv'|].
        by intros _ d s.
  - apply bind_Ok in Hrun as (t0 & st2 & t3 & t4 & Hlast & Hrun & ->).
    apply last_open_time_Ok in Hlast as (kl & Hkl & -> & -> & ->).
    apply bind_Ok in Hrun as ([] & st3 & t5 & t6 & _ & Hrun & ->).
    destruct (IH _ _ _ _ _ Hrun Hinv') as [Hnd Hl]. split; [done|].
    intros Hh d s Hsd Hs Hds Hacc.
    eapply (Hl Hh d (k_time kl + 1)); [done|done| |by eapply Hlow].
    pose proof (make_request_honours _ _ _ _ _ _ Hh Hs Hreq) as Hall.
    apply last_Some_elem_of in Hkl.
    rewrite Forall_forall in Hall. specialize (Hall _ Hkl). simpl in Hall. lia.
Qed.

Lemma fetch_crypto_daily_binance_result (fuel : nat) (symbol : string)
    (sd : option datetime) st l st' t :
  fetch_crypto_daily_binance fuel symbol sd st = (Ok l, st', t) →
  ascending l ∧
  (honours_start → ∀ d, sd = Some d → Forall (fun b => d ≤ b_date b) l).
Proof.
  intros Hrun. apply logged_Ok in Hrun.
  apply bind_Ok in Hrun as (p & st1 & t1 & t2 & Hp & Hrun & ->).
  apply bind_Ok in Hrun as (all & st2 & t3 & t4 & Hloop & Hret & ->).
  apply ret_Ok in Hret as (-> & _ & _).
  destruct (klines_loop_result _ _ _ _ _ _ _ _ _ Hloop seen_inv_empty)
    as [Hnd Hlow].
  split; [by apply sort_by_date_ascending|].
  intros Hh d ->. apply ret_Ok in Hp as (-> & _ & _).
  rewrite sort_by_date_perm.
  by eapply (Hlow Hh d (timestamp d)).
Qed.

Lemma fetch_crypto_daily_result (fuel : nat) (symbol : string)
    (sd : option datetime) st l st' t :
  fetch_crypto_daily fuel symbol sd st = (Ok l, st', t) →
  ascending l ∧
  (honours_start → ∀ d b,
     find_one symbol (store st) = Some d → last (d_dayline d) = Some b →
     Forall (fun x => b_date b < b_date x) l).
Proof.
  intros Hrun. apply logged_Ok in Hrun.
  apply bind_Ok in Hrun as (c & st1 & t1 & t2 & [= <- <- <-] & Hrun & ->).
  destruct (find_one symbol (store st)) as [d|] eqn:Hfind.
  - unfold slice_last in Hrun.
    destruct (last (d_dayline d)) as [b|] eqn:Hlast.
    + apply bind_Ok in Hrun as (now & st2 & t3 & t4 & [= <- <- <-] & Hrun & ->).
      destruct (_ <=? _).
      * apply ret_Ok in Hrun as (-> & _ & _). split; [constructor|].
        intros; constructor.
      * apply fetch_crypto_daily_binance_result in Hrun as [Hasc Hlow].
        split; [done|]. intros Hh d' b' [= <-] Hb'.
        rewrite Hlast in Hb'. injection Hb' as <-.
        eapply Forall_impl; [by apply (Hlow Hh)|].
        intros x. unfold add_days, DAY_MS. simpl. lia.
    + apply fetch_crypto_daily_binance_result in Hrun as [Hasc _].
      split; [done|]. intros _ d' b' [= <-] Hb'. by rewrite Hlast in Hb'.
  - apply fetch_crypto_daily_binance_result in Hrun as [Hasc _].
    split; [done|]. by intros _ d' b'.
Qed.

(** ** Appending after the last stored bar *)

Lemma ascending_app_last (l new : list bar) :
  ascending l → ascending new →
  (∀ b, last l = Some b → Forall (fun x => b_date b < b_date x) new) →
  ascending (l ++ new).
Proof.
  intros Hl Hnew Hlast. apply StronglySorted_app_2; [|done|done].
  intros x1 x2 Hx1 Hx2.
  destruct (last l) as [b|] eqn:Hb.
  - specialize (Hlast b eq_refl). rewrite Forall_forall in Hlast.
    specialize (Hlast _ Hx2).
    apply last_Some in Hb as [l' ->].
    apply elem_of_app in Hx1 as [Hx1|Hx1].
    + pose proof (StronglySorted_app_1_elem_of _ _ _ x1 b Hl Hx1) as Hlt.
      unfold date_lt in *. specialize (Hlt ltac:(by constructor)). lia.
    + apply list_elem_of_singleton in Hx1 as ->. done.
  - apply last_None in Hb as ->. by apply elem_of_nil in Hx1.
Qed.

Lemma update_first_Forall (P : doc → Prop) (s : string) (f : doc → doc)
    (c : collection) :
  Forall P c → (∀ d, find_one s c = Some d → P d → P (f d)) →
  Forall P (update_first s f c).
Proof.
  unfold find_one.
  induction c as [|d c IH]; simpl; intros Hc Hf; [done|].
  inversion Hc as [|? ? Hd Hc']; subst.
  destruct (has_symbol s d).
  - constructor; [|done]. by apply Hf.
  - constructor; [done|]. by apply IH.
Qed.

(** ** The order of the stored daylines *)

Lemma keeps_order_frame {A} (m : M A) : frame m → keeps_order m.
Proof. intros Hm st Hwo. by rewrite (proj1 (Hm st)). Qed.

Lemma keeps_order_bind {A B} (m : M A) (f : A → M B) :
  keeps_order m → (∀ a, keeps_order (f a)) → keeps_order (bind m f).
Proof.
  intros Hm Hf st Hwo. unfold bind. specialize (Hm st Hwo).
  destruct (m st) as [[[a|e|] st1] t1]; simpl in *; try done.
  specialize (Hf a st1 Hm). by destruct (f a st1) as [[r st2] t2].
Qed.

Lemma keeps_order_try_except {A} (m : M A) (h : exn → M A) :
  keeps_order m → (∀ e, keeps_order (h e)) → keeps_order (try_except m h).
Proof.
  intros Hm Hh st Hwo. unfold try_except. specialize (Hm st Hwo).
  destruct (m st) as [[[a|e|] st1] t1]; simpl in *; try done.
  specialize (Hh e st1 Hm). by destruct (h e st1) as [[r st2] t2].
Qed.

Lemma keeps_order_logged {A} site sym (m : M A) :
  keeps_order m → keeps_order (logged site sym m).
Proof.
  intros Hm. apply keeps_order_try_except; [done|].
  intros e. apply keeps_order_frame, frame_bind; [by apply frame_emit|].
  intros _. apply frame_raise.
Qed.

Lemma keeps_order_fetch_and_merge (fuel : nat) (s : string)
    (sd : option datetime) :
  honours_start → keeps_order (fetch_and_merge fuel s sd).
Proof.
  intros Hh st Hwo. unfold fetch_and_merge, bind.
  pose proof (frame_fetch_crypto_daily fuel s sd st) as [Hst _].
  destruct (fetch_crypto_daily fuel s sd st) as [[[data|e|] st1] t1] eqn:Hf;
    simpl in *; [|by rewrite Hst..].
  apply fetch_crypto_daily_result in Hf as [Hasc Hlow].
  destruct data as [|b0 data]; simpl; [by rewrite Hst|].
  rewrite Hst. apply update_first_Forall; [done|].
  intros d Hfind Hd. unfold push_each; simpl.
  apply ascending_app_last; [done|done|]. intros b Hb. by eapply Hlow.
Qed.

Lemma keeps_order_update_asset (fuel : nat) (yesterday : datetime)
    (crypto : doc) (symbol_var : option string) :
  honours_start →
  keeps_order (update_asset fuel yesterday crypto symbol_var).
Proof.
  intros Hh. unfold update_asset.
  assert (Hhandler : ∀ v e, keeps_order (update_asset_handler v e)).
  { intros v e. apply keeps_order_frame. unfold update_asset_handler.
    destruct v; [by apply frame_emit|apply frame_raise]. }
  destruct (d_symbol crypto) as [s|].
  - apply keeps_order_bind; [|intros; apply keeps_order_frame, frame_ret].
    apply keeps_order_try_except; [|done].
    unfold update_asset_body.
    destruct (is_recent _ _); [apply keeps_order_frame, frame_ret|].
    by apply keeps_order_fetch_and_merge.
  - apply keeps_order_bind; [done|].
    intros; apply keeps_order_frame, frame_ret.
Qed.

Lemma keeps_order_update_loop (fuel : nat) (yesterday : datetime)
    (cryptos : list doc) (symbol_var : option string) :
  honours_start →
  keeps_order (update_loop fuel yesterday cryptos symbol_var).
Proof.
  intros Hh. revert symbol_var.
  induction cryptos as [|crypto rest IH]; intros symbol_var; simpl.
  - apply keeps_order_frame, frame_ret.
  - apply keeps_order_bind; [by apply keeps_order_update_asset|done].
Qed.

Lemma keeps_order_update_crypto_daily (fuel : nat) :
  honours_start → keeps_order (update_crypto_daily fuel).
Proof.
  intros Hh. apply keeps_order_logged.
  apply keeps_order_bind; [apply keeps_order_frame, frame_get_store|].
  intros c.
  apply keeps_order_bind; [apply keeps_order_frame, frame_datetime_utcnow|].
  intros now. by apply keeps_order_update_loop.
Qed.

Lemma keeps_order_init_asset (fuel : nat) (crypto : doc) :
  keeps_order (init_asset fuel crypto).
Proof.
  unfold init_asset.
  assert (Hget : frame (getitem_symbol crypto)).
  { unfold getitem_symbol.
    destruct (d_symbol crypto); [apply frame_ret|apply frame_raise]. }
  apply keeps_order_try_except.
  - apply keeps_order_bind; [by apply keeps_order_frame|]. intros s.
    intros st Hwo. unfold bind at 1.
    pose proof (frame_fetch_crypto_daily fuel s None st) as [Hst _].
    destruct (fetch_crypto_daily fuel s None st) as [[[data|e|] st1] t1] eqn:Hf;
      simpl in *; [|by rewrite Hst..].
    apply fetch_crypto_daily_result in Hf as [Hasc _].
    assert (Hk : keeps_order
      (bind (getitem_symbol crypto) (fun s' =>
         bind (update_one_set s' data) (fun _ => time_sleep 1)))).
    { apply keeps_order_bind; [by apply keeps_order_frame|]. intros s'.
      apply keeps_order_bind;
        [|intros; apply keeps_order_frame, frame_time_sleep].
      intros st2 Hwo2. simpl. apply update_first_Forall; [done|]. by intros. }
    specialize (Hk st1). rewrite Hst in Hk. specialize (Hk Hwo).
    by destruct (bind (getitem_symbol crypto) _ st1) as [[r st2] t2].
  - intros e. apply keeps_order_frame, frame_bind; [done|].
    intros s. by apply frame_emit.
Qed.

Lemma keeps_order_init_crypto_daily (fuel : nat) :
  keeps_order (init_crypto_daily fuel).
Proof.
  apply keeps_order_logged.
  apply keeps_order_bind; [apply keeps_order_frame, frame_get_store|].
  intros cryptos. induction cryptos as [|crypto rest IH]; simpl.
  - apply keeps_order_frame, frame_ret.
  - apply keeps_order_bind; [apply keeps_order_init_asset|done].
Qed.

(** C1, amended.  When the exchange answers a request that has a start
    time only with candles that open at or after it, every run of
    [init_crypto_daily] and [update_crypto_daily] keeps every stored dayline
    strictly increasing in date, and so does every single merge. *)
Theorem dayline_order_preserved (fuel : nat) (ops : list operation)
    (st : State) :
  honours_start →
  well_ordered (store st) →
  well_ordered (store (run_operations fuel ops st)) ∧
  (∀ symbol start_date,
     well_ordered
       (store (state_of (fetch_and_merge fuel symbol start_date st)))).
Proof.
  intros Hh Hwo. split.
  - revert st Hwo. induction ops as [|op ops IH]; intros st Hwo; [done|].
    simpl. apply IH. destruct op; simpl.
    + by apply keeps_order_init_crypto_daily.
    + by apply keeps_order_update_crypto_daily.
  - intros symbol sd. by apply keeps_order_fetch_and_merge.
Qed.

(** ** One asset of the update loop *)

Lemma fetch_and_merge_bars (fuel : nat) (s : string) (sd : option datetime)
    st b bs st1 t1 :
  fetch_crypto_daily fuel s sd st = (Ok (b :: bs), st1, t1) →
  fetch_and_merge fuel s sd st =
    (Ok tt,
     mk_state (sleep 1 (world st1))
       (update_first s (push_each (b :: bs)) (store st1)),
     t1 ++ [EvPush s (b :: bs); EvSleep 1]).
Proof. intros Hf. unfold fetch_and_merge, bind. by rewrite Hf. Qed.

Lemma fetch_and_merge_nothing (fuel : nat) (s : string)
    (sd : option datetime) st st1 t1 :
  fetch_crypto_daily fuel s sd st = (Ok [], st1, t1) →
  fetch_and_merge fuel s sd st =
    (Ok tt, mk_state (sleep 1 (world st1)) (store st1), t1 ++ [EvSleep 1]).
Proof. intros Hf. unfold fetch_and_merge, bind. by rewrite Hf. Qed.

Lemma fetch_and_merge_raise (fuel : nat) (s : string)
    (sd : option datetime) st e st1 t1 :
  fetch_crypto_daily fuel s sd st = (Raise e, st1, t1) →
  fetch_and_merge fuel s sd st = (Raise e, st1, t1).
Proof. intros Hf. unfold fetch_and_merge, bind. by rewrite Hf. Qed.

Lemma fetch_and_merge_out_of_fuel (fuel : nat) (s : string)
    (sd : option datetime) st st1 t1 :
  fetch_crypto_daily fuel s sd st = (OutOfFuel, st1, t1) →
  fetch_and_merge fuel s sd st = (OutOfFuel, st1, t1).
Proof. intros Hf. unfold fetch_and_merge, bind. by rewrite Hf. Qed.

(** What one iteration does for a document that has a symbol and is not
    recent, by the outcome of its fetch. *)
Lemma update_asset_stale (fuel : nat) (yesterday : datetime) (crypto : doc)
    (symbol_var : option string) (s : string) st :
  d_symbol crypto = Some s →
  is_recent yesterday (snapshot_last_date crypto) = false →
  update_asset fuel yesterday crypto symbol_var st =
    match fetch_crypto_daily fuel s
            (next_start_date (snapshot_last_date crypto)) st with
    | (Ok (b :: bs), st1, t1) =>
        (Ok (Some s),
         mk_state (sleep 1 (world st1))
           (update_first s (push_each (b :: bs)) (store st1)),
         (t1 ++ [EvPush s (b :: bs); EvSleep 1]) ++ [])
    | (Ok [], st1, t1) =>
        (Ok (Some s), mk_state (sleep 1 (world st1)) (store st1),
         (t1 ++ [EvSleep 1]) ++ [])
    | (Raise e, st1, t1) =>
        (Ok (Some s), st1, (t1 ++ [EvError At_update_asset (Some s) e]) ++ [])
    | (OutOfFuel, st1, t1) => (OutOfFuel, st1, t1)
    end.
Proof.
  intros Hs Hrec. unfold update_asset. rewrite Hs.
  unfold update_asset_body. rewrite Hrec.
  unfold bind at 1, try_except.
  destruct (fetch_crypto_daily _ _ _ st) as [[[[|b bs]|e|] st1] t1] eqn:Hf.
  - by rewrite (fetch_and_merge_nothing _ _ _ _ _ _ Hf).
  - by rewrite (fetch_and_merge_bars _ _ _ _ _ _ _ _ Hf).
  - by rewrite (fetch_and_merge_raise _ _ _ _ _ _ _ Hf).
  - by rewrite (fetch_and_merge_out_of_fuel _ _ _ _ _ _ Hf).
Qed.

Lemma update_asset_recent (fuel : nat) (yesterday : datetime) (crypto : doc)
    (symbol_var : option string) (s : string) st :
  d_symbol crypto = Some s →
  is_recent yesterday (snapshot_last_date crypto) = true →
  update_asset fuel yesterday crypto symbol_var st = (Ok (Some s), st, []).
Proof.
  intros Hs Hrec. unfold update_asset. rewrite Hs.
  unfold update_asset_body. by rewrite Hrec.
Qed.

Lemma find_one_update_first (s : string) (f : doc → doc) (c : collection)
    (d : doc) :
  (∀ x, d_symbol (f x) = d_symbol x) →
  find_one s c = Some d → find_one s (update_first s f c) = Some (f d).
Proof.
  intros Hf. unfold find_one.
  induction c as [|x c IH]; simpl; [done|].
  destruct (has_symbol s x) eqn:Hx; simpl.
  - intros [= ->]. unfold has_symbol in *. by rewrite Hf, Hx.
  - rewrite Hx. apply IH.
Qed.

(** One iteration, by the outcome of its fetch. *)
Lemma update_asset_outcome (fuel : nat) (yesterday : datetime)
    (crypto : doc) (symbol_var : option string) (st : State) :
  let out := update_asset fuel yesterday crypto symbol_var st in
  let untouched :=
    store (state_of out) = store st ∧ writes_of (trace_of out) = [] in
  match d_symbol crypto with
  | None => untouched
  | Some s =>
      if is_recent yesterday (snapshot_last_date crypto) then untouched
      else
        match res_of (fetch_crypto_daily fuel s
                        (next_start_date (snapshot_last_date crypto)) st) with
        | Ok (b :: bs) =>
            ascending (b :: bs) ∧
            writes_of (trace_of out) = [EvPush s (b :: bs)] ∧
            store (state_of out) =
              update_first s (push_each (b :: bs)) (store st)
        | _ => untouched
        end
  end.
Proof.
  simpl.
  destruct (d_symbol crypto) as [s|] eqn:Hs.
  2:{ unfold update_asset. rewrite Hs.
      unfold update_asset_handler. by destruct symbol_var. }
  destruct (is_recent yesterday (snapshot_last_date crypto)) eqn:Hrec.
  { by rewrite (update_asset_recent _ _ _ _ _ _ Hs Hrec). }
  rewrite (update_asset_stale _ _ _ _ _ _ Hs Hrec).
  pose proof (frame_fetch_crypto_daily fuel s
    (next_start_date (snapshot_last_date crypto)) st) as [Hst Hw].
  destruct (fetch_crypto_daily _ _ _ st) as [[[[|b bs]|e|] st1] t1] eqn:Hf;
    simpl in *.
  - by rewrite !writes_of_app, Hw.
  - destruct (fetch_crypto_daily_result _ _ _ _ _ _ _ Hf) as [Hasc _].
    by rewrite Hst, !writes_of_app, Hw.
  - by rewrite !writes_of_app, Hw.
  - done.
Qed.

Lemma update_asset_writes (fuel : nat) (yesterday : datetime)
    (crypto : doc) (symbol_var : option string) (st : State) :
  (length (writes_of (trace_of
     (update_asset fuel yesterday crypto symbol_var st))) ≤ 1)%nat.
Proof.
  pose proof (update_asset_outcome fuel yesterday crypto symbol_var st) as H.
  simpl in H.
  destruct (d_symbol crypto) as [s|]; [|rewrite (proj2 H); simpl; lia].
  destruct (is_recent _ _); [rewrite (proj2 H); simpl; lia|].
  destruct (res_of _) as [[|b bs]|e|].
  - rewrite (proj2 H); simpl; lia.
  - destruct H as (_ & -> & _). simpl; lia.
  - rewrite (proj2 H); simpl; lia.
  - rewrite (proj2 H); simpl; lia.
Qed.

Lemma update_loop_writes (fuel : nat) (yesterday : datetime)
    (cryptos : list doc) (symbol_var : option string) (st : State) :
  (length (writes_of (trace_of
     (update_loop fuel yesterday cryptos symbol_var st))) ≤ length cryptos)%nat.
Proof.
  revert symbol_var st.
  induction cryptos as [|crypto rest IH]; intros symbol_var st; [done|].
  simpl. unfold bind.
  pose proof (update_asset_writes fuel yesterday crypto symbol_var st) as H1.
  destruct (update_asset fuel yesterday crypto symbol_var st)
    as [[[v|e|] st1] t1]; simpl in *; [|lia..].
  specialize (IH v st1).
  destruct (update_loop fuel yesterday rest v st1) as [[r st2] t2].
  simpl in *. rewrite writes_of_app, length_app. lia.
Qed.

(** C6.  One iteration of the update loop, by the outcome of its fetch.
    A document without symbol and a recent document are left alone.  For
    the others: when the fetch returns a non-empty list, the iteration
    makes exactly one write, the [$push] of that list, which is in strictly
    increasing date order, and the stored dayline of the asset becomes the
    old one followed by the fetched bars; when the fetch returns the empty
    list, raises or gives no result, nothing is written and the collection
    is as before.  A whole run makes no more writes than there are stored
    documents. *)
Theorem update_asset_single_append (fuel : nat) (yesterday : datetime)
    (crypto : doc) (symbol_var : option string) (st : State) :
  let out := update_asset fuel yesterday crypto symbol_var st in
  let untouched :=
    store (state_of out) = store st ∧ writes_of (trace_of out) = [] in
  match d_symbol crypto with
  | None => untouched
  | Some s =>
      if is_recent yesterday (snapshot_last_date crypto) then untouched
      else
        match res_of (fetch_crypto_daily fuel s
                        (next_start_date (snapshot_last_date crypto)) st) with
        | Ok (b :: bs) =>
            ascending (b :: bs) ∧
            writes_of (trace_of out) = [EvPush s (b :: bs)] ∧
            store (state_of out) =
              update_first s (push_each (b :: bs)) (store st) ∧
            (∀ d, find_one s (store st) = Some d →
               find_one s (store (state_of out)) =
                 Some (mk_doc (d_name d) (d_symbol d)
                         (d_dayline d ++ b :: bs)))
        | _ => untouched
        end
  end ∧
  (length (writes_of (trace_of (update_crypto_daily fuel st))) ≤
   length (store st))%nat.
Proof.
  split.
  - pose proof (update_asset_outcome fuel yesterday crypto symbol_var st) as H.
    simpl in *.
    destruct (d_symbol crypto) as [s|]; [|done].
    destruct (is_recent _ _); [done|].
    destruct (res_of _) as [[|b bs]|e|]; try done.
    destruct H as (Hasc & Hw & Hst). split; [done|]. split; [done|].
    split; [done|]. intros d Hd. rewrite Hst.
    by apply (find_one_update_first s (push_each (b :: bs))).
  - unfold update_crypto_daily.
    pose proof (update_loop_writes fuel
      (add_days (midnight (utcnow (world st))) (-1))
      (snapshot (store st)) None st) as H.
    unfold snapshot in H at 2. rewrite length_map in H.
    unfold logged, try_except. rewrite bind_get_store, bind_utcnow.
    destruct (update_loop _ _ _ _ _) as [[[v|e|] st1] t1]; simpl in *;
      [done| |done].
    by rewrite writes_of_app, app_nil_r.
Qed.

(** ** [fetch_crypto_daily] on an asset that has bars *)

Lemma fetch_crypto_daily_with_history (fuel : nat) (symbol : string)
    (start_date : option datetime) (st : State) (crypto_data : doc) (b : bar) :
  find_one symbol (store st) = Some crypto_data →
  last (d_dayline crypto_data) = Some b →
  fetch_crypto_daily fuel symbol start_date st =
    if midnight (utcnow (world st)) <=? b_date b then (Ok [], st, [])
    else logged At_fetch_crypto_daily (Some symbol)
           (fetch_crypto_daily_binance fuel symbol
              (Some (add_days (b_date b) 1))) st.
Proof.
  intros Hfind Hlast.
  set (rhs := logged _ _ (fetch_crypto_daily_binance _ _ (Some _)) st).
  unfold fetch_crypto_daily, logged, try_except.
  unfold bind at 1, get_store at 1. simpl. rewrite Hfind.
  unfold slice_last. rewrite Hlast.
  unfold bind at 1, datetime_utcnow at 1. simpl.
  destruct (midnight (utcnow (world st)) <=? b_date b) eqn:Hc.
  - reflexivity.
  - subst rhs. unfold logged, try_except.
    destruct (fetch_crypto_daily_binance _ _ _ st) as [[[a|e|] st1] t1];
      reflexivity.
Qed.

(** ** The first request of a fetch *)

Lemma starts_with_bind {A B} (ev : event) (m : M A) (f : A → M B) st :
  starts_with ev (m st) → starts_with ev (bind m f st).
Proof.
  intros [t Ht]. unfold bind.
  destruct (m st) as [[[a|e|] st1] t1]; simpl in Ht; subst; [|by eexists..].
  destruct (f a st1) as [[r st2] t2]. by eexists.
Qed.

Lemma starts_with_try_except {A} (ev : event) (m : M A) (h : exn → M A) st :
  starts_with ev (m st) → starts_with ev (try_except m h st).
Proof.
  intros [t Ht]. unfold try_except.
  destruct (m st) as [[[a|e|] st1] t1]; simpl in Ht; subst; [by eexists| |by eexists].
  destruct (h e st1) as [[r st2] t2]. by eexists.
Qed.

Lemma starts_with_make_request (p : params) st :
  starts_with (EvRequest p) (make_request p st).
Proof.
  unfold make_request, range. simpl.
  apply starts_with_try_except. unfold requests_get.
  destruct (http_get p (world st)) as [[j|c] w]; by eexists.
Qed.

Lemma starts_with_bind_ret {A B} (ev : event) (a : A) (f : A → M B) st :
  starts_with ev (f a st) → starts_with ev (bind (ret a) f st).
Proof.
  intros [t Ht]. unfold bind, ret.
  destruct (f a st) as [[r st2] t2]. by eexists.
Qed.

Lemma starts_with_klines_loop (fuel : nat) (sd : option datetime)
    (p : params) (acc : list bar) (seen : gset Z) st :
  starts_with (EvRequest p) (klines_loop (S fuel) sd p acc seen st).
Proof. simpl. apply starts_with_bind, starts_with_make_request. Qed.

Lemma starts_with_fetch_crypto_daily_binance (fuel : nat) (s : string)
    (d : datetime) st :
  starts_with (EvRequest (mk_params s (Some (timestamp d)) None))
    (fetch_crypto_daily_binance (S fuel) s (Some d) st).
Proof.
  unfold fetch_crypto_daily_binance, logged. apply starts_with_try_except.
  apply starts_with_bind_ret, starts_with_bind, starts_with_klines_loop.
Qed.

Lemma find_one_symbol (s : string) (c : collection) (d : doc) :
  find_one s c = Some d → d_symbol d = Some s.
Proof.
  unfold find_one. intros H. apply find_some in H as [_ H].
  by apply bool_decide_eq_true in H.
Qed.

Lemma snapshot_last_date_projected (d : doc) (b : bar) :
  last (d_dayline d) = Some b →
  snapshot_last_date (projected d) = Some (b_date b).
Proof.
  intros Hlast. unfold snapshot_last_date, projected, slice_last. simpl.
  by rewrite Hlast.
Qed.

(** The iteration on a document that is not recent, when the clock's day
    is after its last date too, starts with the request from the day after
    that date. *)
Lemma update_asset_first_request (fuel : nat) (yesterday : datetime)
    (stored : doc) (symbol_var : option string) (s : string) (b : bar)
    (st : State) :
  find_one s (store st) = Some stored →
  last (d_dayline stored) = Some b →
  b_date b < yesterday →
  b_date b < midnight (utcnow (world st)) →
  starts_with
    (EvRequest (mk_params s (Some (timestamp (add_days (b_date b) 1))) None))
    (update_asset (S fuel) yesterday (projected stored) symbol_var st).
Proof.
  intros Hfind Hlast Hcmp Hlt.
  pose proof (find_one_symbol _ _ _ Hfind) as Hs.
  unfold update_asset.
  change (d_symbol (projected stored)) with (d_symbol stored). rewrite Hs.
  unfold update_asset_body.
  rewrite (snapshot_last_date_projected _ _ Hlast). simpl.
  rewrite (proj2 (Z.leb_gt _ _) Hcmp).
  apply starts_with_bind, starts_with_try_except.
  unfold fetch_and_merge. apply starts_with_bind.
  rewrite (fetch_crypto_daily_with_history _ _ _ _ _ _ Hfind Hlast).
  rewrite (proj2 (Z.leb_gt _ _) Hlt).
  apply starts_with_try_except, starts_with_fetch_crypto_daily_binance.
Qed.

(** ** A failing asset in the middle of the batch *)

Lemma has_symbol_true (s : string) (d : doc) :
  d_symbol d = Some s → has_symbol s d = true.
Proof. intros H. unfold has_symbol. by rewrite bool_decide_eq_true. Qed.


Lemma update_loop_cons (fuel : nat) (yesterday : datetime) (x : doc)
    (rest : list doc) (symbol_var : option string) (st : State) :
  update_loop fuel yesterday (x :: rest) symbol_var st =
  bind (update_asset fuel yesterday x symbol_var)
    (fun v => update_loop fuel yesterday rest v) st.
Proof. reflexivity. Qed.


(** An iteration raises only when the document has no symbol and no
    earlier iteration has bound [symbol]. *)
Lemma update_asset_result (fuel : nat) (yesterday : datetime) (crypto : doc)
    (symbol_var : option string) (st : State) :
  is_Some (d_symbol crypto) ∨ is_Some symbol_var →
  res_of (update_asset fuel yesterday crypto symbol_var st) = OutOfFuel ∨
  ∃ s, res_of (update_asset fuel yesterday crypto symbol_var st) = Ok (Some s).
Proof.
  intros Hsome. unfold update_asset.
  destruct (d_symbol crypto) as [s|].
  - unfold bind, try_except.
    destruct (update_asset_body fuel yesterday crypto s st)
      as [[[[]|e|] st1] t1]; simpl; eauto.
  - destruct Hsome as [[s Hs]|[s0 ->]]; [done|]. simpl. eauto.
Qed.

Lemma update_loop_no_raise (fuel : nat) (yesterday : datetime)
    (cryptos : list doc) (symbol_var : option string) (st : State) (e : exn) :
  is_Some symbol_var ∨ (∀ x, head cryptos = Some x → is_Some (d_symbol x)) →
  res_of (update_loop fuel yesterday cryptos symbol_var st) ≠ Raise e.
Proof.
  revert symbol_var st.
  induction cryptos as [|x rest IH]; intros symbol_var st Hsome; [done|].
  rewrite update_loop_cons. unfold bind.
  assert (Hx : is_Some (d_symbol x) ∨ is_Some symbol_var).
  { destruct Hsome as [H|H]; [by right|left]. by apply H. }
  destruct (update_asset_result fuel yesterday x symbol_var st Hx)
    as [Hr|[s Hr]];
    destruct (update_asset fuel yesterday x symbol_var st)
      as [[r1 st1] t1]; simpl in Hr; subst r1; [done|].
  specialize (IH (Some s) st1 (or_introl (mk_is_Some _ _ eq_refl))).
  by destruct (update_loop fuel yesterday rest (Some s) st1) as [[r st2] t2].
Qed.



(** ** Bootstrap against update on assets without bars *)

Lemma find_one_update_first_ne (s s' : string) (f : doc → doc)
    (c : collection) :
  s ≠ s' → (∀ d, d_symbol (f d) = d_symbol d) →
  find_one s' (update_first s f c) = find_one s' c.
Proof.
  intros Hne Hf. unfold find_one.
  induction c as [|d c IH]; simpl; [done|].
  destruct (has_symbol s d) eqn:Hd; simpl.
  - unfold has_symbol in *. rewrite Hf.
    apply bool_decide_eq_true in Hd.
    rewrite !bool_decide_eq_false_2; [done|congruence..].
  - by rewrite IH.
Qed.

Lemma update_first_set_push (s : string) (bars : list bar) (c : collection) :
  (∀ d, find_one s c = Some d → d_dayline d = []) →
  update_first s (set_dayline bars) c = update_first s (push_each bars) c.
Proof.
  unfold find_one. induction c as [|d c IH]; simpl; intros Hd; [done|].
  destruct (has_symbol s d).
  - unfold set_dayline, push_each. by rewrite (Hd d eq_refl).
  - by rewrite IH.
Qed.

Lemma update_first_set_nil (s : string) (c : collection) :
  (∀ d, find_one s c = Some d → d_dayline d = []) →
  update_first s (set_dayline []) c = c.
Proof.
  unfold find_one. induction c as [|d c IH]; simpl; intros Hd; [done|].
  destruct (has_symbol s d).
  - unfold set_dayline. rewrite <- (Hd d eq_refl). by destruct d.
  - by rewrite IH.
Qed.

Lemma init_asset_new (fuel : nat) (c : doc) (s : string) st :
  d_symbol c = Some s →
  init_asset fuel c st =
    match fetch_crypto_daily fuel s None st with
    | (Ok bars, st1, t1) =>
        (Ok tt,
         mk_state (sleep 1 (world st1))
           (update_first s (set_dayline bars) (store st1)),
         t1 ++ [EvSet s bars; EvSleep 1])
    | (Raise e, st1, t1) =>
        (Ok tt, st1, t1 ++ [EvError At_init_asset (Some s) e])
    | (OutOfFuel, st1, t1) => (OutOfFuel, st1, t1)
    end.
Proof.
  intros Hs. unfold init_asset, try_except, getitem_symbol. rewrite Hs.
  unfold bind at 1, ret at 1. simpl.
  unfold bind at 1.
  by destruct (fetch_crypto_daily fuel s None st) as [[[bars|e|] st1] t1].
Qed.

Lemma asset_agree (fuel : nat) (yesterday : datetime) (c : doc)
    (symbol_var : option string) (s : string) st :
  d_symbol c = Some s → d_dayline c = [] →
  (∀ d, find_one s (store st) = Some d → d_dayline d = []) →
  match init_asset fuel c st,
        update_asset fuel yesterday (projected c) symbol_var st with
  | (Ok _, sti, _), (Ok _, stu, _) =>
      sti = stu ∧
      ∀ s', s ≠ s' → find_one s' (store sti) = find_one s' (store st)
  | (OutOfFuel, sti, _), (OutOfFuel, stu, _) => sti = stu
  | _, _ => False
  end.
Proof.
  intros Hs Hd Hstored.
  assert (Hrec : is_recent yesterday (snapshot_last_date (projected c)) = false).
  { unfold projected, snapshot_last_date. simpl. by rewrite Hd. }
  assert (Hnext : next_start_date (snapshot_last_date (projected c)) = None).
  { unfold projected, snapshot_last_date. simpl. by rewrite Hd. }
  rewrite (init_asset_new _ _ _ _ Hs).
  rewrite (update_asset_stale _ _ (projected c) _ s _ Hs Hrec), Hnext.
  pose proof (frame_fetch_crypto_daily fuel s None st) as [Hst _].
  destruct (fetch_crypto_daily fuel s None st) as [[[[|b bs]|e|] st1] t1];
    simpl in Hst; rewrite <- Hst in Hstored.
  - rewrite update_first_set_nil by done. split; [done|]. intros s' _.
    simpl. by rewrite Hst.
  - rewrite update_first_set_push by done. split; [done|]. intros s' Hne.
    simpl. rewrite find_one_update_first_ne by done. by rewrite Hst.
  - split; [done|]. intros s' _. by rewrite Hst.
  - done.
Qed.

Lemma loops_agree (fuel : nat) (yesterday : datetime) (cs : list doc)
    (symbol_var : option string) st :
  Forall (fun c => ∃ s, d_symbol c = Some s ∧ d_dayline c = [] ∧
            ∀ d, find_one s (store st) = Some d → d_dayline d = []) cs →
  NoDup (d_symbol <$> cs) →
  res_of (init_loop fuel cs st) =
    res_of (update_loop fuel yesterday (projected <$> cs) symbol_var st) ∧
  state_of (init_loop fuel cs st) =
    state_of (update_loop fuel yesterday (projected <$> cs) symbol_var st).
Proof.
  revert symbol_var st.
  induction cs as [|c cs IH]; intros symbol_var st Hcs Hnd; [done|].
  inversion Hcs as [|? ? (s & Hs & Hd & Hstored) Hcs']; subst.
  simpl in Hnd. apply NoDup_cons in Hnd as [Hnin Hnd].
  change (init_loop fuel (c :: cs) st)
    with (bind (init_asset fuel c) (fun _ => init_loop fuel cs) st).
  change (update_loop fuel yesterday (projected <$> c :: cs) symbol_var st)
    with (bind (update_asset fuel yesterday (projected c) symbol_var)
            (fun v => update_loop fuel yesterday (projected <$> cs) v) st).
  unfold bind.
  pose proof (asset_agree fuel yesterday c symbol_var s st Hs Hd Hstored) as Ha.
  destruct (init_asset fuel c st) as [[[[]|ei|] sti] ti];
    destruct (update_asset fuel yesterday (projected c) symbol_var st)
      as [[[v|eu|] stu] tu]; try done.
  - destruct Ha as [<- Hother].
    assert (Hcs2 : Forall (fun c => ∃ s, d_symbol c = Some s ∧
              d_dayline c = [] ∧
              ∀ d, find_one s (store sti) = Some d → d_dayline d = []) cs).
    { rewrite Forall_forall in Hcs' |- *. intros c' Hc'.
      destruct (Hcs' c' Hc') as (s' & Hs' & Hd' & Hst').
      exists s'. split; [done|]. split; [done|].
      rewrite Hother; [done|]. intros ->. apply Hnin.
      rewrite Hs, <- Hs'. by apply list_elem_of_fmap_2. }
    destruct (IH v sti Hcs2 Hnd) as [Hr Hs2].
    destruct (init_loop fuel cs sti) as [[ri sti2] ti2].
    destruct (update_loop fuel yesterday (projected <$> cs) v sti)
      as [[ru stu2] tu2].
    simpl in *. by subst.
Qed.

(** C8, amended.  On a collection in which every document has a symbol,
    no symbol occurs twice and every dayline is empty, [init_crypto_daily]
    and [update_crypto_daily] end in the same way and leave the same
    collection (and the same world). *)
Theorem init_equals_update_on_new_assets (fuel : nat) (st : State) :
  Forall (fun d => is_Some (d_symbol d) ∧ d_dayline d = []) (store st) →
  NoDup (d_symbol <$> store st) →
  res_of (init_crypto_daily fuel st) = res_of (update_crypto_daily fuel st) ∧
  state_of (init_crypto_daily fuel st) = state_of (update_crypto_daily fuel st).
Proof.
  intros Hall Hnd.
  set (yesterday := add_days (midnight (utcnow (world st))) (-1)).
  assert (Hcs : Forall (fun c => ∃ s, d_symbol c = Some s ∧
            d_dayline c = [] ∧
            ∀ d, find_one s (store st) = Some d → d_dayline d = []) (store st)).
  { rewrite Forall_forall in Hall |- *. intros c Hc.
    destruct (Hall c Hc) as [[s Hs] Hd]. exists s. split; [done|].
    split; [done|]. intros d Hfind. apply find_some in Hfind as [Hin _].
    apply list_elem_of_In in Hin. by destruct (Hall d Hin). }
  destruct (loops_agree fuel yesterday (store st) None st Hcs Hnd) as [Hr Hs].
  unfold init_crypto_daily, update_crypto_daily.
  rewrite !logged_res_of, !logged_state_of, !bind_get_store, bind_utcnow.
  done.
Qed.

(** ** The pagination loop, one page at a time *)

Lemma make_request_ok (p : params) (ks : list kline) (w : World) st :
  http_get p (world st) = (HttpOk ks, w) →
  make_request p st = (Ok ks, mk_state w (store st), [EvRequest p]).
Proof.
  intros Hget. unfold make_request, range. simpl.
  unfold try_except, requests_get. by rewrite Hget.
Qed.

(** A full page: the window start moves past its last candle, the loop
    sleeps and asks again. *)
Lemma klines_loop_full_page (fuel : nat) (sd : option datetime) (p : params)
    (acc : list bar) (seen : gset Z) (ks : list kline) (kl : kline)
    st st1 t1 :
  make_request p st = (Ok ks, st1, t1) →
  PAGE_LIMIT ≤ Z.of_nat (length ks) → last ks = Some kl →
  klines_loop (S fuel) sd p acc seen st =
    after_events (t1 ++ [EvSleep 1])
      (klines_loop fuel sd
         (mk_params (p_symbol p) (Some (k_time kl + 1)) (p_endTime p))
         (collect ks acc seen).1 (collect ks acc seen).2
         (mk_state (sleep 1 (world st1)) (store st1))).
Proof.
  intros Hreq Hlen Hlast. simpl. unfold bind at 1. rewrite Hreq.
  destruct ks as [|k ks]; [done|].
  destruct (collect (k :: ks) acc seen) as [acc' seen'].
  rewrite (proj2 (Z.ltb_ge _ _) Hlen).
  unfold bind at 1, last_open_time. rewrite Hlast. simpl.
  unfold bind at 1, time_sleep at 1. simpl.
  destruct (klines_loop fuel sd _ acc' seen' _) as [[r st2] t2].
  unfold after_events. simpl. by rewrite <- !app_assoc.
Qed.

(** A short page that ends the bounded window of a full-history fetch: the
    bounds are dropped and the loop asks again, without sleeping. *)
Lemma klines_loop_window_end (fuel : nat) (p : params)
    (acc : list bar) (seen : gset Z) (ks : list kline) (s e : Z)
    st st1 t1 :
  make_request p st = (Ok ks, st1, t1) →
  ks ≠ [] → Z.of_nat (length ks) < PAGE_LIMIT →
  p_startTime p = Some s → p_endTime p = Some e →
  klines_loop (S fuel) None p acc seen st =
    after_events t1
      (klines_loop fuel None (mk_params (p_symbol p) None None)
         (collect ks acc seen).1 (collect ks acc seen).2 st1).
Proof.
  intros Hreq Hne Hlen Hs He. simpl. unfold bind at 1. rewrite Hreq.
  destruct ks as [|k ks]; [done|].
  destruct (collect (k :: ks) acc seen) as [acc' seen'].
  rewrite (proj2 (Z.ltb_lt _ _) Hlen), He.
  unfold bind at 1, pop_window. rewrite Hs, He. simpl.
  destruct (klines_loop fuel None _ acc' seen' _) as [[r st2] t2].
  by unfold after_events.
Qed.

(** A short page anywhere else, or an empty one, ends the loop. *)
Lemma klines_loop_last_page (fuel : nat) (sd : option datetime) (p : params)
    (acc : list bar) (seen : gset Z) (ks : list kline) st st1 t1 :
  make_request p st = (Ok ks, st1, t1) →
  Z.of_nat (length ks) < PAGE_LIMIT →
  ks = [] ∨ is_Some sd ∨ p_endTime p = None →
  klines_loop (S fuel) sd p acc seen st =
    (Ok (collect ks acc seen).1, st1, t1 ++ []).
Proof.
  intros Hreq Hlen Hcase. simpl. unfold bind at 1. rewrite Hreq.
  destruct ks as [|k ks]; [done|].
  destruct (collect (k :: ks) acc seen) as [acc' seen'].
  rewrite (proj2 (Z.ltb_lt _ _) Hlen).
  destruct Hcase as [H0|[Hsd|He]]; [done| |].
  - destruct Hsd as [d Hd]. by subst.
  - rewrite He. by destruct sd.
Qed.

Lemma collect_app (l1 l2 : list kline) (acc : list bar) (seen : gset Z) :
  collect (l1 ++ l2) acc seen =
  collect l2 (collect l1 acc seen).1 (collect l1 acc seen).2.
Proof.
  revert acc seen. induction l1 as [|k l1 IH]; intros acc seen; [done|].
  simpl. by destruct (decide _).
Qed.

Lemma bind_Ok_eq {A B} (m : M A) (f : A → M B) st a st1 t1 :
  m st = (Ok a, st1, t1) → bind m f st = after_events t1 (f a st1).
Proof.
  intros Hm. unfold bind, after_events. rewrite Hm.
  by destruct (f a st1) as [[r st2] t2].
Qed.

Lemma collect_new (ks : list kline) (acc : list bar) (seen : gset Z) :
  NoDup (kline_day <$> ks) → (∀ k, k ∈ ks → kline_day k ∉ seen) →
  collect ks acc seen =
    (acc ++ (to_bar <$> ks), list_to_set (kline_day <$> ks) ∪ seen).
Proof.
  revert acc seen. induction ks as [|k ks IH]; intros acc seen Hnd Hnew.
  - simpl. rewrite app_nil_r. f_equal. set_solver.
  - simpl in Hnd. apply NoDup_cons in Hnd as [Hk Hnd]. simpl.
    fold (kline_day k).
    destruct (decide (kline_day k ∈ seen)) as [Hin|_].
    { exfalso. apply (Hnew k); [by left|done]. }
    rewrite IH; [|done|].
    + rewrite <- app_assoc. simpl. f_equal. set_solver.
    + intros k' Hk'. rewrite elem_of_union, elem_of_singleton.
      intros [Heq|Hin].
      * apply Hk. rewrite <- Heq. by apply list_elem_of_fmap_2.
      * apply (Hnew k'); [by right|done].
Qed.

Lemma collect_known (ks : list kline) (acc : list bar) (seen : gset Z) :
  (∀ k, k ∈ ks → kline_day k ∈ seen) → collect ks acc seen = (acc, seen).
Proof.
  induction ks as [|k ks IH]; intros Hknown; [done|].
  simpl. fold (kline_day k).
  destruct (decide (kline_day k ∈ seen)) as [_|Hn].
  - apply IH. intros k' Hk'. apply Hknown. by right.
  - exfalso. apply Hn, Hknown. by left.
Qed.

(** A full-history fetch whose bounded window is answered with one short
    page: three requests, the bars of that page and of the last answer. *)
Lemma full_history_short_window (fuel : nat) (symbol : string) (st : State)
    (probe page tail : list kline) (kp : kline) (w1 w2 w3 : World) :
  let p0 := mk_params symbol None None in
  let pw := mk_params symbol (Some (timestamp BINANCE_LAUNCH))
              (Some (k_time kp)) in
  http_get p0 (world st) = (HttpOk probe, w1) → last probe = Some kp →
  http_get pw w1 = (HttpOk page, w2) →
  page ≠ [] → Z.of_nat (length page) < PAGE_LIMIT →
  http_get p0 w2 = (HttpOk tail, w3) → Z.of_nat (length tail) < PAGE_LIMIT →
  fetch_crypto_daily_binance (S (S fuel)) symbol None st =
    (Ok (sort_by_date (collect (page ++ tail) [] ∅).1),
     mk_state w3 (store st),
     [EvRequest p0; EvRequest pw; EvRequest p0]).
Proof.
  intros p0 pw Hprobe Hkp Hpage Hne Hlen Htail Hlen'.
  set (st1 := mk_state w1 (store st)).
  assert (Hwindow : bind (make_request p0)
            (fun recent_data =>
               match recent_data with
               | [] => ret p0
               | _ :: _ =>
                   bind (last_open_time recent_data) (fun t =>
                     ret (mk_params symbol (Some (timestamp BINANCE_LAUNCH))
                            (Some t)))
               end) st = (Ok pw, st1, [EvRequest p0])).
  { rewrite (bind_Ok_eq _ _ _ _ _ _ (make_request_ok _ _ _ _ Hprobe)).
    destruct probe as [|k probe]; [done|].
    unfold bind, last_open_time. by rewrite Hkp. }
  assert (Hloop : klines_loop (S (S fuel)) None pw [] ∅ st1 =
            (Ok (collect (page ++ tail) [] ∅).1, mk_state w3 (store st),
             [EvRequest pw; EvRequest p0])).
  { rewrite (klines_loop_window_end _ _ _ _ page (timestamp BINANCE_LAUNCH)
               (k_time kp) st1 _ _ (make_request_ok pw page w2 st1 Hpage));
      [|done..].
    simpl p_symbol. fold p0. simpl world.
    rewrite (klines_loop_last_page _ _ _ _ _ tail _ _ _
               (make_request_ok p0 tail w3 (mk_state w2 (store st)) Htail));
      [|done|by right; right].
    rewrite collect_app. by unfold after_events. }
  unfold fetch_crypto_daily_binance, logged, try_except.
  fold p0. rewrite (bind_Ok_eq _ _ _ _ _ _ Hwindow).
  rewrite (bind_Ok_eq _ _ _ _ _ _ Hloop). by unfold after_events.
Qed.

(** C2, amended.  A full-history fetch whose first request (no bounds)
    is answered with candles, whose bounded window then gives a page of
    1000 candles and a page of 200, and whose last request (no bounds
    again) gives fewer than 1000, makes exactly these four requests.  It
    returns the bars of the two pages and of the last answer, one per day,
    in strictly increasing date order: 1200 bars when the candles of the
    two pages lie on different days and the last answer brings no other
    day. *)
Theorem full_history_fetch_pages (fuel : nat) (symbol : string) (st : State)
    (probe page1 page2 tail : list kline) (kp k1 : kline)
    (w1 w2 w3 w4 : World) :
  let p0 := mk_params symbol None None in
  let pw := mk_params symbol (Some (timestamp BINANCE_LAUNCH))
              (Some (k_time kp)) in
  let pw' := mk_params symbol (Some (k_time k1 + 1)) (Some (k_time kp)) in
  http_get p0 (world st) = (HttpOk probe, w1) → last probe = Some kp →
  http_get pw w1 = (HttpOk page1, w2) →
  length page1 = 1000%nat → last page1 = Some k1 →
  http_get pw' (sleep 1 w2) = (HttpOk page2, w3) → length page2 = 200%nat →
  http_get p0 w3 = (HttpOk tail, w4) → (length tail < 1000)%nat →
  let out := fetch_crypto_daily_binance (S (S (S fuel))) symbol None st in
  let bars := sort_by_date (collect (page1 ++ page2 ++ tail) [] ∅).1 in
  requests_of (trace_of out) =
    [EvRequest p0; EvRequest pw; EvRequest pw'; EvRequest p0] ∧
  res_of out = Ok bars ∧
  ascending bars ∧
  (NoDup (kline_day <$> (page1 ++ page2)) →
   (∀ k, k ∈ tail → kline_day k ∈ kline_day <$> (page1 ++ page2)) →
   length bars = 1200%nat).
Proof.
  intros p0 pw pw' Hprobe Hkp Hpage1 Hlen1 Hk1 Hpage2 Hlen2 Htail Hlen3.
  set (st1 := mk_state w1 (store st)).
  set (st2 := mk_state (sleep 1 w2) (store st)).
  assert (Hwindow : bind (make_request p0)
            (fun recent_data =>
               match recent_data with
               | [] => ret p0
               | _ :: _ =>
                   bind (last_open_time recent_data) (fun t =>
                     ret (mk_params symbol (Some (timestamp BINANCE_LAUNCH))
                            (Some t)))
               end) st = (Ok pw, st1, [EvRequest p0])).
  { rewrite (bind_Ok_eq _ _ _ _ _ _ (make_request_ok _ _ _ _ Hprobe)).
    destruct probe as [|k probe]; [done|].
    unfold bind, last_open_time. by rewrite Hkp. }
  assert (Hloop : klines_loop (S (S (S fuel))) None pw [] ∅ st1 =
            (Ok (collect (page1 ++ page2 ++ tail) [] ∅).1,
             mk_state w4 (store st),
             [EvRequest pw; EvSleep 1; EvRequest pw'; EvRequest p0])).
  { rewrite (klines_loop_full_page _ _ _ _ _ page1 k1 _ _ _
               (make_request_ok pw page1 w2 st1 Hpage1)); [|rewrite Hlen1; done|done].
    simpl p_symbol. simpl p_endTime. fold pw'. simpl world. simpl store.
    rewrite (klines_loop_window_end _ _ _ _ page2 (k_time k1 + 1) (k_time kp)
               st2 _ _ (make_request_ok pw' page2 w3 st2 Hpage2));
      [|by destruct page2|rewrite Hlen2; done|done|done].
    simpl p_symbol. fold p0. simpl world.
    rewrite (klines_loop_last_page _ _ _ _ _ tail _ _ _
               (make_request_ok p0 tail w4 (mk_state w3 (store st)) Htail));
      [|unfold PAGE_LIMIT; lia|by right; right].
    rewrite !collect_app. unfold after_events. simpl.
    by destruct (collect page1 [] ∅) as [a1 s1]. }
  assert (Hrun : fetch_crypto_daily_binance (S (S (S fuel))) symbol None st =
            (Ok (sort_by_date (collect (page1 ++ page2 ++ tail) [] ∅).1),
             mk_state w4 (store st),
             [EvRequest p0; EvRequest pw; EvSleep 1; EvRequest pw';
              EvRequest p0])).
  { unfold fetch_crypto_daily_binance, logged, try_except.
    fold p0. rewrite (bind_Ok_eq _ _ _ _ _ _ Hwindow).
    rewrite (bind_Ok_eq _ _ _ _ _ _ Hloop). by unfold after_events. }
  simpl. rewrite Hrun. simpl.
  split; [done|]. split; [done|]. split.
  - eapply fetch_crypto_daily_binance_result. exact Hrun.
  - intros Hnd Hknown.
    rewrite sort_by_date_perm, (assoc_L (++)), collect_app.
    rewrite (collect_new (page1 ++ page2) [] ∅ Hnd)
      by (intros k _; apply not_elem_of_empty).
    simpl. rewrite collect_known.
    + simpl. rewrite length_fmap, length_app. lia.
    + intros k Hk. rewrite elem_of_union. left.
      rewrite elem_of_list_to_set. by apply Hknown.
Qed.

(** ** The world and the events of the work on one symbol *)

Section Safe.

Variable P : World → Prop.
Variable Q : event → Prop.
Variable symbol : string.

Hypothesis P_sleep : ∀ secs w, P w → P (sleep secs w).
Hypothesis P_get : ∀ p w, P w → P (http_get p w).2.
Hypothesis Q_request : ∀ p, p_symbol p = symbol → Q (EvRequest p).
Hypothesis Q_other : ∀ ev, is_request ev = false → Q ev.

Lemma safe_ret {A} (a : A) : safe P Q (ret a).
Proof. by intros st HP. Qed.

Lemma safe_raise {A} (e : exn) : safe P Q (raise (A := A) e).
Proof. by intros st HP. Qed.

Lemma safe_out_of_fuel {A} : safe P Q (out_of_fuel (A := A)).
Proof. by intros st HP. Qed.

Lemma safe_emit (ev : event) : is_request ev = false → safe P Q (emit ev).
Proof.
  intros Hev st HP. split; [done|]. simpl. constructor; [|done].
  by apply Q_other.
Qed.

Lemma safe_time_sleep (secs : Z) : safe P Q (time_sleep secs).
Proof.
  intros st HP. split; [by apply P_sleep|]. simpl.
  constructor; [|done]. by apply Q_other.
Qed.

Lemma safe_datetime_utcnow : safe P Q datetime_utcnow.
Proof. by intros st HP. Qed.

Lemma safe_get_store : safe P Q get_store.
Proof. by intros st HP. Qed.

Lemma safe_requests_get (p : params) :
  p_symbol p = symbol → safe P Q (requests_get p).
Proof.
  intros Hp st HP. unfold requests_get.
  pose proof (P_get p (world st) HP) as HP'.
  destruct (http_get p (world st)) as [[j|c] w]; simpl in *.
  - split; [done|]. constructor; [by apply Q_request|done].
  - split; [done|]. constructor; [by apply Q_request|done].
Qed.

Lemma safe_bind {A B} (m : M A) (f : A → M B) :
  safe P Q m → (∀ a, safe P Q (f a)) → safe P Q (bind m f).
Proof.
  intros Hm Hf st HP. unfold bind. specialize (Hm st HP).
  destruct (m st) as [[[a|e|] st1] t1]; simpl in *; try done.
  destruct Hm as [HP1 HQ1]. specialize (Hf a st1 HP1).
  destruct (f a st1) as [[r st2] t2]; simpl in *.
  destruct Hf as [HP2 HQ2]. split; [done|]. by apply Forall_app.
Qed.

Lemma safe_bind_with {A B} (R : A → Prop) (m : M A) (f : A → M B) :
  safe P Q m → (∀ st a st' t, m st = (Ok a, st', t) → R a) →
  (∀ a, R a → safe P Q (f a)) → safe P Q (bind m f).
Proof.
  intros Hm HR Hf st HP. unfold bind. specialize (Hm st HP).
  specialize (HR st).
  destruct (m st) as [[[a|e|] st1] t1]; simpl in *; try done.
  destruct Hm as [HP1 HQ1]. specialize (Hf a (HR _ _ _ eq_refl) st1 HP1).
  destruct (f a st1) as [[r st2] t2]; simpl in *.
  destruct Hf as [HP2 HQ2]. split; [done|]. by apply Forall_app.
Qed.

Lemma safe_try_except {A} (m : M A) (h : exn → M A) :
  safe P Q m → (∀ e, safe P Q (h e)) → safe P Q (try_except m h).
Proof.
  intros Hm Hh st HP. unfold try_except. specialize (Hm st HP).
  destruct (m st) as [[[a|e|] st1] t1]; simpl in *; try done.
  destruct Hm as [HP1 HQ1]. specialize (Hh e st1 HP1).
  destruct (h e st1) as [[r st2] t2]; simpl in *.
  destruct Hh as [HP2 HQ2]. split; [done|]. by apply Forall_app.
Qed.

Lemma safe_logged {A} (site : log_site) (sym : option string) (m : M A) :
  safe P Q m → safe P Q (logged site sym m).
Proof.
  intros Hm. apply safe_try_except; [done|].
  intros e. apply safe_bind; [by apply safe_emit|].
  intros _. apply safe_raise.
Qed.

Lemma safe_make_request_loop (attempts : list Z) (p : params) :
  p_symbol p = symbol → safe P Q (make_request_loop attempts p).
Proof.
  intros Hp. induction attempts as [|attempt rest IH]; simpl.
  - apply safe_ret.
  - apply safe_try_except; [by apply safe_requests_get|].
    intros [c|k| |v]; try apply safe_raise.
    destruct (attempt =? MAX_RETRIES - 1); [apply safe_raise|].
    apply safe_bind; [by apply safe_emit|]. intros _.
    apply safe_bind; [apply safe_time_sleep|]. by intros _.
Qed.

Lemma safe_make_request (p : params) :
  p_symbol p = symbol → safe P Q (make_request p).
Proof. apply safe_make_request_loop. Qed.

Lemma safe_last_open_time (ks : list kline) : safe P Q (last_open_time ks).
Proof.
  unfold last_open_time. destruct (last ks); [apply safe_ret|apply safe_raise].
Qed.

Lemma safe_bind_ret {A B} (a : A) (f : A → M B) :
  safe P Q (f a) → safe P Q (bind (ret a) f).
Proof.
  intros H st HP. unfold bind, ret. specialize (H st HP).
  by destruct (f a st) as [[r st2] t2].
Qed.

Lemma safe_klines_loop (fuel : nat) (sd : option datetime) (p : params)
    (acc : list bar) (seen : gset Z) :
  p_symbol p = symbol → safe P Q (klines_loop fuel sd p acc seen).
Proof.
  revert p acc seen.
  induction fuel as [|fuel IH]; intros p acc seen Hp; simpl.
  - apply safe_out_of_fuel.
  - apply safe_bind; [by apply safe_make_request|].
    intros [|k ks]; [apply safe_ret|].
    destruct (collect (k :: ks) acc seen) as [acc' seen'].
    destruct (_ <? _).
    + destruct sd; [apply safe_ret|].
      destruct (p_endTime p) eqn:He; [|apply safe_ret].
      unfold pop_window. rewrite He.
      destruct (p_startTime p).
      * apply safe_bind_ret. by apply IH.
      * by intros st HP.
    + apply safe_bind; [apply safe_last_open_time|]. intros t.
      apply safe_bind; [apply safe_time_sleep|]. intros _. by apply IH.
Qed.

Lemma safe_fetch_crypto_daily_binance (fuel : nat)
    (sd : option datetime) :
  safe P Q (fetch_crypto_daily_binance fuel symbol sd).
Proof.
  apply safe_logged.
  destruct sd as [d|].
  - apply safe_bind_ret.
    apply safe_bind; [by apply safe_klines_loop|]. intros l. apply safe_ret.
  - apply (safe_bind_with (fun p => p_symbol p = symbol)).
    + apply safe_bind; [by apply safe_make_request|].
      intros [|k ks]; [apply safe_ret|].
      apply safe_bind; [apply safe_last_open_time|]. intros t.
      apply safe_ret.
    + intros st p st' t Hp.
      apply bind_Ok in Hp as (recent & st1 & t1 & t2 & _ & Hp & _).
      destruct recent as [|k ks]; [by apply ret_Ok in Hp as (-> & _)|].
      apply bind_Ok in Hp as (t0 & st2 & t3 & t4 & _ & Hp & _).
      by apply ret_Ok in Hp as (-> & _).
    + intros p Hp.
      apply safe_bind; [by apply safe_klines_loop|]. intros l. apply safe_ret.
Qed.

Lemma safe_fetch_crypto_daily (fuel : nat) (sd : option datetime) :
  safe P Q (fetch_crypto_daily fuel symbol sd).
Proof.
  apply safe_logged.
  apply safe_bind; [apply safe_get_store|]. intros c.
  destruct (find_one symbol c) as [d|];
    [|apply safe_fetch_crypto_daily_binance].
  destruct (slice_last (d_dayline d)) as [|b l];
    [apply safe_fetch_crypto_daily_binance|].
  apply safe_bind; [apply safe_datetime_utcnow|]. intros now.
  destruct (_ <=? _); [apply safe_ret|apply safe_fetch_crypto_daily_binance].
Qed.

Lemma safe_update_one_push (s : string) (bars : list bar) :
  safe P Q (update_one_push s bars).
Proof.
  intros st HP. split; [done|]. simpl. constructor; [|done].
  by apply Q_other.
Qed.

Lemma safe_fetch_and_merge (fuel : nat) (sd : option datetime) :
  safe P Q (fetch_and_merge fuel symbol sd).
Proof.
  unfold fetch_and_merge.
  apply safe_bind; [apply safe_fetch_crypto_daily|]. intros daily_data.
  apply safe_bind; [|intros _; apply safe_time_sleep].
  destruct daily_data; [apply safe_ret|apply safe_update_one_push].
Qed.

Lemma safe_update_asset_handler (symbol_var : option string) (e : exn) :
  safe P Q (update_asset_handler symbol_var e).
Proof.
  unfold update_asset_handler.
  destruct symbol_var; [by apply safe_emit|apply safe_raise].
Qed.

Lemma safe_update_asset (fuel : nat) (yesterday : datetime) (crypto : doc)
    (symbol_var : option string) :
  d_symbol crypto = Some symbol →
  safe P Q (update_asset fuel yesterday crypto symbol_var).
Proof.
  intros Hs; unfold update_asset; rewrite Hs.
  apply safe_bind; [|intros _; apply safe_ret].
  apply safe_try_except; [|apply safe_update_asset_handler].
  unfold update_asset_body.
  destruct (is_recent _ _); [apply safe_ret|apply safe_fetch_and_merge].
Qed.

Lemma safe_update_asset_no_symbol (fuel : nat) (yesterday : datetime)
    (crypto : doc) (symbol_var : option string) :
  d_symbol crypto = None →
  safe P Q (update_asset fuel yesterday crypto symbol_var).
Proof.
  intros Hs; unfold update_asset; rewrite Hs.
  apply safe_bind; [apply safe_update_asset_handler|].
  intros _. apply safe_ret.
Qed.

Lemma safe_getitem_symbol (crypto : doc) : safe P Q (getitem_symbol crypto).
Proof.
  unfold getitem_symbol.
  destruct (d_symbol crypto); [apply safe_ret|apply safe_raise].
Qed.

Lemma safe_update_one_set (s : string) (bars : list bar) :
  safe P Q (update_one_set s bars).
Proof.
  intros st HP. split; [done|]. simpl. constructor; [|done].
  by apply Q_other.
Qed.

Lemma safe_init_asset (fuel : nat) (crypto : doc) :
  d_symbol crypto = Some symbol → safe P Q (init_asset fuel crypto).
Proof.
  intros Hs. unfold init_asset. apply safe_try_except.
  - unfold getitem_symbol. rewrite Hs. apply safe_bind_ret.
    apply safe_bind; [apply safe_fetch_crypto_daily|]. intros daily_data.
    apply safe_bind_ret.
    apply safe_bind; [apply safe_update_one_set|]. intros _.
    apply safe_time_sleep.
  - intros e. apply safe_bind; [apply safe_getitem_symbol|].
    intros s. by apply safe_emit.
Qed.

Lemma safe_init_asset_no_symbol (fuel : nat) (crypto : doc) :
  d_symbol crypto = None → safe P Q (init_asset fuel crypto).
Proof.
  intros Hs. unfold init_asset, getitem_symbol. rewrite Hs.
  by intros st HP.
Qed.

End Safe.

(** ** Freshness in a run of [update_crypto_daily] *)

Lemma requests_for_app (s : string) (t1 t2 : list event) :
  requests_for s (t1 ++ t2) = requests_for s t1 ++ requests_for s t2.
Proof. apply filter_app. Qed.

Lemma requests_for_none (s : string) (t : list event) :
  Forall (fun ev => is_request_for s ev = false) t → requests_for s t = [].
Proof.
  induction 1 as [|ev t Hev _ IH]; [done|].
  unfold requests_for in *. rewrite filter_cons, IH.
  destruct (decide _) as [H|]; [|done]. by rewrite Hev in H.
Qed.

Lemma midnight_mono (a b : datetime) : a ≤ b → midnight a ≤ midnight b.
Proof.
  intros Hab. unfold midnight. rewrite !Z.mod_eq by done.
  pose proof (Z.div_le_mono a b DAY_MS eq_refl Hab). unfold DAY_MS in *. lia.
Qed.

(** The iteration on a document of another symbol, or without symbol,
    asks nothing about [s] and leaves the document of [s] alone. *)
Lemma update_asset_other (fuel : nat) (yesterday : datetime) (crypto : doc)
    (symbol_var : option string) (s : string) (st : State) :
  d_symbol crypto ≠ Some s →
  requests_for s
    (trace_of (update_asset fuel yesterday crypto symbol_var st)) = [] ∧
  find_one s (store (state_of
    (update_asset fuel yesterday crypto symbol_var st))) =
  find_one s (store st).
Proof.
  intros Hne. split.
  - apply requests_for_none.
    destruct (d_symbol crypto) as [s'|] eqn:Hs.
    + eapply (safe_update_asset (fun _ => True)
                (fun ev => is_request_for s ev = false) s'); eauto.
      * intros p Hp. simpl. apply bool_decide_eq_false. congruence.
      * by intros [].
    + eapply (safe_update_asset_no_symbol (fun _ => True)
                (fun ev => is_request_for s ev = false)); eauto.
      by intros [].
  - pose proof (update_asset_outcome fuel yesterday crypto symbol_var st) as H.
    simpl in H.
    destruct (d_symbol crypto) as [s'|]; [|by rewrite (proj1 H)].
    destruct (is_recent _ _); [by rewrite (proj1 H)|].
    destruct (res_of _) as [[|b bs]|e|]; try by rewrite (proj1 H).
    destruct H as (_ & _ & ->).
    apply find_one_update_first_ne; [congruence|done].
Qed.

Lemma update_asset_clock (fuel : nat) (yesterday : datetime) (crypto : doc)
    (symbol_var : option string) (st : State) :
  clock_monotone →
  utcnow (world st) ≤
  utcnow (world (state_of (update_asset fuel yesterday crypto symbol_var st))).
Proof.
  intros [Hsleep Hget].
  assert (Hs1 : ∀ secs w, utcnow (world st) ≤ utcnow w →
            utcnow (world st) ≤ utcnow (sleep secs w)).
  { intros secs w Hw. etrans; [exact Hw|apply Hsleep]. }
  assert (Hs2 : ∀ p w, utcnow (world st) ≤ utcnow w →
            utcnow (world st) ≤ utcnow (http_get p w).2).
  { intros p w Hw. etrans; [exact Hw|apply Hget]. }
  destruct (d_symbol crypto) as [s'|] eqn:Hs.
  - by apply (safe_update_asset (fun w => utcnow (world st) ≤ utcnow w)
                (fun _ => True) s' Hs1 Hs2 (fun _ _ => I) (fun _ _ => I)
                fuel yesterday crypto symbol_var Hs st).
  - by eapply (safe_update_asset_no_symbol
                 (fun w => utcnow (world st) ≤ utcnow w) (fun _ => True)
                 (fun _ _ => I) fuel yesterday crypto symbol_var Hs st).
Qed.

(** No request about [s] when every document of [s] is recent. *)
Lemma update_loop_fresh (fuel : nat) (yesterday : datetime) (s : string)
    (cryptos : list doc) (symbol_var : option string) (st : State) :
  Forall (fun x => d_symbol x = Some s →
            is_recent yesterday (snapshot_last_date x) = true) cryptos →
  requests_for s
    (trace_of (update_loop fuel yesterday cryptos symbol_var st)) = [] ∧
  find_one s (store (state_of
    (update_loop fuel yesterday cryptos symbol_var st))) =
  find_one s (store st).
Proof.
  revert symbol_var st.
  induction cryptos as [|x rest IH]; intros symbol_var st Hall; [done|].
  inversion Hall as [|? ? Hx Hrest]; subst.
  assert (Hstep :
    requests_for s
      (trace_of (update_asset fuel yesterday x symbol_var st)) = [] ∧
    find_one s (store (state_of
      (update_asset fuel yesterday x symbol_var st))) =
    find_one s (store st)).
  { destruct (decide (d_symbol x = Some s)) as [Hs|Hs];
      [|by apply update_asset_other].
    by rewrite (update_asset_recent _ _ _ _ _ _ Hs (Hx Hs)). }
  simpl. unfold bind.
  destruct (update_asset fuel yesterday x symbol_var st)
    as [[[v|e|] st1] t1]; simpl in *; try done.
  specialize (IH v st1 Hrest).
  destruct (update_loop fuel yesterday rest v st1) as [[r st2] t2].
  simpl in *. destruct Hstep as [Hr1 Hf1], IH as [Hr2 Hf2].
  by rewrite requests_for_app, Hr1, Hr2, Hf2, Hf1.
Qed.

(** The first request about [s] in a run that ends normally, when the
    first document of [s] is not recent. *)
Lemma update_loop_stale (fuel : nat) (yesterday : datetime) (s : string)
    (d : doc) (b : bar) (c : collection) (symbol_var : option string)
    (st : State) :
  clock_monotone →
  find_one s c = Some d → find_one s (store st) = Some d →
  last (d_dayline d) = Some b →
  b_date b < yesterday → b_date b < midnight (utcnow (world st)) →
  res_of (update_loop fuel yesterday (projected <$> c) symbol_var st) =
    Ok tt →
  ∃ rest,
    requests_for s
      (trace_of (update_loop fuel yesterday (projected <$> c) symbol_var st)) =
    EvRequest (mk_params s (Some (timestamp (add_days (b_date b) 1))) None)
      :: rest.
Proof.
  intros Hclock. revert symbol_var st.
  induction c as [|x c IH]; intros symbol_var st Hc Hst Hlast Hy Hnow Hres;
    [done|].
  unfold find_one in Hc. simpl in Hc.
  destruct (has_symbol s x) eqn:Hx.
  - injection Hc as ->.
    destruct fuel as [|fuel].
    { exfalso. revert Hres. simpl. unfold bind.
      pose proof (find_one_symbol _ _ _ Hst) as Hs.
      rewrite (update_asset_stale _ _ (projected d) _ s _ Hs).
      2:{ rewrite (snapshot_last_date_projected _ _ Hlast). simpl.
          by apply Z.leb_gt. }
      rewrite (fetch_crypto_daily_with_history _ _ _ _ _ _ Hst Hlast).
      by rewrite (proj2 (Z.leb_gt _ _) Hnow). }
    pose proof (update_asset_first_request fuel yesterday d symbol_var s b st
                  Hst Hlast Hy Hnow) as Hstart.
    apply (starts_with_bind _ _
             (fun v => update_loop (S fuel) yesterday (projected <$> c) v))
      in Hstart.
    destruct Hstart as [t Ht]. rewrite fmap_cons, update_loop_cons, Ht.
    exists (requests_for s t). unfold requests_for. rewrite filter_cons.
    destruct (decide _) as [_|Hn]; [done|].
    exfalso. apply Hn. simpl. by apply bool_decide_pack.
  - assert (Hne : d_symbol (projected x) ≠ Some s).
    { intros H. unfold has_symbol in Hx.
      by rewrite bool_decide_eq_false in Hx. }
    pose proof (update_asset_other fuel yesterday (projected x) symbol_var s
                  st Hne) as [Hr1 Hf1].
    pose proof (update_asset_clock fuel yesterday (projected x) symbol_var
                  st Hclock) as Hc1.
    revert Hres. rewrite fmap_cons, update_loop_cons. unfold bind.
    destruct (update_asset fuel yesterday (projected x) symbol_var st)
      as [[[v|e|] st1] t1]; cbn [res_of trace_of state_of] in *; try done.
    intros Hres.
    assert (Hres' :
      res_of (update_loop fuel yesterday (projected <$> c) v st1) = Ok tt).
    { by destruct (update_loop fuel yesterday (projected <$> c) v st1)
        as [[r st2] t2]. }
    destruct (IH v st1) as [rest Hrest]; try done.
    { by rewrite Hf1. }
    { pose proof (midnight_mono _ _ Hc1). lia. }
    destruct (update_loop fuel yesterday (projected <$> c) v st1)
      as [[r st2] t2].
    cbn [res_of trace_of state_of] in *.
    exists rest. by rewrite requests_for_app, Hr1, Hrest.
Qed.

Lemma last_app_later (l new : list bar) (b : bar) :
  last l = Some b → Forall (fun x => b_date b < b_date x) new →
  ∃ b', last (l ++ new) = Some b' ∧ b_date b ≤ b_date b'.
Proof.
  intros Hl Hnew.
  destruct (last new) as [b'|] eqn:Hb'.
  - exists b'. split.
    + apply last_Some in Hb' as [new' ->].
      by rewrite (assoc_L (++)), last_snoc.
    + apply last_Some_elem_of in Hb'.
      rewrite Forall_forall in Hnew. specialize (Hnew _ Hb'). lia.
  - apply last_None in Hb' as ->. exists b. by rewrite app_nil_r.
Qed.

(** With an exchange that honours the start time, whatever a run appends
    to the first document of [s] is later than its last stored date. *)
Lemma update_asset_appends_later (fuel : nat) (yesterday : datetime)
    (crypto : doc) (symbol_var : option string) (s : string) (d : doc)
    (b : bar) (st : State) :
  honours_start → last (d_dayline d) = Some b →
  (∃ new, find_one s (store st) = Some (push_each new d) ∧
          Forall (fun x => b_date b < b_date x) new) →
  ∃ new,
    find_one s (store (state_of
      (update_asset fuel yesterday crypto symbol_var st))) =
      Some (push_each new d) ∧
    Forall (fun x => b_date b < b_date x) new.
Proof.
  intros Hh Hlast (new & Hfind & Hnew).
  destruct (decide (d_symbol crypto = Some s)) as [Hs|Hs].
  2:{ exists new. split; [|done].
      by rewrite (proj2 (update_asset_other _ _ _ _ _ _ Hs)). }
  pose proof (update_asset_outcome fuel yesterday crypto symbol_var st) as H.
  simpl in H. rewrite Hs in H.
  destruct (is_recent _ _); [exists new; by rewrite (proj1 H)|].
  destruct (fetch_crypto_daily fuel s _ st) as [[r st1] t1] eqn:Hf.
  simpl in H.
  destruct r as [[|b1 bs]|e|]; try (exists new; by rewrite (proj1 H)).
  destruct H as (_ & _ & ->).
  destruct (last_app_later _ _ _ Hlast Hnew) as (b' & Hb' & Hle).
  destruct (fetch_crypto_daily_result _ _ _ _ _ _ _ Hf) as [_ Hlater].
  specialize (Hlater Hh (push_each new d) b' Hfind Hb').
  exists (new ++ b1 :: bs). split.
  - rewrite (find_one_update_first s (push_each (b1 :: bs)) _ _
               (fun _ => eq_refl) Hfind).
    unfold push_each. simpl. by rewrite (assoc_L (++)).
  - apply Forall_app. split; [done|].
    eapply Forall_impl; [exact Hlater|]. intros x Hx. simpl in Hx. lia.
Qed.

Lemma update_loop_appends_later (fuel : nat) (yesterday : datetime)
    (cryptos : list doc) (symbol_var : option string) (s : string) (d : doc)
    (b : bar) (st : State) :
  honours_start → last (d_dayline d) = Some b →
  (∃ new, find_one s (store st) = Some (push_each new d) ∧
          Forall (fun x => b_date b < b_date x) new) →
  ∃ new,
    find_one s (store (state_of
      (update_loop fuel yesterday cryptos symbol_var st))) =
      Some (push_each new d) ∧
    Forall (fun x => b_date b < b_date x) new.
Proof.
  intros Hh Hlast. revert symbol_var st.
  induction cryptos as [|x rest IH]; intros symbol_var st Hinv; [done|].
  pose proof (update_asset_appends_later fuel yesterday x symbol_var s d b st
                Hh Hlast Hinv) as Hstep.
  simpl. unfold bind.
  destruct (update_asset fuel yesterday x symbol_var st)
    as [[[v|e|] st1] t1]; simpl in *; try done.
  specialize (IH v st1 Hstep).
  by destruct (update_loop fuel yesterday rest v st1) as [[r st2] t2].
Qed.

Lemma logged_requests_for {A} (s : string) site sym (m : M A) st :
  requests_for s (trace_of (logged site sym m st)) =
  requests_for s (trace_of (m st)).
Proof.
  unfold logged, try_except.
  destruct (m st) as [[[a|e|] st1] t1]; simpl; try done.
  by rewrite requests_for_app, app_nil_r.
Qed.

Lemma push_each_nil (d : doc) : push_each [] d = d.
Proof. unfold push_each. rewrite app_nil_r. by destruct d. Qed.

(** C3, amended.  In a run of [update_crypto_daily] that starts on UTC day
    [T], for the first stored document of a symbol, with last stored date
    [D].  When [D] is [T - 1] or later and no other document has the
    symbol, the run makes no request for the symbol and leaves the document
    as it is.  When [D] is before [T - 1], the clock does not go back and
    the run ends normally, the first request of the run for the symbol
    starts at [D + 1].  When the exchange honours the start time of a
    request, every bar the run appends to the document is later than [D]. *)
Theorem update_crypto_daily_freshness (fuel : nat) (st : State) (s : string)
    (d : doc) (b : bar) :
  let T := midnight (utcnow (world st)) in
  let out := update_crypto_daily fuel st in
  find_one s (store st) = Some d →
  last (d_dayline d) = Some b →
  (add_days T (-1) ≤ b_date b →
   filter (has_symbol s) (store st) = [d] →
     requests_for s (trace_of out) = [] ∧
     find_one s (store (state_of out)) = Some d) ∧
  (b_date b < add_days T (-1) → clock_monotone → res_of out = Ok tt →
     ∃ rest,
       requests_for s (trace_of out) =
       EvRequest
         (mk_params s (Some (timestamp (add_days (b_date b) 1))) None)
         :: rest) ∧
  (honours_start →
     ∃ new,
       find_one s (store (state_of out)) = Some (push_each new d) ∧
       Forall (fun x => b_date b < b_date x) new).
Proof.
  intros T out Hfind Hlast. subst out.
  unfold update_crypto_daily.
  rewrite logged_requests_for, logged_state_of, logged_res_of.
  rewrite bind_get_store, bind_utcnow. fold T.
  split; [|split].
  - intros Hfresh Honly.
    rewrite <- Hfind. apply update_loop_fresh.
    unfold snapshot. apply Forall_fmap, Forall_forall. intros x Hx Hs.
    assert (Hxd : x = d).
    { apply list_elem_of_singleton. rewrite <- Honly.
      apply list_elem_of_filter. split; [|done].
      by apply Is_true_true, has_symbol_true. }
    subst x. simpl.
    rewrite (snapshot_last_date_projected _ _ Hlast). simpl.
    by apply Z.leb_le.
  - intros Hstale Hclock Hres.
    apply (update_loop_stale fuel _ s d b (store st) None st); try done.
    unfold T, add_days, DAY_MS in *. lia.
  - intros Hh.
    apply (update_loop_appends_later fuel _ _ None s d b st Hh Hlast).
    exists []. by rewrite push_each_nil.
Qed.

(** ** A fetch reads the collection only to find the asset *)

Lemma store_blind_ret {A} (a : A) : store_blind (ret a).
Proof. by intros st st' Hw. Qed.

Lemma store_blind_raise {A} (e : exn) : store_blind (raise (A := A) e).
Proof. by intros st st' Hw. Qed.

Lemma store_blind_out_of_fuel {A} : store_blind (out_of_fuel (A := A)).
Proof. by intros st st' Hw. Qed.

Lemma store_blind_emit (ev : event) : store_blind (emit ev).
Proof. by intros st st' Hw. Qed.

Lemma store_blind_time_sleep (secs : Z) : store_blind (time_sleep secs).
Proof. intros st st' Hw. simpl. by rewrite Hw. Qed.

Lemma store_blind_datetime_utcnow : store_blind datetime_utcnow.
Proof. intros st st' Hw. simpl. by rewrite Hw. Qed.

Lemma store_blind_requests_get (p : params) : store_blind (requests_get p).
Proof.
  intros st st' Hw. unfold requests_get. rewrite Hw.
  by destruct (http_get p (world st')) as [[j|c] w].
Qed.

Lemma store_blind_bind {A B} (m : M A) (f : A → M B) :
  store_blind m → (∀ a, store_blind (f a)) → store_blind (bind m f).
Proof.
  intros Hm Hf st st' Hw. unfold bind.
  destruct (Hm st st' Hw) as (Hr & Ht & Hw1).
  destruct (m st) as [[r1 st1] t1], (m st') as [[r1' st1'] t1'].
  simpl in *. subst r1' t1'.
  destruct r1 as [a|e|]; try done.
  destruct (Hf a st1 st1' Hw1) as (Hr2 & Ht2 & Hw2).
  destruct (f a st1) as [[r2 st2] t2], (f a st1') as [[r2' st2'] t2'].
  simpl in *. by subst.
Qed.

Lemma store_blind_try_except {A} (m : M A) (h : exn → M A) :
  store_blind m → (∀ e, store_blind (h e)) → store_blind (try_except m h).
Proof.
  intros Hm Hh st st' Hw. unfold try_except.
  destruct (Hm st st' Hw) as (Hr & Ht & Hw1).
  destruct (m st) as [[r1 st1] t1], (m st') as [[r1' st1'] t1'].
  simpl in *. subst r1' t1'.
  destruct r1 as [a|e|]; try done.
  destruct (Hh e st1 st1' Hw1) as (Hr2 & Ht2 & Hw2).
  destruct (h e st1) as [[r2 st2] t2], (h e st1') as [[r2' st2'] t2'].
  simpl in *. by subst.
Qed.

Lemma store_blind_logged {A} (site : log_site) (sym : option string)
    (m : M A) :
  store_blind m → store_blind (logged site sym m).
Proof.
  intros Hm. apply store_blind_try_except; [done|].
  intros e. apply store_blind_bind; [apply store_blind_emit|].
  intros _. apply store_blind_raise.
Qed.

Lemma store_blind_make_request (p : params) : store_blind (make_request p).
Proof.
  unfold make_request. generalize (range MAX_RETRIES).
  intros attempts. induction attempts as [|attempt rest IH]; simpl.
  - apply store_blind_ret.
  - apply store_blind_try_except; [apply store_blind_requests_get|].
    intros [c|k| |v]; try apply store_blind_raise.
    destruct (attempt =? MAX_RETRIES - 1); [apply store_blind_raise|].
    apply store_blind_bind; [apply store_blind_emit|]. intros _.
    apply store_blind_bind; [apply store_blind_time_sleep|]. by intros _.
Qed.

Lemma store_blind_last_open_time (ks : list kline) :
  store_blind (last_open_time ks).
Proof.
  unfold last_open_time.
  destruct (last ks); [apply store_blind_ret|apply store_blind_raise].
Qed.

Lemma store_blind_pop_window (p : params) : store_blind (pop_window p).
Proof.
  unfold pop_window.
  destruct (p_startTime p); [|apply store_blind_raise].
  destruct (p_endTime p); [apply store_blind_ret|apply store_blind_raise].
Qed.

Lemma store_blind_klines_loop (fuel : nat) (sd : option datetime)
    (p : params) (acc : list bar) (seen : gset Z) :
  store_blind (klines_loop fuel sd p acc seen).
Proof.
  revert p acc seen. induction fuel as [|fuel IH]; intros p acc seen; simpl.
  - apply store_blind_out_of_fuel.
  - apply store_blind_bind; [apply store_blind_make_request|].
    intros [|k ks]; [apply store_blind_ret|].
    destruct (collect (k :: ks) acc seen) as [acc' seen'].
    destruct (_ <? _).
    + destruct sd; [apply store_blind_ret|].
      destruct (p_endTime p); [|apply store_blind_ret].
      apply store_blind_bind; [apply store_blind_pop_window|].
      intros p'. apply IH.
    + apply store_blind_bind; [apply store_blind_last_open_time|]. intros t.
      apply store_blind_bind; [apply store_blind_time_sleep|].
      intros _. apply IH.
Qed.

Lemma store_blind_fetch_crypto_daily_binance (fuel : nat) (symbol : string)
    (sd : option datetime) :
  store_blind (fetch_crypto_daily_binance fuel symbol sd).
Proof.
  apply store_blind_logged.
  apply store_blind_bind.
  - destruct sd; [apply store_blind_ret|].
    apply store_blind_bind; [apply store_blind_make_request|].
    intros [|k ks]; [apply store_blind_ret|].
    apply store_blind_bind; [apply store_blind_last_open_time|].
    intros t. apply store_blind_ret.
  - intros p. apply store_blind_bind; [apply store_blind_klines_loop|].
    intros l. apply store_blind_ret.
Qed.

(** The result of [fetch_crypto_daily] depends on the collection only
    through the first document of the symbol. *)
Lemma fetch_crypto_daily_same (fuel : nat) (symbol : string)
    (sd : option datetime) (st st' : State) :
  world st = world st' →
  find_one symbol (store st) = find_one symbol (store st') →
  res_of (fetch_crypto_daily fuel symbol sd st) =
  res_of (fetch_crypto_daily fuel symbol sd st').
Proof.
  intros Hw Hfind. unfold fetch_crypto_daily.
  rewrite !logged_res_of, !bind_get_store, <- Hfind.
  destruct (find_one symbol (store st)) as [d|];
    [|by apply store_blind_fetch_crypto_daily_binance].
  destruct (slice_last (d_dayline d)) as [|b l];
    [by apply store_blind_fetch_crypto_daily_binance|].
  rewrite !bind_utcnow, <- Hw.
  destruct (_ <=? _); [done|].
  by apply store_blind_fetch_crypto_daily_binance.
Qed.

Lemma bind_ret_l {A B} (a : A) (f : A → M B) st :
  bind (ret a) f st = f a st.
Proof. unfold bind, ret. by destruct (f a st) as [[r st2] t2]. Qed.

Lemma klines_loop_raise (fuel : nat) (sd : option datetime) (p : params)
    (acc : list bar) (seen : gset Z) st e st1 t1 :
  make_request p st = (Raise e, st1, t1) →
  klines_loop (S fuel) sd p acc seen st = (Raise e, st1, t1).
Proof. intros H. simpl. unfold bind. by rewrite H. Qed.

Lemma update_first_absent (s : string) (f : doc → doc) (c : collection) :
  find_one s c = None → update_first s f c = c.
Proof.
  unfold find_one. induction c as [|d c IH]; simpl; [done|].
  destruct (has_symbol s d); [done|]. intros H. by rewrite IH.
Qed.

Lemma update_first_Forall2 (s : string) (f : doc → doc) (c : collection) :
  Forall2 (fun d d' => d' = d ∨ (d_symbol d = Some s ∧ d' = f d))
    c (update_first s f c).
Proof.
  induction c as [|d c IH]; simpl; [constructor|].
  destruct (has_symbol s d) eqn:Hd.
  - constructor.
    + right. split; [|done]. unfold has_symbol in Hd.
      by apply bool_decide_eq_true in Hd.
    + apply Forall2_same_length_lookup. split; [done|].
      intros i x y Hx Hy. left. congruence.
  - constructor; [by left|done].
Qed.

Lemma find_one_present (s : string) (c : collection) (d : doc) :
  d ∈ c → d_symbol d = Some s → is_Some (find_one s c).
Proof.
  intros Hd Hs. unfold find_one.
  destruct (List.find (has_symbol s) c) as [d'|] eqn:Hfind; [by eexists|].
  exfalso. apply list_elem_of_In in Hd.
  pose proof (find_none _ _ Hfind d Hd) as Hnone.
  by rewrite (has_symbol_true _ _ Hs) in Hnone.
Qed.

(** A fetch that returns bars got them from the exchange fetch. *)
Lemma fetch_crypto_daily_bars (fuel : nat) (s : string)
    (sd : option datetime) st b bs st1 t1 :
  fetch_crypto_daily fuel s sd st = (Ok (b :: bs), st1, t1) →
  ∃ sd', fetch_crypto_daily_binance fuel s sd' st = (Ok (b :: bs), st1, t1).
Proof.
  intros Hrun. apply logged_Ok in Hrun. rewrite bind_get_store in Hrun.
  destruct (find_one s (store st)) as [d|]; [|by eexists].
  destruct (slice_last (d_dayline d)) as [|b0 l]; [by eexists|].
  rewrite bind_utcnow in Hrun.
  destruct (_ <=? _); [done|by eexists].
Qed.

Lemma logged_writes_of {A} site sym (m : M A) st :
  writes_of (trace_of (logged site sym m st)) = writes_of (trace_of (m st)).
Proof.
  unfold logged, try_except.
  destruct (m st) as [[[a|e|] st1] t1]; simpl; try done.
  by rewrite writes_of_app, app_nil_r.
Qed.

Lemma update_loop_unbound (fuel : nat) (yesterday : datetime) (x : doc)
    (rest : list doc) (st : State) :
  d_symbol x = None →
  update_loop fuel yesterday (x :: rest) None st =
    (Raise (NameError "symbol"), st, []).
Proof.
  intros Hx. rewrite update_loop_cons. unfold bind, update_asset.
  by rewrite Hx.
Qed.

Lemma update_loop_raise_inv (fuel : nat) (yesterday : datetime)
    (cryptos : list doc) (st : State) (e : exn) :
  res_of (update_loop fuel yesterday cryptos None st) = Raise e →
  ∃ x rest, cryptos = x :: rest ∧ d_symbol x = None.
Proof.
  intros Hres. destruct cryptos as [|x rest]; [done|].
  destruct (d_symbol x) as [s|] eqn:Hx; [|by eauto].
  exfalso. revert Hres. apply update_loop_no_raise. right.
  intros y [= <-]. by rewrite Hx.
Qed.

(** ** Every candle of an answer leaves its day in the bars *)

Lemma collect_seen_mono (ks : list kline) (acc : list bar) (seen : gset Z)
    (z : Z) :
  z ∈ seen → z ∈ (collect ks acc seen).2.
Proof.
  revert acc seen. induction ks as [|k ks IH]; intros acc seen Hz; [done|].
  simpl. destruct (decide _); apply IH; [done|]. set_solver.
Qed.

Lemma collect_covers (ks : list kline) (acc : list bar) (seen : gset Z)
    (k : kline) :
  seen_inv acc seen → k ∈ ks →
  kline_day k ∈ day_of <$> (collect ks acc seen).1.
Proof.
  intros Hinv Hk.
  apply (collect_seen_inv ks acc seen Hinv).
  clear Hinv. revert acc seen.
  induction ks as [|k0 ks IH]; intros acc seen; [by apply elem_of_nil in Hk|].
  simpl. apply elem_of_cons in Hk as [->|Hk].
  - destruct (decide _) as [Hin|Hnin]; apply collect_seen_mono; [done|].
    unfold kline_day. set_solver.
  - destruct (decide _); by apply IH.
Qed.

(** ** The retry loop *)

(** C7.  [make_request] makes at most [MAX_RETRIES = 3] attempts, sleeps
    [RETRY_DELAY = 5] seconds between two attempts, returns the first
    answer it gets, and when the third attempt fails too it raises that
    attempt's exception, which carries the cause. *)
Theorem make_request_retry_policy (p : params) (st : State) :
  let '(r1, w1) := http_get p (world st) in
  let '(r2, w2) := http_get p (sleep RETRY_DELAY w1) in
  let '(r3, w3) := http_get p (sleep RETRY_DELAY w2) in
  let warn c := EvWarning At_make_request (RequestException c) in
  make_request p st =
    match r1, r2, r3 with
    | HttpOk j, _, _ => (Ok j, mk_state w1 (store st), [EvRequest p])
    | HttpErr c1, HttpOk j, _ =>
        (Ok j, mk_state w2 (store st),
         [EvRequest p; warn c1; EvSleep 5; EvRequest p])
    | HttpErr c1, HttpErr c2, HttpOk j =>
        (Ok j, mk_state w3 (store st),
         [EvRequest p; warn c1; EvSleep 5; EvRequest p;
          warn c2; EvSleep 5; EvRequest p])
    | HttpErr c1, HttpErr c2, HttpErr c3 =>
        (Raise (RequestException c3), mk_state w3 (store st),
         [EvRequest p; warn c1; EvSleep 5; EvRequest p;
          warn c2; EvSleep 5; EvRequest p])
    end.
Proof.
  destruct (http_get p (world st)) as [r1 w1] eqn:H1.
  destruct (http_get p (sleep RETRY_DELAY w1)) as [r2 w2] eqn:H2.
  destruct (http_get p (sleep RETRY_DELAY w2)) as [r3 w3] eqn:H3.
  unfold make_request, range; simpl.
  unfold try_except, requests_get at 1. rewrite H1.
  destruct r1 as [j1|c1]; [reflexivity|].
  simpl. unfold bind at 1, emit at 1. simpl.
  unfold bind at 1, time_sleep at 1. simpl.
  unfold try_except, requests_get at 1. simpl. rewrite H2.
  destruct r2 as [j2|c2]; [reflexivity|].
  simpl. unfold bind at 1, emit at 1. simpl.
  unfold bind at 1, time_sleep at 1. simpl.
  unfold try_except, requests_get at 1. simpl. rewrite H3.
  destruct r3 as [j3|c3]; reflexivity.
Qed.

(** ** What [fetch_crypto_daily] does with its argument *)

Lemma state_eta (st : State) : mk_state (world st) (store st) = st.
Proof. by destruct st. Qed.

(** C9.  When the stored asset has bars, [fetch_crypto_daily] does not use
    its [start_date] argument: a last stored date on or after today's UTC
    midnight gives the empty list with no request, an earlier one makes the
    exchange fetch start one day after it.  The argument reaches the
    exchange fetch only when the asset has no stored bar. *)
Theorem fetch_crypto_daily_start_from_storage
    (fuel : nat) (symbol : string) (st : State) (crypto_data : doc) (b : bar) :
  find_one symbol (store st) = Some crypto_data →
  last (d_dayline crypto_data) = Some b →
  (midnight (utcnow (world st)) ≤ b_date b →
     ∀ start_date,
       fetch_crypto_daily fuel symbol start_date st = (Ok [], st, [])) ∧
  (b_date b < midnight (utcnow (world st)) →
     ∀ start_date,
       fetch_crypto_daily fuel symbol start_date st =
       logged At_fetch_crypto_daily (Some symbol)
         (fetch_crypto_daily_binance fuel symbol
            (Some (add_days (b_date b) 1))) st) ∧
  (∀ start_date start_date',
     fetch_crypto_daily fuel symbol start_date st =
     fetch_crypto_daily fuel symbol start_date' st) ∧
  (∀ st0 : State,
     match find_one symbol (store st0) with
     | Some d => d_dayline d = []
     | None => True
     end →
     ∀ start_date,
       fetch_crypto_daily fuel symbol start_date st0 =
       logged At_fetch_crypto_daily (Some symbol)
         (fetch_crypto_daily_binance fuel symbol start_date) st0).
Proof.
  intros Hfind Hlast.
  pose proof (fun sd =>
    fetch_crypto_daily_with_history fuel symbol sd st crypto_data b
      Hfind Hlast) as Hgen.
  split; [|split; [|split]].
  - intros Hle sd. rewrite Hgen.
    by rewrite (proj2 (Z.leb_le _ _) Hle).
  - intros Hlt sd. rewrite Hgen.
    by rewrite (proj2 (Z.leb_gt _ _) Hlt).
  - intros sd sd'. by rewrite !Hgen.
  - intros st0 Hnone sd.
    unfold fetch_crypto_daily, logged, try_except.
    unfold bind at 1, get_store at 1. simpl.
    destruct (find_one symbol (store st0)) as [d|].
    + rewrite Hnone. simpl.
      destruct (fetch_crypto_daily_binance _ _ _ st0) as [[[a|e|] st1] t1];
        reflexivity.
    + destruct (fetch_crypto_daily_binance _ _ _ st0) as [[[a|e|] st1] t1];
        reflexivity.
Qed.

(** ** The handler of the update loop *)

(** C10.  When the first document of the collection has no [symbol]
    field, [symbol = crypto['symbol']] raises before [symbol] is bound, the
    handler's read of [symbol] raises [NameError], and
    [update_crypto_daily] ends with that exception: no later document is
    looked at, nothing is requested, nothing is written. *)
Theorem update_crypto_daily_unbound_symbol
    (fuel : nat) (st : State) (name : option string) (dayline : list bar)
    (rest : collection) :
  store st = mk_doc name None dayline :: rest →
  update_crypto_daily fuel st =
    (Raise (NameError "symbol"), st,
     [EvError At_update_crypto_daily None (NameError "symbol")]).
Proof.
  intros Hst.
  unfold update_crypto_daily, logged, try_except.
  unfold bind at 1, get_store at 1. simpl. rewrite Hst. simpl.
  reflexivity.
Qed.

End Facts.

(** * The exchange of the simulation: a second run in a row *)

Section Honest.

Variable db : string → list kline.
Variable down : string → bool.
Variable now : datetime.
Variable zone : Z.

Hypothesis db_sorted : ∀ s, time_sorted (db s).

Local Abbreviation X := (exchange db down now zone).

Lemma state_unit (st : State (E := X)) : st = mk_state (E := X) tt (store st).
Proof. by destruct st as [[] c]. Qed.

Lemma exchange_make_request (p : params) (st : State (E := X)) :
  make_request p st =
    if down (p_symbol p)
    then (Raise (RequestException ConnectionError), st,
          [EvRequest p;
           EvWarning At_make_request (RequestException ConnectionError);
           EvSleep 5; EvRequest p;
           EvWarning At_make_request (RequestException ConnectionError);
           EvSleep 5; EvRequest p])
    else (Ok (exchange_answer db p), st, [EvRequest p]).
Proof.
  destruct st as [[] c].
  unfold make_request, range, exchange_answer. simpl.
  unfold try_except, requests_get. simpl.
  destruct (down (p_symbol p)); reflexivity.
Qed.

Lemma exchange_make_request_Ok (p : params) (st : State (E := X)) ks st1 t1 :
  make_request p st = (Ok ks, st1, t1) → ks = exchange_answer db p.
Proof.
  rewrite exchange_make_request. destruct (down (p_symbol p)); [done|].
  by intros [= <- _ _].
Qed.

(** Pages *)

Lemma page_nil (p : params) (l : list kline) : page p l = [] → l = [].
Proof.
  unfold page. destruct (p_startTime p).
  - destruct l; [done|]. by rewrite firstn_cons.
  - intros H. apply (f_equal length) in H. rewrite length_drop in H.
    simpl in H. destruct l; [done|]. simpl in *. lia.
Qed.

Lemma page_short (p : params) (l : list kline) :
  Z.of_nat (length (page p l)) < PAGE_LIMIT → page p l = l.
Proof.
  unfold page, PAGE_LIMIT. destruct (p_startTime p).
  - rewrite length_take. intros H. apply take_ge. lia.
  - rewrite length_drop. intros H.
    replace (length l - 1000)%nat with 0%nat by lia. done.
Qed.

Lemma page_elem_of (p : params) (l : list kline) (k : kline) :
  k ∈ page p l → k ∈ l.
Proof.
  unfold page. destruct (p_startTime p).
  - apply subseteq_take.
  - apply subseteq_drop.
Qed.

Lemma answer_elem_of (p : params) (k : kline) :
  k ∈ exchange_answer db p →
  k ∈ db (p_symbol p) ∧ in_window p k = true.
Proof.
  intros Hk. apply page_elem_of in Hk.
  apply list_elem_of_In, filter_In in Hk as [Hk Hw].
  split; [by apply list_elem_of_In|done].
Qed.

Lemma sorted_last_max (l : list kline) (kmax k : kline) :
  time_sorted l → last l = Some kmax → k ∈ l → k_time k ≤ k_time kmax.
Proof.
  intros Hl Hlast Hk. apply last_Some in Hlast as [l' ->].
  apply elem_of_app in Hk as [Hk|Hk].
  - apply (StronglySorted_app_1_elem_of _ _ _ k kmax Hl Hk). by constructor.
  - apply list_elem_of_singleton in Hk as ->. done.
Qed.

(** A fetch that returned bars has seen the day of the newest candle of
    the exchange. *)
Lemma klines_loop_covers (fuel : nat) (sd : option datetime) (p : params)
    (acc : list bar) (seen : gset Z) (st : State (E := X)) l st' t :
  klines_loop fuel sd p acc seen st = (Ok l, st', t) →
  seen_inv acc seen →
  (is_Some sd → p_endTime p = None) →
  (∀ e, p_endTime p = Some e →
     ∃ kmax, last (db (p_symbol p)) = Some kmax ∧ e = k_time kmax) →
  (exchange_answer db p = [] ∧ l = acc) ∨
  ∃ kmax, last (db (p_symbol p)) = Some kmax ∧
          kline_day (E := X) kmax ∈ day_of <$> l.
Proof.
  revert p acc seen st t.
  induction fuel as [|fuel IH]; intros p acc seen st t Hrun Hinv Hsd Hend;
    simpl in Hrun; [done|].
  apply bind_Ok in Hrun as (ks & st1 & t1 & t2 & Hreq & Hrun & ->).
  apply exchange_make_request_Ok in Hreq as Hks.
  destruct ks as [|k ks].
  { apply ret_Ok in Hrun as (-> & _ & _). left. by rewrite <- Hks. }
  right.
  assert (Hk_in : k ∈ exchange_answer db p) by (rewrite <- Hks; by left).
  destruct (answer_elem_of _ _ Hk_in) as [Hkdb Hkw].
  destruct (last (db (p_symbol p))) as [kmax|] eqn:Hmax.
  2:{ apply last_None in Hmax. rewrite Hmax in Hkdb.
      by apply elem_of_nil in Hkdb. }
  exists kmax. split; [done|].
  assert (Hmaxdb : kmax ∈ db (p_symbol p)) by by apply last_Some_elem_of.
  pose proof (collect_seen_inv (E := X) (k :: ks) acc seen Hinv) as Hinv'.
  assert (Hcov : ∀ k0, k0 ∈ k :: ks →
            kline_day (E := X) k0 ∈
              day_of <$> (collect (E := X) (k :: ks) acc seen).1).
  { intros k0 Hk0. by apply collect_covers. }
  assert (Hend_max : match p_endTime p with
                     | Some e => k_time kmax <=? e
                     | None => true
                     end = true).
  { destruct (p_endTime p) as [e|] eqn:He; [|done].
    destruct (Hend e eq_refl) as (kmax' & [= <-] & ->). apply Z.leb_refl. }
  assert (Hshort : Z.of_nat (length (k :: ks)) < PAGE_LIMIT →
            kmax ∈ k :: ks).
  { intros Hlen. rewrite Hks in Hlen |- *. unfold exchange_answer in *.
    rewrite (page_short _ _ Hlen).
    apply list_elem_of_In, filter_In. split; [by apply list_elem_of_In|].
    unfold in_window in *. rewrite Hend_max, andb_true_r.
    destruct (p_startTime p) as [a|]; [|done].
    apply andb_prop in Hkw as [Hkw _]. apply Z.leb_le in Hkw.
    apply Z.leb_le.
    pose proof (sorted_last_max _ _ _ (db_sorted _) Hmax Hkdb). lia. }
  destruct (collect (E := X) (k :: ks) acc seen) as [acc' seen'] eqn:Hcol.
  simpl in Hinv', Hcov.
  destruct (Z.of_nat (length (k :: ks)) <? PAGE_LIMIT) eqn:Hlen.
  - apply Z.ltb_lt in Hlen.
    destruct sd as [d0|].
    + apply ret_Ok in Hrun as (-> & _ & _). by apply Hcov, Hshort.
    + destruct (p_endTime p) as [e|] eqn:He.
      * apply bind_Ok in Hrun as (p' & st2 & t3 & t4 & Hpop & Hrun & ->).
        unfold pop_window in Hpop. rewrite He in Hpop.
        destruct (p_startTime p); [|done].
        apply ret_Ok in Hpop as (-> & -> & ->).
        destruct (IH _ _ _ _ _ Hrun Hinv') as [[Hnil _]|(kmax' & Hmax' & Hin)].
        { by intros [? ?]. }
        { by intros e'. }
        -- exfalso. unfold exchange_answer in Hnil. apply page_nil in Hnil.
           simpl in Hnil.
           assert (Hin : kmax ∈ List.filter
                     (in_window (mk_params (p_symbol p) None None))
                     (db (p_symbol p))).
           { apply list_elem_of_In, filter_In.
             split; [by apply list_elem_of_In|done]. }
           rewrite Hnil in Hin. by apply elem_of_nil in Hin.
        -- simpl in Hmax'. rewrite Hmax in Hmax'. by injection Hmax' as <-.
      * apply ret_Ok in Hrun as (-> & _ & _). by apply Hcov, Hshort.
  - apply Z.ltb_ge in Hlen.
    apply bind_Ok in Hrun as (t0 & st2 & t3 & t4 & Hlast & Hrun & ->).
    apply last_open_time_Ok in Hlast as (kl & Hkl & -> & -> & ->).
    apply bind_Ok in Hrun as ([] & st3 & t5 & t6 & _ & Hrun & ->).
    destruct (IH _ _ _ _ _ Hrun Hinv') as [[Hnil ->]|(kmax' & Hmax' & Hin)].
    { done. }
    { simpl. intros e He. destruct (Hend e He) as (k' & [= <-] & ->).
      by exists kmax. }
    + assert (Hkl_in : kl ∈ k :: ks) by by apply last_Some_elem_of.
      rewrite Hks in Hkl_in.
      destruct (answer_elem_of _ _ Hkl_in) as [Hkldb _].
      pose proof (sorted_last_max _ _ _ (db_sorted _) Hmax Hkldb) as Hle.
      unfold exchange_answer in Hnil. apply page_nil in Hnil. simpl in Hnil.
      assert (Hout : in_window
                (mk_params (p_symbol p) (Some (k_time kl + 1)) (p_endTime p))
                kmax = false).
      { destruct (in_window _ kmax) eqn:Hw; [|done]. exfalso.
        assert (Hin : kmax ∈ List.filter
                  (in_window (mk_params (p_symbol p) (Some (k_time kl + 1))
                                (p_endTime p)))
                  (db (p_symbol p))).
        { apply list_elem_of_In, filter_In.
          split; [by apply list_elem_of_In|done]. }
        rewrite Hnil in Hin. by apply elem_of_nil in Hin. }
      unfold in_window in Hout. simpl in Hout.
      rewrite Hend_max, andb_true_r in Hout. apply Z.leb_gt in Hout.
      assert (Heq : k_time kmax = k_time kl) by lia.
      assert (Hday : kline_day (E := X) kmax = kline_day (E := X) kl).
      { unfold kline_day. by rewrite Heq. }
      rewrite Hday. apply Hcov. by rewrite Hks.
    + simpl in Hmax'. rewrite Hmax in Hmax'. by injection Hmax' as <-.
Qed.

Lemma filter_no_bounds (s : string) (l : list kline) :
  List.filter (in_window (mk_params s None None)) l = l.
Proof. induction l as [|k l IH]; simpl; [done|]. by rewrite IH. Qed.

Lemma last_drop_Some {A} (n : nat) (l : list A) (x : A) :
  last (drop n l) = Some x → last l = Some x.
Proof.
  intros H. rewrite <- (take_drop n l).
  apply last_Some in H as [l' ->]. by rewrite (assoc_L (++)), last_snoc.
Qed.

Lemma ascending_last_max (l : list bar) (bL b : bar) :
  ascending l → last l = Some bL → b ∈ l → b_date b ≤ b_date bL.
Proof.
  intros Hl Hlast Hb. apply last_Some in Hlast as [l' ->].
  apply elem_of_app in Hb as [Hb|Hb].
  - pose proof (StronglySorted_app_1_elem_of _ _ _ b bL Hl Hb) as Hlt.
    unfold date_lt in Hlt. specialize (Hlt ltac:(by constructor)). lia.
  - apply list_elem_of_singleton in Hb as ->. done.
Qed.

(** The bars a fetch returns end on the day of the newest candle of the
    exchange, or later. *)
Lemma exchange_fetch_covers (fuel : nat) (s : string) (sd : option datetime)
    (st : State (E := X)) l st' t :
  fetch_crypto_daily_binance fuel s sd st = (Ok l, st', t) →
  l = [] ∨
  ∃ bL, last l = Some bL ∧
        Forall (fun k => k_time k + zone < b_date bL + DAY_MS) (db s).
Proof.
  intros Hrun.
  pose proof (fetch_crypto_daily_binance_result _ _ _ _ _ _ _ Hrun)
    as [Hasc _].
  apply logged_Ok in Hrun.
  apply bind_Ok in Hrun as (p & st1 & t1 & t2 & Hp & Hrun & ->).
  apply bind_Ok in Hrun as (l0 & st2 & t3 & t4 & Hloop & Hret & ->).
  apply ret_Ok in Hret as (-> & _ & _).
  assert (Hparams : p_symbol p = s ∧ (is_Some sd → p_endTime p = None) ∧
            ∀ e, p_endTime p = Some e →
                 ∃ kmax, last (db s) = Some kmax ∧ e = k_time kmax).
  { destruct sd as [d|].
    - by apply ret_Ok in Hp as (-> & _ & _).
    - apply bind_Ok in Hp as (recent & st3 & t5 & t6 & Hreq & Hp & _).
      apply exchange_make_request_Ok in Hreq.
      destruct recent as [|k ks]; [by apply ret_Ok in Hp as (-> & _ & _)|].
      apply bind_Ok in Hp as (t0 & st4 & t7 & t8 & Hlast & Hp & _).
      apply last_open_time_Ok in Hlast as (kl & Hkl & -> & _ & _).
      apply ret_Ok in Hp as (-> & _ & _).
      split; [done|]. split; [by intros []|]. simpl. intros e [= <-].
      exists kl. split; [|done].
      rewrite Hreq in Hkl. unfold exchange_answer, page in Hkl. simpl in Hkl.
      rewrite filter_no_bounds in Hkl. by apply last_drop_Some in Hkl. }
  destruct Hparams as (Hs & Hsd & Hend). subst s.
  destruct (klines_loop_covers _ _ _ _ _ _ _ _ _ Hloop seen_inv_empty
              Hsd Hend) as [[_ ->]|(kmax & Hmax & Hin)]; [by left|].
  right.
  rewrite <- (sort_by_date_perm l0) in Hin.
  apply list_elem_of_fmap in Hin as (b & Hday & Hb).
  destruct (last (sort_by_date l0)) as [bL|] eqn:HbL.
  2:{ apply last_None in HbL. rewrite HbL in Hb. by apply elem_of_nil in Hb. }
  exists bL. split; [done|].
  pose proof (ascending_last_max _ _ _ Hasc HbL Hb) as Hle.
  apply Forall_forall. intros k Hk.
  pose proof (sorted_last_max _ _ _ (db_sorted _) Hmax Hk) as Hkmax.
  unfold kline_day, day_of, date_str, fromtimestamp in Hday. simpl in Hday.
  pose proof (Z.div_mod (k_time kmax + zone) DAY_MS ltac:(done)) as H1.
  pose proof (Z.mod_pos_bound (k_time kmax + zone) DAY_MS ltac:(done)) as H2.
  pose proof (Z.div_mod (b_date b) DAY_MS ltac:(done)) as H3.
  pose proof (Z.mod_pos_bound (b_date b) DAY_MS ltac:(done)) as H4.
  rewrite Hday in H1. unfold DAY_MS in *. lia.
Qed.

Lemma filter_none {A} (f : A → bool) (l : list A) :
  Forall (fun x => f x = false) l → List.filter f l = [].
Proof.
  induction 1 as [|x l Hx _ IH]; simpl; [done|]. by rewrite Hx.
Qed.

(** Once the asset is caught up, its fetch returns no bar. *)
Lemma caught_up_no_bars (fuel : nat) (s : string) (sd : option datetime)
    (st : State (E := X)) :
  caught_up db zone s (store st) → no_bars (fetch_crypto_daily fuel s sd st).
Proof.
  intros (d & b & Hfind & Hlast & Hall).
  rewrite (fetch_crypto_daily_with_history _ _ _ _ _ _ Hfind Hlast).
  destruct (_ <=? _); [done|].
  unfold no_bars. rewrite logged_res_of.
  unfold fetch_crypto_daily_binance. rewrite logged_res_of, bind_ret_l.
  set (p := mk_params s (Some (timestamp (add_days (b_date b) 1))) None).
  destruct fuel as [|fuel]; [done|].
  pose proof (exchange_make_request p st) as Hreq.
  assert (Hnil : exchange_answer db p = []).
  { unfold exchange_answer. rewrite filter_none; [done|].
    eapply Forall_impl; [exact Hall|]. intros k Hk. simpl in Hk.
    unfold in_window. simpl. rewrite andb_true_r. apply Z.leb_gt.
    unfold timestamp, add_days. simpl. lia. }
  rewrite Hnil in Hreq. unfold bind.
  destruct (down (p_symbol p)).
  - by rewrite (klines_loop_raise _ _ _ _ _ _ _ _ _ Hreq).
  - by rewrite (klines_loop_last_page _ _ _ _ _ _ _ _ _ Hreq
                  ltac:(done) (or_introl eq_refl)).
Qed.

(** Getting caught up *)

Lemma settles_refl (c : collection) : settles db zone c c.
Proof.
  split; [done|]. split; [by right|].
  apply Forall2_same_length_lookup. split; [done|].
  intros i x y Hx Hy. left. congruence.
Qed.

Lemma settles_trans (c1 c2 c3 : collection) :
  settles db zone c1 c2 → settles db zone c2 c3 → settles db zone c1 c3.
Proof.
  intros (Hup12 & Hfind12 & Hall12) (Hup23 & Hfind23 & Hall23).
  split; [|split].
  - intros s Hs. by apply Hup23, Hup12.
  - intros s. destruct (Hfind23 s) as [H|H]; [by left|].
    destruct (Hfind12 s) as [H'|H']; [left; by apply Hup23|].
    right. congruence.
  - apply Forall2_same_length_lookup in Hall12 as [Hlen12 Hall12].
    apply Forall2_same_length_lookup in Hall23 as [Hlen23 Hall23].
    apply Forall2_same_length_lookup. split; [congruence|].
    intros i d1 d3 H1 H3.
    destruct (lookup_lt_is_Some_2 c2 i) as [d2 H2].
    { rewrite <- Hlen12. by eapply lookup_lt_Some. }
    destruct (Hall12 i d1 d2 H1 H2) as [->|(s & Hs1 & Hs2 & Hcu)];
      [by apply (Hall23 i)|].
    right. exists s. split; [done|]. split; [|by apply Hup23].
    destruct (Hall23 i d2 d3 H2 H3) as [->|(s' & Hs2' & Hs3 & _)];
      congruence.
Qed.

Lemma settles_present (c c' : collection) (s : string) :
  settles db zone c c' → is_Some (find_one s c) → is_Some (find_one s c').
Proof.
  intros (_ & Hfind & _) Hs.
  destruct (Hfind s) as [(d & b & Hd & _)|Heq].
  - rewrite Hd. by eexists.
  - by rewrite Heq.
Qed.

(** Bars that a fetch returned, once pushed, leave the asset caught up. *)
Lemma push_caught_up (fuel : nat) (s : string) (sd : option datetime)
    (st : State (E := X)) b bs st1 t1 d :
  fetch_crypto_daily fuel s sd st = (Ok (b :: bs), st1, t1) →
  find_one s (store st) = Some d →
  caught_up db zone s (update_first s (push_each (b :: bs)) (store st)).
Proof.
  intros Hf Hfind.
  apply fetch_crypto_daily_bars in Hf as [sd' Hf].
  destruct (exchange_fetch_covers _ _ _ _ _ _ _ Hf) as [|(bL & HbL & Hall)];
    [done|].
  exists (push_each (b :: bs) d), bL. split; [|split; [|done]].
  - by apply find_one_update_first.
  - unfold push_each. simpl.
    apply last_Some in HbL as [l' Hl']. rewrite Hl'.
    by rewrite (assoc_L (++)), last_snoc.
Qed.

Lemma settles_push (s : string) (bars : list bar) (c : collection) :
  (is_Some (find_one s c) →
   caught_up db zone s (update_first s (push_each bars) c)) →
  settles db zone c (update_first s (push_each bars) c).
Proof.
  intros Hcu.
  destruct (find_one s c) as [d|] eqn:Hfind.
  2:{ rewrite update_first_absent by done. apply settles_refl. }
  specialize (Hcu (mk_is_Some _ _ eq_refl)).
  split; [|split].
  - intros s' (d' & b' & Hd' & Hb' & Hall').
    destruct (decide (s = s')) as [<-|Hne]; [done|].
    exists d', b'. by rewrite find_one_update_first_ne.
  - intros s'. destruct (decide (s = s')) as [<-|Hne]; [by left|].
    right. by apply find_one_update_first_ne.
  - eapply Forall2_impl; [apply update_first_Forall2|].
    intros x y [->|[Hx ->]]; [by left|]. right. by exists s.
Qed.

(** One iteration, and a whole loop, only get documents caught up. *)
Lemma update_asset_settles (fuel : nat) (yesterday : datetime) (x : doc)
    (symbol_var : option string) (st : State (E := X)) :
  settles db zone (store st)
    (store (state_of (update_asset fuel yesterday x symbol_var st))).
Proof.
  pose proof (update_asset_outcome fuel yesterday x symbol_var st) as H.
  simpl in H.
  destruct (d_symbol x) as [s|];
    [|rewrite (proj1 H); apply settles_refl].
  destruct (is_recent _ _); [rewrite (proj1 H); apply settles_refl|].
  destruct (fetch_crypto_daily fuel s _ st) as [[r st1] t1] eqn:Hf.
  simpl in H.
  destruct r as [[|b bs]|e|]; try (rewrite (proj1 H); apply settles_refl).
  destruct H as (_ & _ & ->).
  apply settles_push. intros [d Hd]. by eapply push_caught_up.
Qed.

Lemma update_loop_settles (fuel : nat) (yesterday : datetime)
    (cryptos : list doc) (symbol_var : option string)
    (st : State (E := X)) :
  settles db zone (store st)
    (store (state_of (update_loop fuel yesterday cryptos symbol_var st))).
Proof.
  revert symbol_var st.
  induction cryptos as [|x rest IH]; intros symbol_var st;
    [apply settles_refl|].
  rewrite update_loop_cons. unfold bind.
  pose proof (update_asset_settles fuel yesterday x symbol_var st) as H1.
  destruct (update_asset fuel yesterday x symbol_var st)
    as [[[v|e|] st1] t1]; simpl in *; try done.
  specialize (IH v st1).
  destruct (update_loop fuel yesterday rest v st1) as [[r st2] t2].
  simpl in *. by eapply settles_trans.
Qed.

Lemma world_unit (st st' : State (E := X)) : world st = world st'.
Proof. by destruct (world st), (world st'). Qed.

(** After a loop that ended normally, an iteration on any of its
    documents would write nothing. *)
Lemma update_loop_quiet (fuel : nat) (yesterday : datetime)
    (cryptos : list doc) (symbol_var : option string)
    (st : State (E := X)) :
  Forall (fun x => ∀ s, d_symbol x = Some s →
                        is_Some (find_one s (store st))) cryptos →
  res_of (update_loop fuel yesterday cryptos symbol_var st) = Ok tt →
  Forall
    (quiet fuel yesterday
       (fun s => caught_up db zone s
          (store (state_of
             (update_loop fuel yesterday cryptos symbol_var st))))
       (state_of (update_loop fuel yesterday cryptos symbol_var st)))
    cryptos.
Proof.
  revert symbol_var st.
  induction cryptos as [|x rest IH]; intros symbol_var st Hpres Hres;
    [constructor|].
  inversion Hpres as [|? ? Hx Hrest]; subst.
  pose proof (update_asset_settles fuel yesterday x symbol_var st) as Hs1.
  pose proof (update_asset_outcome fuel yesterday x symbol_var st) as Hout.
  simpl in Hout.
  revert Hres. rewrite update_loop_cons. unfold bind.
  destruct (update_asset fuel yesterday x symbol_var st)
    as [[[v|e|] st1] t1] eqn:Hstep; cbn [res_of state_of trace_of] in *;
    try done.
  pose proof (update_loop_settles fuel yesterday rest v st1) as Hs2.
  specialize (IH v st1).
  destruct (update_loop fuel yesterday rest v st1) as [[r st2] t2] eqn:Hloop.
  cbn [res_of state_of trace_of] in *. intros ->.
  pose proof (settles_trans _ _ _ Hs1 Hs2) as Hs.
  constructor.
  - unfold quiet. destruct (d_symbol x) as [s|] eqn:Hsx; [|done].
    destruct (is_recent _ _) eqn:Hrec; [by right; left|].
    set (sd := next_start_date (snapshot_last_date x)) in *.
    assert (Htransfer : no_bars (fetch_crypto_daily fuel s sd st) →
              caught_up db zone s (store st2) ∨
              no_bars (fetch_crypto_daily fuel s sd st2)).
    { intros Hnb. destruct Hs as (_ & Hfind & _).
      destruct (Hfind s) as [H|H]; [by left|right].
      unfold no_bars in *.
      by rewrite (fetch_crypto_daily_same fuel s sd st2 st
                    (world_unit _ _) H). }
    destruct (fetch_crypto_daily fuel s sd st) as [[r0 st0] t0] eqn:Hf.
    simpl in Hout.
    destruct r0 as [[|b1 bs]|e0|];
      try (destruct (Htransfer I) as [H|H]; [by left|by right; right]).
    left. destruct Hout as (_ & _ & Hst1).
    destruct (Hx s eq_refl) as [d0 Hd0].
    destruct Hs2 as (Hup & _). apply Hup. rewrite Hst1.
    by eapply push_caught_up.
  - apply IH; [|done].
    eapply Forall_impl; [exact Hrest|]. intros y Hy s Hs'.
    eapply settles_present; [exact Hs1|]. by apply Hy.
Qed.

(** A loop over documents of which every iteration is quiet writes
    nothing. *)
Lemma update_loop_all_quiet (fuel : nat) (yesterday : datetime)
    (cryptos : list doc) (symbol_var : option string)
    (st : State (E := X)) (caught : string → Prop) :
  (∀ s, caught s → caught_up db zone s (store st)) →
  Forall (quiet fuel yesterday caught st) cryptos →
  writes_of (trace_of (update_loop fuel yesterday cryptos symbol_var st)) =
    [] ∧
  store (state_of (update_loop fuel yesterday cryptos symbol_var st)) =
    store st.
Proof.
  intros Hcaught. revert symbol_var.
  induction cryptos as [|x rest IH]; intros symbol_var Hall; [done|].
  inversion Hall as [|? ? Hx Hrest]; subst.
  assert (Hstep :
    store (state_of (update_asset fuel yesterday x symbol_var st)) =
      store st ∧
    writes_of (trace_of (update_asset fuel yesterday x symbol_var st)) = []).
  { pose proof (update_asset_outcome fuel yesterday x symbol_var st) as Hout.
    simpl in Hout. unfold quiet in Hx.
    destruct (d_symbol x) as [s|]; [|done].
    destruct (is_recent _ _) eqn:Hrec; [done|].
    assert (Hnb : no_bars (fetch_crypto_daily fuel s
                    (next_start_date (snapshot_last_date x)) st)).
    { destruct Hx as [Hc|[Hr|Hn]]; [|done|done].
      by apply caught_up_no_bars, Hcaught. }
    unfold no_bars in Hnb.
    by destruct (res_of _) as [[|b bs]|e|]. }
  rewrite update_loop_cons. unfold bind.
  destruct (update_asset fuel yesterday x symbol_var st)
    as [[[v|e|] st1] t1]; cbn [res_of state_of trace_of] in *;
    try by destruct Hstep.
  destruct Hstep as [Hst Hw].
  assert (Heq : st1 = st).
  { rewrite (state_unit st1), (state_unit st). by rewrite Hst. }
  subst st1. specialize (IH v Hrest).
  destruct (update_loop fuel yesterday rest v st) as [[r st2] t2].
  cbn [res_of state_of trace_of] in *.
  split; [by rewrite writes_of_app, Hw, (proj1 IH)|apply IH].
Qed.

(** After a first run that returned. *)
Lemma second_update_after_return (fuel : nat) (c : collection) :
  let first := update_crypto_daily (E := X) fuel (mk_state (E := X) tt c) in
  res_of first = Ok tt →
  writes_of (trace_of (update_crypto_daily (E := X) fuel (state_of first))) =
    [] ∧
  store (state_of (update_crypto_daily (E := X) fuel (state_of first))) =
    store (state_of first).
Proof.
  intros first Hres. subst first.
  set (yesterday := add_days (midnight now) (-1)).
  set (st0 := mk_state (E := X) tt c) in *.
  assert (Hfirst : state_of (update_crypto_daily fuel st0) =
            state_of (update_loop fuel yesterday (snapshot c) None st0)).
  { unfold update_crypto_daily.
    by rewrite logged_state_of, bind_get_store, bind_utcnow. }
  assert (Hres1 : res_of (update_loop fuel yesterday (snapshot c) None st0) =
            Ok tt).
  { revert Hres. unfold update_crypto_daily.
    by rewrite logged_res_of, bind_get_store, bind_utcnow. }
  rewrite Hfirst. clear Hfirst Hres.
  pose proof (update_loop_settles fuel yesterday (snapshot c) None st0)
    as Hsettles.
  pose proof (update_loop_quiet fuel yesterday (snapshot c) None st0) as Hq.
  set (st1 := state_of (update_loop fuel yesterday (snapshot c) None st0))
    in *.
  unfold update_crypto_daily.
  rewrite logged_writes_of, logged_state_of, bind_get_store, bind_utcnow.
  change (utcnow (world st1)) with now. fold yesterday.
  apply (update_loop_all_quiet fuel yesterday (snapshot (store st1)) None st1
           (fun s => caught_up db zone s (store st1))); [done|].
  assert (Hq' : Forall (quiet fuel yesterday
                          (fun s => caught_up db zone s (store st1)) st1)
                  (snapshot c)).
  { apply Hq; [|done]. unfold snapshot. apply Forall_fmap, Forall_forall.
    intros d Hd s Hs. by apply (find_one_present s c d). }
  destruct Hsettles as (_ & _ & Hall).
  apply Forall2_same_length_lookup in Hall as [Hlen Hall].
  apply Forall_lookup. intros i x Hi.
  change (snapshot (store st1)) with (projected <$> store st1) in Hi.
  apply list_lookup_fmap_Some in Hi as (d' & -> & Hd').
  destruct (lookup_lt_is_Some_2 c i) as [d Hd].
  { simpl in Hlen. rewrite Hlen. by eapply lookup_lt_Some. }
  destruct (Hall i d d' Hd Hd') as [->|(s & Hs & Hs' & Hcu)].
  - rewrite Forall_lookup in Hq'. apply (Hq' i).
    change (snapshot c) with (projected <$> c).
    by rewrite list_lookup_fmap, Hd.
  - unfold quiet. change (d_symbol (projected d')) with (d_symbol d').
    rewrite Hs'. by left.
Qed.

(** After a first run that raised: it stopped at a first document without
    symbol, and so does the second. *)
Lemma second_update_after_raise (fuel : nat) (c : collection) (e : exn) :
  let first := update_crypto_daily (E := X) fuel (mk_state (E := X) tt c) in
  res_of first = Raise e →
  writes_of (trace_of (update_crypto_daily (E := X) fuel (state_of first))) =
    [] ∧
  store (state_of (update_crypto_daily (E := X) fuel (state_of first))) =
    store (state_of first).
Proof.
  intros first Hres. subst first.
  set (st0 := mk_state (E := X) tt c) in *.
  assert (Hrun : update_crypto_daily fuel st0 =
            (Raise (NameError "symbol"), st0,
             [EvError At_update_crypto_daily None (NameError "symbol")])).
  { revert Hres. unfold update_crypto_daily.
    rewrite logged_res_of, bind_get_store, bind_utcnow. intros Hres.
    apply update_loop_raise_inv in Hres as (x & rest & Hc & Hx).
    unfold logged, try_except. rewrite bind_get_store, bind_utcnow, Hc.
    by rewrite (update_loop_unbound _ _ _ _ _ Hx). }
  rewrite Hrun. cbn [state_of]. by rewrite Hrun.
Qed.

(** C4, amended.  On an exchange that keeps a fixed list of candles per
    symbol, in the order of their opening times, and answers every request
    with the candles of the requested window, at most a page of them, with
    the clock standing still: when a first run of [update_crypto_daily]
    has ended, normally or with an exception, a second run from the state
    it left writes nothing and leaves the collection as it is. *)
Theorem second_update_writes_nothing (fuel : nat) (c : collection) :
  let first := update_crypto_daily (E := X) fuel (mk_state (E := X) tt c) in
  res_of first ≠ OutOfFuel →
  writes_of (trace_of (update_crypto_daily (E := X) fuel (state_of first))) =
    [] ∧
  store (state_of (update_crypto_daily (E := X) fuel (state_of first))) =
    store (state_of first).
Proof.
  intros first Hres.
  destruct (res_of first) as [[]|e|] eqn:Hr; [| |done].
  - by apply second_update_after_return.
  - by apply (second_update_after_raise fuel c e).
Qed.

End Honest.

(** * More of the two modules *)

Section Coverage.

Context {E : Env}.

(** X1.  The three fetch functions, [make_request],
    [fetch_crypto_daily_binance] and [fetch_crypto_daily], never write:
    whatever the exchange answers and however they end, the collection is
    as before and the trace has no write. *)
Theorem fetches_never_write (fuel : nat) (symbol : string)
    (start_date : option datetime) (p : params) :
  frame (make_request p) ∧
  frame (fetch_crypto_daily_binance fuel symbol start_date) ∧
  frame (fetch_crypto_daily fuel symbol start_date).
Proof.
  split; [apply frame_make_request|].
  split; [apply frame_fetch_crypto_daily_binance|].
  apply frame_fetch_crypto_daily.
Qed.

(** X2.  What [fetch_crypto_daily_binance] returns is in strictly
    increasing date order and has at most one bar per calendar day,
    whatever the pages of the exchange held. *)
Theorem fetch_crypto_daily_binance_one_bar_per_day (fuel : nat)
    (symbol : string) (start_date : option datetime) (st : State)
    (l : list bar) (st' : State) (t : list event) :
  fetch_crypto_daily_binance fuel symbol start_date st = (Ok l, st', t) →
  ascending l ∧ NoDup (day_of <$> l).
Proof.
  intros Hrun.
  split; [by eapply fetch_crypto_daily_binance_result|].
  apply logged_Ok in Hrun.
  apply bind_Ok in Hrun as (p & st1 & t1 & t2 & _ & Hrun & _).
  apply bind_Ok in Hrun as (l0 & st2 & t3 & t4 & Hloop & Hret & _).
  apply ret_Ok in Hret as (-> & _ & _).
  destruct (klines_loop_result _ _ _ _ _ _ _ _ _ Hloop seen_inv_empty)
    as [Hnd _].
  by rewrite sort_by_date_perm.
Qed.

(** X3.  When the first stored document has no [symbol] field,
    [init_crypto_daily] ends with [KeyError]: the handler of its loop reads
    [crypto['symbol']] again, the exception leaves the loop and the outer
    handler logs and re-raises it.  Nothing is requested, nothing is
    written. *)
Theorem init_crypto_daily_missing_symbol (fuel : nat) (st : State)
    (name : option string) (dayline : list bar) (rest : collection) :
  store st = mk_doc name None dayline :: rest →
  init_crypto_daily fuel st =
    (Raise (KeyError "symbol"), st,
     [EvError At_init_crypto_daily None (KeyError "symbol")]).
Proof.
  intros Hst. unfold init_crypto_daily, logged, try_except.
  rewrite bind_get_store, Hst. reflexivity.
Qed.

(** X4.  [init_crypto_daily] on an asset that is up to date: its fetch
    returns the empty list without a request, and the [$set] that follows
    replaces the stored dayline by it. *)
Theorem init_asset_erases_recent_history (fuel : nat) (crypto stored : doc)
    (s : string) (b : bar) (st : State) :
  d_symbol crypto = Some s →
  find_one s (store st) = Some stored →
  last (d_dayline stored) = Some b →
  midnight (utcnow (world st)) ≤ b_date b →
  init_asset fuel crypto st =
    (Ok tt,
     mk_state (sleep 1 (world st))
       (update_first s (set_dayline []) (store st)),
     [EvSet s []; EvSleep 1]) ∧
  find_one s (update_first s (set_dayline []) (store st)) =
    Some (mk_doc (d_name stored) (d_symbol stored) []).
Proof.
  intros Hs Hfind Hlast Hle. split.
  - rewrite (init_asset_new _ _ _ _ Hs).
    rewrite (fetch_crypto_daily_with_history _ _ _ _ _ _ Hfind Hlast).
    by rewrite (proj2 (Z.leb_le _ _) Hle).
  - by apply (find_one_update_first s (set_dayline [])).
Qed.

Lemma make_request_fails (p : params) (st : State) c1 c2 c3 w1 w2 w3 :
  http_get p (world st) = (HttpErr c1, w1) →
  http_get p (sleep RETRY_DELAY w1) = (HttpErr c2, w2) →
  http_get p (sleep RETRY_DELAY w2) = (HttpErr c3, w3) →
  make_request p st =
    (Raise (RequestException c3), mk_state w3 (store st),
     failed_request p c1 c2).
Proof.
  intros H1 H2 H3. unfold make_request, range; simpl.
  unfold try_except, requests_get at 1. rewrite H1.
  simpl. unfold bind at 1, emit at 1. simpl.
  unfold bind at 1, time_sleep at 1. simpl.
  unfold try_except, requests_get at 1. simpl. rewrite H2.
  simpl. unfold bind at 1, emit at 1. simpl.
  unfold bind at 1, time_sleep at 1. simpl.
  unfold try_except, requests_get at 1. simpl. by rewrite H3.
Qed.

(** X5.  An exchange that fails three times in a row makes
    [fetch_crypto_daily] raise the last exception, and the failure is
    logged twice on its way up: by [fetch_crypto_daily_binance] and by
    [fetch_crypto_daily]. *)
Theorem fetch_failure_logged_at_each_level (fuel : nat) (symbol : string)
    (d : datetime) (st : State) (c1 c2 c3 : req_exc) (w1 w2 w3 : World) :
  let p := mk_params symbol (Some (timestamp d)) None in
  match find_one symbol (store st) with
  | Some x => d_dayline x = []
  | None => True
  end →
  http_get p (world st) = (HttpErr c1, w1) →
  http_get p (sleep RETRY_DELAY w1) = (HttpErr c2, w2) →
  http_get p (sleep RETRY_DELAY w2) = (HttpErr c3, w3) →
  fetch_crypto_daily (S fuel) symbol (Some d) st =
    (Raise (RequestException c3), mk_state w3 (store st),
     failed_request p c1 c2 ++
     [EvError At_fetch_crypto_daily_binance (Some symbol)
        (RequestException c3);
      EvError At_fetch_crypto_daily (Some symbol) (RequestException c3)]).
Proof.
  intros p Hnew H1 H2 H3.
  pose proof (make_request_fails p st _ _ _ _ _ _ H1 H2 H3) as Hreq.
  assert (Hbin : fetch_crypto_daily_binance (S fuel) symbol (Some d) st =
            (Raise (RequestException c3), mk_state w3 (store st),
             failed_request p c1 c2 ++
             [EvError At_fetch_crypto_daily_binance (Some symbol)
                (RequestException c3)])).
  { unfold fetch_crypto_daily_binance, logged, try_except.
    rewrite bind_ret_l. fold p. unfold bind at 1.
    by rewrite (klines_loop_raise _ _ _ _ _ _ _ _ _ Hreq). }
  unfold fetch_crypto_daily, logged at 1, try_except.
  rewrite bind_get_store.
  destruct (find_one symbol (store st)) as [x|].
  - rewrite Hnew. simpl. rewrite Hbin. reflexivity.
  - rewrite Hbin. reflexivity.
Qed.

(** X6.  An incremental fetch whose first answer has fewer than 1000
    candles makes that one request, does not wait, and returns the bars of
    the answer, one per day, sorted. *)
Theorem incremental_fetch_single_request (fuel : nat) (symbol : string)
    (d : datetime) (st : State) (ks : list kline) (w : World) :
  let p := mk_params symbol (Some (timestamp d)) None in
  http_get p (world st) = (HttpOk ks, w) →
  Z.of_nat (length ks) < PAGE_LIMIT →
  fetch_crypto_daily_binance (S fuel) symbol (Some d) st =
    (Ok (sort_by_date (collect ks [] ∅).1), mk_state w (store st),
     [EvRequest p]).
Proof.
  intros p Hget Hlen.
  unfold fetch_crypto_daily_binance, logged, try_except.
  rewrite bind_ret_l. fold p. unfold bind.
  rewrite (klines_loop_last_page _ _ _ _ _ ks _ _ _
             (make_request_ok p ks w st Hget) Hlen);
    [done|right; left; by eexists].
Qed.

(** X7.  A full-history fetch for a symbol the exchange has nothing for:
    the first answer is empty, so no window is set; the loop asks the same
    question again and stops at the empty answer.  Two requests, no
    bar. *)
Theorem full_history_nothing_listed (fuel : nat) (symbol : string)
    (st : State) (w1 w2 : World) :
  let p0 := mk_params symbol None None in
  http_get p0 (world st) = (HttpOk [], w1) →
  http_get p0 w1 = (HttpOk [], w2) →
  fetch_crypto_daily_binance (S fuel) symbol None st =
    (Ok [], mk_state w2 (store st), [EvRequest p0; EvRequest p0]).
Proof.
  intros p0 H1 H2.
  set (st1 := mk_state w1 (store st)).
  assert (Hp : bind (make_request p0)
            (fun recent_data =>
               match recent_data with
               | [] => ret p0
               | _ :: _ =>
                   bind (last_open_time recent_data) (fun t =>
                     ret (mk_params symbol (Some (timestamp BINANCE_LAUNCH))
                            (Some t)))
               end) st = (Ok p0, st1, [EvRequest p0])).
  { by rewrite (bind_Ok_eq _ _ _ _ _ _ (make_request_ok p0 [] w1 st H1)). }
  assert (Hloop : klines_loop (S fuel) None p0 [] ∅ st1 =
            (Ok [], mk_state w2 (store st), [EvRequest p0])).
  { by rewrite (klines_loop_last_page _ _ _ _ _ [] _ _ _
                  (make_request_ok p0 [] w2 st1 H2) ltac:(done)
                  (or_introl eq_refl)). }
  unfold fetch_crypto_daily_binance, logged, try_except. fold p0.
  rewrite (bind_Ok_eq _ _ _ _ _ _ Hp).
  by rewrite (bind_Ok_eq _ _ _ _ _ _ Hloop).
Qed.

(** Documents stay *)

Lemma same_documents_refl (c : collection) : same_documents c c.
Proof. done. Qed.

Lemma same_documents_trans (c1 c2 c3 : collection) :
  same_documents c1 c2 → same_documents c2 c3 → same_documents c1 c3.
Proof. intros [H1 H2] [H3 H4]. split; congruence. Qed.

Lemma update_first_same_documents (s : string) (f : doc → doc)
    (c : collection) :
  (∀ d, d_symbol (f d) = d_symbol d ∧ d_name (f d) = d_name d) →
  same_documents c (update_first s f c).
Proof.
  intros Hf. unfold same_documents.
  induction c as [|d c [IH1 IH2]]; simpl; [done|].
  destruct (has_symbol s d); rewrite !fmap_cons.
  - destruct (Hf d) as [-> ->]. done.
  - by rewrite IH1, IH2.
Qed.

Lemma update_asset_same_documents (fuel : nat) (yesterday : datetime)
    (crypto : doc) (symbol_var : option string) (st : State) :
  same_documents (store st)
    (store (state_of (update_asset fuel yesterday crypto symbol_var st))).
Proof.
  pose proof (update_asset_outcome fuel yesterday crypto symbol_var st) as H.
  simpl in H.
  destruct (d_symbol crypto) as [s|]; [|by rewrite (proj1 H)].
  destruct (is_recent _ _); [by rewrite (proj1 H)|].
  destruct (res_of _) as [[|b bs]|e|]; try by rewrite (proj1 H).
  destruct H as (_ & _ & ->). by apply update_first_same_documents.
Qed.

Lemma update_loop_same_documents (fuel : nat) (yesterday : datetime)
    (cryptos : list doc) (symbol_var : option string) (st : State) :
  same_documents (store st)
    (store (state_of (update_loop fuel yesterday cryptos symbol_var st))).
Proof.
  revert symbol_var st.
  induction cryptos as [|x rest IH]; intros symbol_var st; [done|].
  rewrite update_loop_cons. unfold bind.
  pose proof (update_asset_same_documents fuel yesterday x symbol_var st)
    as H1.
  destruct (update_asset fuel yesterday x symbol_var st)
    as [[[v|e|] st1] t1]; simpl in *; try done.
  specialize (IH v st1).
  destruct (update_loop fuel yesterday rest v st1) as [[r st2] t2].
  simpl in *. by eapply same_documents_trans.
Qed.

Lemma init_asset_same_documents (fuel : nat) (crypto : doc) (st : State) :
  same_documents (store st) (store (state_of (init_asset fuel crypto st))).
Proof.
  destruct (d_symbol crypto) as [s|] eqn:Hs.
  - rewrite (init_asset_new _ _ _ _ Hs).
    pose proof (frame_fetch_crypto_daily fuel s None st) as [Hst _].
    destruct (fetch_crypto_daily fuel s None st) as [[[bars|e|] st1] t1];
      simpl in *; rewrite Hst; [|done..].
    by apply update_first_same_documents.
  - unfold init_asset, try_except, getitem_symbol. by rewrite Hs.
Qed.

Lemma init_loop_same_documents (fuel : nat) (cryptos : list doc)
    (st : State) :
  same_documents (store st) (store (state_of (init_loop fuel cryptos st))).
Proof.
  revert st. induction cryptos as [|x rest IH]; intros st; [done|].
  simpl. unfold bind.
  pose proof (init_asset_same_documents fuel x st) as H1.
  destruct (init_asset fuel x st) as [[[v|e|] st1] t1]; simpl in *;
    try done.
  specialize (IH st1).
  destruct (init_loop fuel rest st1) as [[r st2] t2].
  simpl in *. by eapply same_documents_trans.
Qed.

(** X8.  [init_crypto_daily] and [update_crypto_daily] change daylines
    only: after any sequence of runs the collection has the same documents
    in the same order, with the same symbols and names. *)
Theorem daily_jobs_keep_documents (fuel : nat) (ops : list operation)
    (st : State) :
  same_documents (store st) (store (run_operations fuel ops st)) ∧
  length (store (run_operations fuel ops st)) = length (store st).
Proof.
  assert (H : same_documents (store st) (store (run_operations fuel ops st))).
  { revert st. induction ops as [|op ops IH]; intros st; [done|].
    simpl. eapply same_documents_trans; [|apply IH].
    destruct op; simpl.
    - unfold init_crypto_daily.
      rewrite logged_state_of, bind_get_store.
      apply init_loop_same_documents.
    - unfold update_crypto_daily.
      rewrite logged_state_of, bind_get_store, bind_utcnow.
      apply update_loop_same_documents. }
  split; [done|]. destruct H as [H _].
  apply (f_equal length) in H. by rewrite !length_fmap in H.
Qed.

(** X9.  On an empty collection both jobs return at once: nothing is
    requested, nothing is written, no time passes. *)
Theorem daily_jobs_on_empty_collection (fuel : nat) (st : State) :
  store st = [] →
  init_crypto_daily fuel st = (Ok tt, st, []) ∧
  update_crypto_daily fuel st = (Ok tt, st, []).
Proof.
  intros Hst. split.
  - unfold init_crypto_daily, logged, try_except.
    by rewrite bind_get_store, Hst.
  - unfold update_crypto_daily, logged, try_except.
    by rewrite bind_get_store, bind_utcnow, Hst.
Qed.

Lemma logged_trace_of {A} site sym (m : M A) st :
  trace_of (logged site sym m st) =
  trace_of (m st) ++
  match res_of (m st) with
  | Raise e => [EvError site sym e]
  | _ => []
  end.
Proof.
  unfold logged, try_except.
  destruct (m st) as [[[a|e|] st1] t1]; simpl; by rewrite ?app_nil_r.
Qed.

Lemma about_stored_other (c : collection) (ev : event) :
  is_request ev = false → about_stored c ev.
Proof. intros Hev p ->. done. Qed.

Lemma update_loop_about_stored (fuel : nat) (yesterday : datetime)
    (c : collection) (cryptos : list doc) (symbol_var : option string)
    (st : State) :
  Forall (fun x => ∀ s, d_symbol x = Some s → Some s ∈ d_symbol <$> c)
    cryptos →
  Forall (about_stored c)
    (trace_of (update_loop fuel yesterday cryptos symbol_var st)).
Proof.
  revert symbol_var st.
  induction cryptos as [|x rest IH]; intros symbol_var st Hall; [done|].
  inversion Hall as [|? ? Hx Hrest]; subst.
  assert (H1 : Forall (about_stored c)
            (trace_of (update_asset fuel yesterday x symbol_var st))).
  { destruct (d_symbol x) as [s|] eqn:Hs.
    - eapply (safe_update_asset (fun _ => True) (about_stored c) s);
        eauto using about_stored_other.
      intros p Hp q [= <-]. rewrite Hp. by apply Hx.
    - eapply (safe_update_asset_no_symbol (fun _ => True) (about_stored c));
        eauto using about_stored_other. }
  rewrite update_loop_cons. unfold bind.
  destruct (update_asset fuel yesterday x symbol_var st)
    as [[[v|e|] st1] t1]; simpl in *; try done.
  specialize (IH v st1 Hrest).
  destruct (update_loop fuel yesterday rest v st1) as [[r st2] t2].
  simpl in *. by apply Forall_app.
Qed.

Lemma init_loop_about_stored (fuel : nat) (c : collection)
    (cryptos : list doc) (st : State) :
  Forall (fun x => ∀ s, d_symbol x = Some s → Some s ∈ d_symbol <$> c)
    cryptos →
  Forall (about_stored c) (trace_of (init_loop fuel cryptos st)).
Proof.
  revert st.
  induction cryptos as [|x rest IH]; intros st Hall; [done|].
  inversion Hall as [|? ? Hx Hrest]; subst.
  assert (H1 : Forall (about_stored c) (trace_of (init_asset fuel x st))).
  { destruct (d_symbol x) as [s|] eqn:Hs.
    - eapply (safe_init_asset (fun _ => True) (about_stored c) s);
        eauto using about_stored_other.
      intros p Hp q [= <-]. rewrite Hp. by apply Hx.
    - by eapply (safe_init_asset_no_symbol (fun _ => True)
                   (about_stored c)). }
  simpl. unfold bind.
  destruct (init_asset fuel x st) as [[[v|e|] st1] t1]; simpl in *;
    try done.
  specialize (IH st1 Hrest).
  destruct (init_loop fuel rest st1) as [[r st2] t2].
  simpl in *. by apply Forall_app.
Qed.

(** X10.  Both jobs ask the exchange only about symbols of stored
    documents: every request of a run carries the symbol of a document
    that was in the collection when the run started. *)
Theorem daily_jobs_ask_about_stored_symbols (fuel : nat) (op : operation)
    (st : State) :
  Forall (about_stored (store st)) (trace_of (run_operation fuel op st)).
Proof.
  assert (Hall : ∀ f : doc → doc, (∀ d, d_symbol (f d) = d_symbol d) →
            Forall (fun x => ∀ s, d_symbol x = Some s →
                                  Some s ∈ d_symbol <$> store st)
              (f <$> store st)).
  { intros f Hf. apply Forall_fmap, Forall_forall. intros d Hd s Hs.
    simpl in Hs. rewrite Hf in Hs. rewrite <- Hs.
    by apply list_elem_of_fmap_2. }
  destruct op; simpl.
  - unfold init_crypto_daily. rewrite logged_trace_of, bind_get_store.
    apply Forall_app. split.
    + apply init_loop_about_stored.
      specialize (Hall id (fun _ => eq_refl)). by rewrite list_fmap_id in Hall.
    + destruct (res_of _); repeat constructor. by intros p.
  - unfold update_crypto_daily.
    rewrite logged_trace_of, bind_get_store, bind_utcnow.
    apply Forall_app. split.
    + apply update_loop_about_stored. by apply (Hall projected).
    + destruct (res_of _); repeat constructor. by intros p.
Qed.

End Coverage.

(** * The asset list and the entry points *)

Section JobFacts.

Context {E : Env} {L : Listing E}.

Lemma usdt_trading_loop_listed (symbols : list symbol_data)
    (acc : list crypto_entry) :
  usdt_trading_loop symbols acc = acc ++ listed symbols.
Proof.
  revert acc. induction symbols as [|sd rest IH]; intros acc.
  - unfold listed. simpl. by rewrite app_nil_r.
  - unfold listed. simpl. fold (usdt_trading sd).
    destruct (usdt_trading sd).
    + rewrite IH, <- app_assoc. reflexivity.
    + apply IH.
Qed.

Lemma elem_of_listed (symbols : list symbol_data) (e : crypto_entry) :
  e ∈ listed symbols ↔
  ∃ sd, sd ∈ symbols ∧ s_quoteAsset sd = "USDT" ∧ s_status sd = "TRADING" ∧
        e = mk_crypto_entry (s_baseAsset sd) (s_symbol sd).
Proof.
  unfold listed. rewrite list_elem_of_fmap. split.
  - intros (sd & -> & Hsd). apply list_elem_of_In, filter_In in Hsd.
    destruct Hsd as [Hin Hb]. apply andb_true_iff in Hb as [Hq Hs].
    apply String.eqb_eq in Hq, Hs. exists sd.
    split; [by apply list_elem_of_In|done].
  - intros (sd & Hin & Hq & Hs & ->). exists sd. split; [done|].
    apply list_elem_of_In, filter_In. split; [by apply list_elem_of_In|].
    unfold usdt_trading. rewrite Hq, Hs. reflexivity.
Qed.

Lemma make_request_info_ok (st : State) (j : list symbol_data) (w : World) :
  exchange_info (world st) = (InfoOk j, w) →
  make_request_info st =
    (JOk (Some j), mk_state w (store st), [EvInfoRequest]).
Proof.
  intros H. unfold make_request_info, range; simpl.
  unfold jtry_except, jbind, info_get. rewrite H. reflexivity.
Qed.

Lemma fetch_crypto_list_ok (st : State) (symbols : list symbol_data)
    (w : World) :
  exchange_info (world st) = (InfoOk symbols, w) →
  fetch_crypto_list st =
    (JOk (listed symbols), mk_state w (store st), [EvInfoRequest]).
Proof.
  intros H. unfold fetch_crypto_list, fetch_crypto_list_binance, jlogged,
    jtry_except, jbind.
  rewrite (make_request_info_ok st symbols w H). unfold jret.
  by rewrite usdt_trading_loop_listed.
Qed.

(** X11.  [fetch_crypto_list_binance] asks the exchange once and keeps, in
    the order of the answer, the pairs quoted in USDT whose status is
    TRADING, each as its base asset and its symbol. *)
Theorem fetch_crypto_list_usdt_trading (st : State)
    (symbols : list symbol_data) (w : World) :
  exchange_info (world st) = (InfoOk symbols, w) →
  fetch_crypto_list_binance st =
    (JOk (entry_of <$> List.filter usdt_trading symbols),
     mk_state w (store st), [EvInfoRequest]) ∧
  ∀ e, e ∈ entry_of <$> List.filter usdt_trading symbols ↔
       ∃ sd, sd ∈ symbols ∧ s_quoteAsset sd = "USDT" ∧
             s_status sd = "TRADING" ∧
             e = mk_crypto_entry (s_baseAsset sd) (s_symbol sd).
Proof.
  intros H. split.
  - apply (fetch_crypto_list_ok st symbols w H).
  - intros e. apply elem_of_listed.
Qed.

Lemma make_request_info_fails (st : State) c1 c2 c3 w1 w2 w3 :
  exchange_info (world st) = (InfoErr c1, w1) →
  exchange_info (sleep RETRY_DELAY w1) = (InfoErr c2, w2) →
  exchange_info (sleep RETRY_DELAY w2) = (InfoErr c3, w3) →
  make_request_info st =
    (JRaise (Exn (RequestException c3)), mk_state w3 (store st),
     failed_listing c1 c2).
Proof.
  intros H1 H2 H3. unfold make_request_info, range; simpl.
  unfold jtry_except, jbind, info_get, jemit, lift, time_sleep, jraise.
  simpl. rewrite H1. simpl. rewrite H2. simpl. rewrite H3. reflexivity.
Qed.

(** X12.  An exchange-information endpoint that fails three times in a row
    ends [initial_data] before anything is inserted and before any daily
    bar is asked for; the exception is logged by each of the three
    functions it leaves. *)
Theorem initial_data_listing_failure (fuel : nat) (st : State)
    c1 c2 c3 w1 w2 w3 :
  exchange_info (world st) = (InfoErr c1, w1) →
  exchange_info (sleep RETRY_DELAY w1) = (InfoErr c2, w2) →
  exchange_info (sleep RETRY_DELAY w2) = (InfoErr c3, w3) →
  initial_data fuel st =
    (JRaise (Exn (RequestException c3)), mk_state w3 (store st),
     failed_listing c1 c2 ++
     [EvJobError At_fetch_crypto_list_binance (Exn (RequestException c3));
      EvJobError At_init_crypto_list (Exn (RequestException c3));
      EvJobError At_initial_data (Exn (RequestException c3))]).
Proof.
  intros H1 H2 H3.
  unfold initial_data, init_crypto_list, fetch_crypto_list,
    fetch_crypto_list_binance, jlogged.
  unfold jtry_except at 1. unfold jbind at 1. unfold jtry_except at 1.
  unfold jbind at 1. unfold jtry_except at 1. unfold jbind at 1.
  rewrite (make_request_info_fails st c1 c2 c3 w1 w2 w3 H1 H2 H3).
  unfold jbind, jemit, jraise. simpl. reflexivity.
Qed.

Lemma find_one_None (s : string) (c : collection) :
  find_one s c = None ↔ ∀ d, d ∈ c → d_symbol d ≠ Some s.
Proof.
  split.
  - intros Hnone d Hd Hs.
    destruct (find_one_present s c d Hd Hs) as [x Hx]. congruence.
  - intros Hall. destruct (find_one s c) as [d|] eqn:Hfind; [|done].
    exfalso. apply (Hall d).
    + unfold find_one in Hfind. apply find_some in Hfind as [Hin _].
      by apply list_elem_of_In.
    + by apply (find_one_symbol s c).
Qed.

Lemma find_one_app (s : string) (c1 c2 : collection) :
  find_one s (c1 ++ c2) =
  match find_one s c1 with
  | Some d => Some d
  | None => find_one s c2
  end.
Proof.
  unfold find_one. induction c1 as [|d c1 IH]; simpl; [done|].
  by destruct (has_symbol s d).
Qed.

Lemma find_one_new_document (s : string) (e : crypto_entry) :
  find_one s [new_document e] =
  if decide (c_symbol e = s) then Some (new_document e) else None.
Proof.
  unfold find_one, has_symbol. simpl.
  destruct (decide (c_symbol e = s)) as [->|Hne].
  - by rewrite bool_decide_eq_true_2.
  - rewrite bool_decide_eq_false_2; [done|]. by intros [= H].
Qed.

Lemma init_list_loop_cons (crypto : crypto_entry)
    (rest : list crypto_entry) (st : State) :
  init_list_loop (crypto :: rest) st =
  match find_one (c_symbol crypto) (store st) with
  | Some _ => init_list_loop rest st
  | None =>
      match init_list_loop rest
              (mk_state (world st) (store st ++ [new_document crypto])) with
      | (r, st2, t2) => (r, st2, EvInsert (new_document crypto) :: t2)
      end
  end.
Proof.
  simpl. unfold jbind at 1. unfold jbind at 1. unfold lift, get_store.
  destruct (find_one (c_symbol crypto) (store st)).
  - unfold jret. by destruct (init_list_loop rest st) as [[r s2] t2].
  - unfold insert_one. reflexivity.
Qed.

Lemma init_list_loop_adds (l : list crypto_entry) (st : State) :
  ∃ added,
    init_list_loop l st =
      (JOk tt, mk_state (world st) (store st ++ added), EvInsert <$> added) ∧
    Forall (fun d => ∃ e, e ∈ l ∧ d = new_document e ∧
                          find_one (c_symbol e) (store st) = None) added ∧
    NoDup (d_symbol <$> added) ∧
    ∀ e, e ∈ l → is_Some (find_one (c_symbol e) (store st ++ added)).
Proof.
  revert st. induction l as [|e rest IH]; intros st.
  - exists []. rewrite app_nil_r, state_eta. repeat split.
    + constructor.
    + constructor.
    + intros e He. by apply elem_of_nil in He.
  - rewrite init_list_loop_cons.
    destruct (find_one (c_symbol e) (store st)) as [d|] eqn:Hfind.
    + destruct (IH st) as (added & Hrun & Hall & Hnd & Hin).
      exists added. repeat split; [done| |done|].
      * eapply Forall_impl; [exact Hall|]. intros x (e' & He' & Hx & Hn).
        exists e'. split; [by right|done].
      * intros e' He'. apply elem_of_cons in He' as [->|He'].
        -- rewrite find_one_app, Hfind. by eexists.
        -- by apply Hin.
    + destruct (IH (mk_state (world st) (store st ++ [new_document e])))
        as (added & Hrun & Hall & Hnd & Hin).
      simpl in Hrun, Hall, Hin. rewrite Hrun.
      exists (new_document e :: added).
      rewrite <- app_assoc in Hrun, Hin. simpl in Hin.
      rewrite <- app_assoc. repeat split.
      * constructor.
        -- exists e. split; [by left|done].
        -- eapply Forall_impl; [exact Hall|].
           intros x (e' & He' & Hx & Hn). exists e'.
           split; [by right|]. split; [done|].
           rewrite find_one_app in Hn.
           by destruct (find_one (c_symbol e') (store st)).
      * rewrite fmap_cons. constructor; [|done].
        intros Hdup. apply list_elem_of_fmap in Hdup as (x & Hx & Hxin).
        rewrite Forall_forall in Hall.
        destruct (Hall x Hxin) as (e' & He' & -> & Hn).
        simpl in Hx. injection Hx as Hx.
        rewrite find_one_app, find_one_new_document in Hn.
        destruct (find_one (c_symbol e') (store st)); [done|].
        by destruct (decide (c_symbol e = c_symbol e')).
      * intros e' He'. apply elem_of_cons in He' as [->|He'].
        -- apply (find_one_present _ _ (new_document e)); [|done].
           apply elem_of_app. right. by left.
        -- by apply Hin.
Qed.

Lemma init_list_loop_present (l : list crypto_entry) (st : State) :
  (∀ e, e ∈ l → is_Some (find_one (c_symbol e) (store st))) →
  init_list_loop l st = (JOk tt, st, []).
Proof.
  induction l as [|e rest IH]; intros Hall; [done|].
  rewrite init_list_loop_cons.
  destruct (Hall e) as [d Hd]; [by left|]. rewrite Hd.
  apply IH. intros e' He'. apply Hall. by right.
Qed.

Lemma init_crypto_list_run (st : State) (symbols : list symbol_data)
    (w : World) :
  exchange_info (world st) = (InfoOk symbols, w) →
  init_crypto_list st =
  match init_list_loop (listed symbols) (mk_state w (store st)) with
  | (r, st2, t2) =>
      match r with
      | JRaise e =>
          (JRaise e, st2,
           EvInfoRequest :: t2 ++ [EvJobError At_init_crypto_list e])
      | _ => (r, st2, EvInfoRequest :: t2)
      end
  end.
Proof.
  intros H. unfold init_crypto_list, jlogged, jtry_except, jbind.
  rewrite (fetch_crypto_list_ok st symbols w H).
  destruct (init_list_loop (listed symbols) (mk_state w (store st)))
    as [[[a|e|] st2] t2]; reflexivity.
Qed.


(** X14.  A second [init_crypto_list] in a row, answered the same listing,
    inserts nothing: it asks the exchange once more and leaves the
    collection as the first run left it. *)
Theorem init_crypto_list_twice (st : State) (symbols : list symbol_data)
    (w w' : World) :
  exchange_info (world st) = (InfoOk symbols, w) →
  exchange_info w = (InfoOk symbols, w') →
  let first := init_crypto_list st in
  init_crypto_list (jstate_of first) =
    (JOk tt, mk_state w' (store (jstate_of first)), [EvInfoRequest]).
Proof.
  intros H H' first.
  destruct (init_list_loop_adds (listed symbols) (mk_state w (store st)))
    as (added & Hrun & Hall & Hnd & Hin).
  assert (Hfirst : first =
            (JOk tt, mk_state w (store st ++ added),
             EvInfoRequest :: (EvInsert <$> added))).
  { unfold first. rewrite (init_crypto_list_run st symbols w H), Hrun.
    reflexivity. }
  rewrite Hfirst. unfold jstate_of.
  rewrite (init_crypto_list_run (mk_state w (store st ++ added)) symbols w'
             H').
  rewrite init_list_loop_present; [reflexivity|]. exact Hin.
Qed.

Lemma existing_symbols_loop_ok (docs : list doc) (acc : gset string)
    (st : State) :
  Forall (fun d => is_Some (d_symbol d)) docs →
  ∃ S, existing_symbols_loop docs acc st = (JOk S, st, []) ∧
       ∀ s, s ∈ S ↔ s ∈ acc ∨ ∃ d, d ∈ docs ∧ d_symbol d = Some s.
Proof.
  revert acc. induction docs as [|d rest IH]; intros acc Hall.
  - exists acc. split; [done|]. intros s. split; [by left|].
    intros [H|(d & Hd & _)]; [done|]. by apply elem_of_nil in Hd.
  - apply Forall_cons in Hall as [[s Hs] Hall]. simpl. rewrite Hs.
    destruct (IH ({[s]} ∪ acc) Hall) as (S & Hrun & HS).
    exists S. split; [done|]. intros s'. rewrite HS. split.
    + intros [Hin|(d' & Hd' & Hs')].
      * apply elem_of_union in Hin as [Hin|Hin]; [|by left].
        apply elem_of_singleton in Hin as ->. right. exists d.
        split; [by left|done].
      * right. exists d'. split; [by right|done].
    + intros [Hin|(d' & Hd' & Hs')].
      * left. apply elem_of_union. by right.
      * apply elem_of_cons in Hd' as [->|Hd'].
        -- left. apply elem_of_union. left. apply elem_of_singleton.
           congruence.
        -- right. by exists d'.
Qed.

Lemma existing_symbols_loop_missing (docs : list doc) (acc : gset string)
    (st : State) (d : doc) :
  d ∈ docs → d_symbol d = None →
  existing_symbols_loop docs acc st =
    (JRaise (Exn (KeyError "symbol")), st, []).
Proof.
  revert acc. induction docs as [|x rest IH]; intros acc Hd Hnone.
  - by apply elem_of_nil in Hd.
  - simpl. destruct (d_symbol x) as [s|] eqn:Hx; [|done].
    apply elem_of_cons in Hd as [->|Hd]; [congruence|]. by apply IH.
Qed.

Lemma existing_symbols_loop_result (docs : list doc) (acc : gset string)
    (st : State) :
  (∃ S, existing_symbols_loop docs acc st = (JOk S, st, []) ∧
        Forall (fun d => is_Some (d_symbol d)) docs) ∨
  existing_symbols_loop docs acc st =
    (JRaise (Exn (KeyError "symbol")), st, []).
Proof.
  destruct (decide (Forall (fun d => is_Some (d_symbol d)) docs))
    as [Hall|Hnot].
  - left. destruct (existing_symbols_loop_ok docs acc st Hall) as (S & H & _).
    by exists S.
  - right. apply not_Forall_Exists in Hnot; [|intros x; apply _].
    apply Exists_exists in Hnot as (d & Hd & Hn).
    apply (existing_symbols_loop_missing docs acc st d Hd).
    simpl in Hn. destruct (d_symbol d) as [s|]; [|done].
    exfalso. apply Hn. by exists s.
Qed.

(** X15.  One stored document without a [symbol] field ends
    [update_crypto_list] with [KeyError] before the exchange is asked, and
    with it [update_data]: no list is fetched, nothing is inserted and
    [update_crypto_daily] is not called. *)
Theorem update_data_missing_symbol (fuel : nat) (st : State) (d : doc) :
  d ∈ store st → d_symbol d = None →
  update_crypto_list st =
    (JRaise (Exn (KeyError "symbol")), st,
     [EvJobError At_update_crypto_list (Exn (KeyError "symbol"))]) ∧
  update_data fuel st =
    (JRaise (Exn (KeyError "symbol")), st,
     [EvJobError At_update_crypto_list (Exn (KeyError "symbol"));
      EvJobError At_update_data (Exn (KeyError "symbol"))]).
Proof.
  intros Hd Hnone.
  assert (Hlist : update_crypto_list st =
    (JRaise (Exn (KeyError "symbol")), st,
     [EvJobError At_update_crypto_list (Exn (KeyError "symbol"))])).
  { unfold update_crypto_list, jlogged, jtry_except.
    unfold jbind at 1. unfold lift at 1, get_store. unfold jbind at 1.
    rewrite (existing_symbols_loop_missing (store st) ∅ st d Hd Hnone).
    reflexivity. }
  split; [exact Hlist|].
  unfold update_data, jlogged, jtry_except. unfold jbind at 1.
  rewrite Hlist. reflexivity.
Qed.

Lemma update_list_loop_cons (S : gset string) (crypto : crypto_entry)
    (rest : list crypto_entry) (st : State) :
  update_list_loop S (crypto :: rest) st =
  if decide (c_symbol crypto ∈ S) then update_list_loop S rest st
  else
    match update_list_loop S rest
            (mk_state (world st) (store st ++ [new_document crypto])) with
    | (r, st2, t2) => (r, st2, EvInsert (new_document crypto) :: t2)
    end.
Proof.
  simpl. unfold jbind at 1.
  destruct (decide (c_symbol crypto ∈ S)).
  - unfold jret. by destruct (update_list_loop S rest st) as [[r s2] t2].
  - unfold insert_one. reflexivity.
Qed.

Lemma update_list_loop_adds (S : gset string) (l : list crypto_entry)
    (st : State) :
  ∃ added,
    update_list_loop S l st =
      (JOk tt, mk_state (world st) (store st ++ added), EvInsert <$> added) ∧
    Forall (fun d => ∃ e, e ∈ l ∧ d = new_document e) added.
Proof.
  revert st. induction l as [|e rest IH]; intros st.
  - exists []. rewrite app_nil_r, state_eta. by split.
  - rewrite update_list_loop_cons. destruct (decide (c_symbol e ∈ S)).
    + destruct (IH st) as (added & Hrun & Hall). exists added.
      split; [done|]. eapply Forall_impl; [exact Hall|].
      intros x (e' & He' & Hx). exists e'. split; [by right|done].
    + destruct (IH (mk_state (world st) (store st ++ [new_document e])))
        as (added & Hrun & Hall).
      rewrite Hrun. simpl. exists (new_document e :: added).
      rewrite <- app_assoc. split; [done|]. constructor.
      * exists e. split; [by left|done].
      * eapply Forall_impl; [exact Hall|].
        intros x (e' & He' & Hx). exists e'. split; [by right|done].
Qed.

Lemma update_list_loop_init (S : gset string) (l : list crypto_entry)
    (st : State) :
  (∀ e, e ∈ l →
        c_symbol e ∈ S ↔ is_Some (find_one (c_symbol e) (store st))) →
  NoDup (c_symbol <$> l) →
  update_list_loop S l st = init_list_loop l st.
Proof.
  revert st. induction l as [|e rest IH]; intros st Hagree Hnd; [done|].
  rewrite fmap_cons in Hnd. apply NoDup_cons in Hnd as [Hnin Hnd].
  rewrite update_list_loop_cons, init_list_loop_cons.
  pose proof (Hagree e ltac:(by left)) as He.
  destruct (decide (c_symbol e ∈ S)) as [Hin|Hout].
  - apply He in Hin as [d Hd]. rewrite Hd. apply IH; [|done].
    intros e' He'. apply Hagree. by right.
  - destruct (find_one (c_symbol e) (store st)) as [d|] eqn:Hfind.
    { exfalso. apply Hout, He. by eexists. }
    rewrite IH; [done| |done].
    intros e' He'. simpl. rewrite find_one_app, find_one_new_document.
    rewrite (Hagree e' ltac:(by right)).
    destruct (find_one (c_symbol e') (store st)) as [d'|]; [done|].
    destruct (decide (c_symbol e = c_symbol e')) as [Heq|Hne]; [|done].
    exfalso. apply Hnin. rewrite Heq. apply list_elem_of_fmap.
    by exists e'.
Qed.

(** X16.  When every stored document has a symbol and the listing names
    no symbol twice, [update_crypto_list] does what [init_crypto_list]
    does: the same insertions in the same order, the same request.  The
    set it compares with is made before the loop, the collection
    [init_crypto_list] asks is the current one. *)
Theorem update_crypto_list_as_init (st : State) (symbols : list symbol_data)
    (w : World) :
  exchange_info (world st) = (InfoOk symbols, w) →
  Forall (fun d => is_Some (d_symbol d)) (store st) →
  NoDup (c_symbol <$> listed symbols) →
  update_crypto_list st = init_crypto_list st.
Proof.
  intros H Hall Hnd.
  rewrite (init_crypto_list_run st symbols w H).
  unfold update_crypto_list, jlogged, jtry_except.
  unfold jbind at 1. unfold lift at 1, get_store. unfold jbind at 1.
  destruct (existing_symbols_loop_ok (store st) ∅ st Hall) as (S & HS & Hmem).
  rewrite HS. unfold jbind at 1.
  rewrite (fetch_crypto_list_ok st symbols w H).
  rewrite (update_list_loop_init S (listed symbols) (mk_state w (store st))).
  - destruct (init_list_loop_adds (listed symbols) (mk_state w (store st)))
      as (added & Hrun & _).
    rewrite Hrun. reflexivity.
  - intros e He. simpl. rewrite Hmem. split.
    + intros [Hemp|(d & Hd & Hs)]; [by apply elem_of_empty in Hemp|].
      by apply (find_one_present _ _ d).
    + intros [d Hd]. right. exists d. split.
      * unfold find_one in Hd. apply find_some in Hd as [Hd _].
        by apply list_elem_of_In.
      * by apply (find_one_symbol _ (store st)).
  - exact Hnd.
Qed.

(** X17.  [update_daily_only] never raises: an exception of
    [update_crypto_daily] is logged and the function returns, with the
    collection as [update_crypto_daily] left it. *)
Theorem update_daily_only_never_raises (fuel : nat) (st : State) :
  (∀ e, jres_of (update_daily_only fuel st) ≠ JRaise e) ∧
  store (jstate_of (update_daily_only fuel st)) =
    store (state_of (update_crypto_daily fuel st)) ∧
  ∀ e, res_of (update_crypto_daily fuel st) = Raise e →
       jres_of (update_daily_only fuel st) = JOk tt ∧
       jtrace_of (update_daily_only fuel st) =
         (EvDaily <$> trace_of (update_crypto_daily fuel st)) ++
         [EvJobError At_update_daily_only (Exn e)].
Proof.
  unfold update_daily_only, jtry_except, lift.
  destruct (update_crypto_daily fuel st) as [[[[]|e|] st1] t1]; simpl.
  - split; [done|]. split; [done|]. by intros e [=].
  - split; [done|]. split; [done|]. by intros e' [= ->].
  - split; [done|]. split; [done|]. by intros e [=].
Qed.

Lemma make_request_info_store (st : State) :
  store (jstate_of (make_request_info st)) = store st.
Proof.
  unfold make_request_info, range; simpl.
  unfold jtry_except, jbind, info_get, jemit, lift, time_sleep, jraise, jret.
  simpl.
  destruct (exchange_info (world st)) as [[j1|c1] w1]; simpl; [done|].
  destruct (exchange_info (sleep RETRY_DELAY w1)) as [[j2|c2] w2]; simpl;
    [done|].
  by destruct (exchange_info (sleep RETRY_DELAY w2)) as [[j3|c3] w3].
Qed.

Lemma fetch_crypto_list_store (st : State) :
  store (jstate_of (fetch_crypto_list st)) = store st.
Proof.
  pose proof (make_request_info_store st) as H.
  unfold fetch_crypto_list, fetch_crypto_list_binance, jlogged, jtry_except,
    jbind.
  destruct (make_request_info st) as [[[[j|]|e|] st1] t1]; simpl in *; done.
Qed.

Lemma update_crypto_daily_no_raise (fuel : nat) (st : State) (e : exn) :
  (∀ d, head (store st) = Some d → is_Some (d_symbol d)) →
  res_of (update_crypto_daily fuel st) ≠ Raise e.
Proof.
  intros Hhead Hraise.
  unfold update_crypto_daily, logged, try_except in Hraise.
  rewrite bind_get_store in Hraise. unfold bind at 1 in Hraise.
  unfold datetime_utcnow at 1 in Hraise.
  set (yesterday := add_days (midnight (utcnow (world st))) (-1)) in *.
  assert (Hno : ∀ e', res_of (update_loop fuel yesterday
                                (snapshot (store st)) None st) ≠ Raise e').
  { intros e'. apply update_loop_no_raise. right. intros x Hx.
    destruct (store st) as [|d c]; [done|]. simpl in Hx.
    injection Hx as <-. apply (Hhead d). reflexivity. }
  destruct (update_loop fuel yesterday (snapshot (store st)) None st)
    as [[[[]|e'|] st1] t1] eqn:Hloop; simpl in Hraise; try done.
  by apply (Hno e').
Qed.

(** X18.  [update_data] raises only what [update_crypto_list] raises: once
    the list is updated every stored document has a symbol, and then
    [update_crypto_daily] logs the failures of its assets and returns. *)
Theorem update_data_raises_from_list (fuel : nat) (st : State)
    (e : job_exn) :
  jres_of (update_data fuel st) = JRaise e →
  jres_of (update_crypto_list st) = JRaise e.
Proof.
  unfold update_data, jlogged. unfold jtry_except at 1. unfold jbind at 1.
  destruct (update_crypto_list st) as [[[[]|e0|] st1] t1] eqn:Hlist;
    simpl; [|by intros [= ->]|done].
  intros Hraise. exfalso.
  assert (Hsym : ∀ d, head (store st1) = Some d → is_Some (d_symbol d)).
  { revert Hlist. unfold update_crypto_list, jlogged, jtry_except.
    unfold jbind at 1. unfold lift at 1, get_store. unfold jbind at 1.
    destruct (existing_symbols_loop_result (store st) ∅ st)
      as [(S & HS & Hall)|HS]; rewrite HS; [|done].
    unfold jbind at 1.
    pose proof (fetch_crypto_list_store st) as Hstore.
    destruct (fetch_crypto_list st) as [[[l|e1|] st2] t2]; simpl in Hstore;
      [|done|done].
    destruct (update_list_loop_adds S l st2) as (added & Hrun & Hadd).
    rewrite Hrun. intros [= <- _]. simpl. rewrite Hstore.
    intros d Hd. apply head_Some_elem_of in Hd.
    apply elem_of_app in Hd as [Hd|Hd].
    - rewrite Forall_forall in Hall. by apply Hall.
    - rewrite Forall_forall in Hadd.
      destruct (Hadd d Hd) as (e' & _ & ->). by eexists. }
  unfold lift in Hraise.
  pose proof (update_crypto_daily_no_raise fuel st1) as Hno.
  destruct (update_crypto_daily fuel st1) as [[[[]|e1|] st2] t2];
    simpl in *; try done.
  by apply (Hno e1).
Qed.

End JobFacts.

(** * The properties on the scenarios *)

Lemma exchange_honours_start db down now zone :
  honours_start (E := exchange db down now zone).
Proof.
  intros p w w' s ks Hs. simpl.
  destruct (down (p_symbol p)); [done|]. intros [= <- _].
  unfold page. rewrite Hs. apply Forall_take.
  apply Forall_forall. intros k Hk.
  apply list_elem_of_In, filter_In in Hk as [_ Hk].
  unfold in_window in Hk. rewrite Hs in Hk.
  apply andb_prop in Hk as [Hk _]. by apply Z.leb_le in Hk.
Qed.

(** Daily candles fall on different days. *)
Lemma daily_klines_days {E : Env} (t0 : Z) (n : nat) :
  NoDup (kline_day <$> daily_klines t0 n).
Proof.
  unfold daily_klines. rewrite <- list_fmap_compose.
  apply NoDup_fmap_2_strong; [|apply NoDup_seq].
  intros i j _ _. unfold compose, kline_day, fromtimestamp, date_str. simpl.
  replace (t0 + Z.of_nat i * DAY_MS + tz) with (t0 + tz + Z.of_nat i * DAY_MS)
    by lia.
  replace (t0 + Z.of_nat j * DAY_MS + tz) with (t0 + tz + Z.of_nat j * DAY_MS)
    by lia.
  rewrite !Z.div_add by done. lia.
Qed.

Lemma dayline_order_preserved_witness :
  well_ordered
    (store (run_operations (E := market) 8
       [Op_update_crypto_daily; Op_init_crypto_daily; Op_update_crypto_daily]
       (mk_state (E := market) tt three_new_assets))) ∧
  (∀ symbol start_date,
     well_ordered
       (store (state_of (fetch_and_merge (E := market) 8 symbol start_date
                           (mk_state (E := market) tt three_new_assets))))).
Proof.
  apply (dayline_order_preserved (E := market) 8
           [Op_update_crypto_daily; Op_init_crypto_daily;
            Op_update_crypto_daily]
           (mk_state (E := market) tt three_new_assets)).
  - apply exchange_honours_start.
  - repeat constructor.
Defined.

(** C1 as stated fails: an exchange that answers every request with the
    same old candle makes the second update append a bar whose date is
    already stored. *)
Lemma dayline_order_counterexample :
  well_ordered (store replaying_state) ∧
  ¬ well_ordered
      (store (run_operations (E := replaying) 8
         [Op_update_crypto_daily; Op_update_crypto_daily] replaying_state)).
Proof.
  split; [repeat constructor|].
  intros H. vm_compute in H.
  apply Forall_inv in H. apply StronglySorted_cons in H as [H _].
  apply Forall_inv in H. vm_compute in H. discriminate.
Qed.

Lemma update_crypto_daily_unbound_symbol_witness :
  update_crypto_daily (E := market) 8
    (mk_state (E := market) tt
       (mk_doc (Some "BTC") None [] :: three_new_assets)) =
  (Raise (NameError "symbol"),
   mk_state (E := market) tt (mk_doc (Some "BTC") None [] :: three_new_assets),
   [EvError At_update_crypto_daily None (NameError "symbol")]).
Proof.
  apply (update_crypto_daily_unbound_symbol (E := market) 8 _
           (Some "BTC") [] three_new_assets).
  reflexivity.
Defined.

Lemma fetch_crypto_daily_start_from_storage_witness :
  fetch_crypto_daily (E := market) 8 "BTCUSDT" (Some 0)
    (mk_state (E := market) tt [old_asset "BTCUSDT" 3]) =
  fetch_crypto_daily (E := market) 8 "BTCUSDT" None
    (mk_state (E := market) tt [old_asset "BTCUSDT" 3]).
Proof.
  destruct (fetch_crypto_daily_start_from_storage (E := market) 8 "BTCUSDT"
              (mk_state (E := market) tt [old_asset "BTCUSDT" 3])
              (old_asset "BTCUSDT" 3) (bar_at (add_days TODAY (-3)))
              eq_refl eq_refl) as (_ & _ & H & _).
  apply H.
Defined.



(** One iteration on the asset whose last bar is three days old appends
    the bars of the three days since. *)
Lemma update_asset_single_append_witness :
  writes_of (trace_of
    (update_asset (E := market) 8 (add_days TODAY (-1))
       (projected (old_asset "BTCUSDT" 3)) None
       (mk_state (E := market) tt [old_asset "BTCUSDT" 3]))) =
  [EvPush "BTCUSDT"
     [bar_at (add_days TODAY (-2)); bar_at (add_days TODAY (-1));
      bar_at TODAY]].
Proof.
  pose proof (update_asset_single_append (E := market) 8 (add_days TODAY (-1))
                (projected (old_asset "BTCUSDT" 3)) None
                (mk_state (E := market) tt [old_asset "BTCUSDT" 3])) as [H _].
  vm_compute in H. destruct H as (_ & H & _).
  vm_compute. exact H.
Defined.

Lemma exchange_clock_monotone db down now zone :
  clock_monotone (E := exchange db down now zone).
Proof. split; intros; simpl; lia. Qed.

Lemma update_crypto_daily_freshness_witness :
  (requests_for "BTCUSDT"
     (trace_of (update_crypto_daily (E := market) 8
        (mk_state (E := market) tt [old_asset "BTCUSDT" 1]))) = [] ∧
   find_one "BTCUSDT"
     (store (state_of (update_crypto_daily (E := market) 8
        (mk_state (E := market) tt [old_asset "BTCUSDT" 1])))) =
     Some (old_asset "BTCUSDT" 1)) ∧
  (∃ rest,
     requests_for "BTCUSDT"
       (trace_of (update_crypto_daily (E := market) 8
          (mk_state (E := market) tt [old_asset "BTCUSDT" 2]))) =
     EvRequest
       (mk_params "BTCUSDT"
          (Some (timestamp (E := market)
                   (add_days (b_date (bar_at (add_days TODAY (-2)))) 1)))
          None) :: rest) ∧
  (∃ new,
     find_one "BTCUSDT"
       (store (state_of (update_crypto_daily (E := market) 8
          (mk_state (E := market) tt [old_asset "BTCUSDT" 2])))) =
       Some (push_each new (old_asset "BTCUSDT" 2)) ∧
     Forall (fun x => b_date (bar_at (add_days TODAY (-2))) < b_date x) new).
Proof.
  destruct (update_crypto_daily_freshness (E := market) 8
              (mk_state (E := market) tt [old_asset "BTCUSDT" 1])
              "BTCUSDT" (old_asset "BTCUSDT" 1)
              (bar_at (add_days TODAY (-1))) eq_refl eq_refl)
    as (Hfresh & _ & _).
  destruct (update_crypto_daily_freshness (E := market) 8
              (mk_state (E := market) tt [old_asset "BTCUSDT" 2])
              "BTCUSDT" (old_asset "BTCUSDT" 2)
              (bar_at (add_days TODAY (-2))) eq_refl eq_refl)
    as (_ & Hstale & Hhonest).
  split; [|split].
  - apply Hfresh.
    + vm_compute. discriminate.
    + vm_compute. reflexivity.
  - apply Hstale.
    + vm_compute. reflexivity.
    + apply exchange_clock_monotone.
    + vm_compute. reflexivity.
  - apply Hhonest, exchange_honours_start.
Defined.

(** C3 as stated fails: the request starts at the day after the last
    stored date, and still an exchange that answers with the candle of
    that date gets it stored a second time. *)
Lemma update_refetch_counterexample :
  requests_of (trace_of (update_crypto_daily (E := repeating) 8
    (mk_state (E := repeating) tt [old_asset "BTCUSDT" 10]))) =
    [EvRequest (mk_params "BTCUSDT" (Some (add_days TODAY (-9))) None)] ∧
  d_dayline <$> store (state_of (update_crypto_daily (E := repeating) 8
    (mk_state (E := repeating) tt [old_asset "BTCUSDT" 10]))) =
    [[bar_at (add_days TODAY (-10)); bar_at (add_days TODAY (-10))]].
Proof. split; vm_compute; reflexivity. Qed.

Lemma init_equals_update_on_new_assets_witness :
  state_of (init_crypto_daily (E := market) 8
              (mk_state (E := market) tt three_new_assets)) =
  state_of (update_crypto_daily (E := market) 8
              (mk_state (E := market) tt three_new_assets)).
Proof.
  apply (init_equals_update_on_new_assets (E := market) 8).
  - repeat constructor; by eexists.
  - apply (bool_decide_unpack _). vm_compute. exact I.
Defined.

(** C8 as stated fails: on an asset that has a bar, the bootstrap replaces
    the dayline by the fetched bars, the update appends them. *)
Lemma init_equals_update_counterexample :
  store (state_of (init_crypto_daily (E := market) 8
           (mk_state (E := market) tt [old_asset "BTCUSDT" 3]))) ≠
  store (state_of (update_crypto_daily (E := market) 8
           (mk_state (E := market) tt [old_asset "BTCUSDT" 3]))).
Proof. vm_compute. discriminate. Qed.

Lemma full_history_fetch_pages_witness :
  requests_of (trace_of
    (fetch_crypto_daily_binance (E := scripted NOW 0) 8 "BTCUSDT" None
       newest_then_two_pages)) =
  [EvRequest (mk_params "BTCUSDT" None None);
   EvRequest (mk_params "BTCUSDT"
                (Some (timestamp (E := scripted NOW 0) BINANCE_LAUNCH))
                (Some (k_time newest_candle)));
   EvRequest (mk_params "BTCUSDT" (Some (k_time last_of_first_page + 1))
                (Some (k_time newest_candle)));
   EvRequest (mk_params "BTCUSDT" None None)].
Proof.
  assert (H1 : length first_page = 1000%nat) by (vm_compute; reflexivity).
  assert (H2 : last first_page = Some last_of_first_page)
    by (vm_compute; reflexivity).
  assert (H3 : length second_page = 200%nat) by (vm_compute; reflexivity).
  assert (H4 : (length (@nil kline) < 1000)%nat) by (simpl; lia).
  exact (proj1 (full_history_fetch_pages (E := scripted NOW 0) 5 "BTCUSDT"
                  newest_then_two_pages
                  [newest_candle] first_page second_page []
                  newest_candle last_of_first_page
                  [HttpOk first_page; HttpOk second_page] [HttpOk second_page]
                  [] [] eq_refl eq_refl eq_refl H1 H2 eq_refl H3 eq_refl H4)).
Defined.

(** C2 as stated fails: a scripted exchange whose first answer has 1000
    candles and whose second has 200 is asked three times (without bounds,
    for the window, without bounds again) and 200 bars come back, because
    the first answer only serves to learn the newest timestamp. *)
Lemma full_history_two_requests_counterexample :
  requests_of (trace_of
    (fetch_crypto_daily_binance (E := scripted NOW 0) 8 "BTCUSDT" None
       two_pages)) =
  [EvRequest (mk_params "BTCUSDT" None None);
   EvRequest (mk_params "BTCUSDT"
                (Some (timestamp (E := scripted NOW 0) BINANCE_LAUNCH))
                (Some (k_time last_of_first_page)));
   EvRequest (mk_params "BTCUSDT" None None)] ∧
  returned_length
    (res_of (fetch_crypto_daily_binance (E := scripted NOW 0) 8 "BTCUSDT"
               None two_pages)) = Some 200%nat.
Proof.
  assert (H1 : last first_page = Some last_of_first_page)
    by (vm_compute; reflexivity).
  assert (H2 : length second_page = 200%nat) by (vm_compute; reflexivity).
  rewrite (full_history_short_window (E := scripted NOW 0) 6 "BTCUSDT"
             two_pages first_page second_page [] last_of_first_page
             [HttpOk second_page] [] [] eq_refl H1 eq_refl);
    [|by intros Hnil; rewrite Hnil in H2|rewrite H2; done|done|done].
  split; [reflexivity|].
  unfold returned_length, res_of.
  rewrite sort_by_date_perm, app_nil_r.
  rewrite collect_new;
    [|apply daily_klines_days|intros k _; apply not_elem_of_empty].
  unfold fst. rewrite app_nil_l, length_fmap, H2. reflexivity.
Qed.

Lemma daily_klines_sorted (t0 : Z) (n : nat) :
  time_sorted (daily_klines t0 n).
Proof.
  unfold time_sorted, daily_klines. generalize 0%nat.
  induction n as [|n IH]; intros a; simpl; constructor; [apply IH|].
  apply Forall_forall. intros k Hk.
  apply list_elem_of_In, in_map_iff in Hk as (i & <- & Hi).
  apply in_seq in Hi. simpl. unfold DAY_MS. lia.
Qed.

Lemma market_db_sorted (s : string) : time_sorted (market_db s).
Proof.
  unfold market_db.
  repeat (destruct (String.eqb s _); [apply daily_klines_sorted|]).
  constructor.
Qed.

Lemma second_update_writes_nothing_witness :
  writes_of (trace_of
    (update_crypto_daily (E := market) 8
       (state_of (update_crypto_daily (E := market) 8
          (mk_state (E := market) tt
             [new_asset "BTCUSDT"; new_asset "XRPUSDT";
              old_asset "ETHUSDT" 2]))))) = [] ∧
  store (state_of
    (update_crypto_daily (E := market) 8
       (state_of (update_crypto_daily (E := market) 8
          (mk_state (E := market) tt
             [new_asset "BTCUSDT"; new_asset "XRPUSDT";
              old_asset "ETHUSDT" 2]))))) =
  store (state_of (update_crypto_daily (E := market) 8
          (mk_state (E := market) tt
             [new_asset "BTCUSDT"; new_asset "XRPUSDT";
              old_asset "ETHUSDT" 2]))).
Proof.
  apply (second_update_writes_nothing market_db (fun _ => false) NOW 0
           market_db_sorted 8
           [new_asset "BTCUSDT"; new_asset "XRPUSDT"; old_asset "ETHUSDT" 2]).
  vm_compute. discriminate.
Defined.

(** C4 as stated fails.  On the exchange that repeats one old candle,
    with the clock standing still, the second run writes again.  On the
    exchange that keeps its data, an asset it has no candle for is not
    recent after the first run: the second run asks for it again. *)
Lemma second_update_counterexample :
  writes_of (trace_of
    (update_crypto_daily (E := repeating) 8
       (state_of (update_crypto_daily (E := repeating) 8
                    (mk_state (E := repeating) tt [new_asset "BTCUSDT"])))))
    ≠ [] ∧
  requests_of (trace_of
    (update_crypto_daily (E := market) 8
       (state_of (update_crypto_daily (E := market) 8
                    (mk_state (E := market) tt [new_asset "XRPUSDT"])))))
    ≠ [].
Proof. split; vm_compute; discriminate. Qed.

(** ** The further properties on the scenarios *)

Lemma fetch_crypto_daily_binance_one_bar_per_day_witness :
  ∃ l st' t,
    fetch_crypto_daily_binance (E := market) 8 "ETHUSDT" None
      (mk_state (E := market) tt []) = (Ok l, st', t) ∧
    length l = 5%nat ∧ ascending l ∧ NoDup (day_of <$> l).
Proof.
  eexists _, _, _. split; [vm_compute; reflexivity|].
  split; [reflexivity|].
  eapply (fetch_crypto_daily_binance_one_bar_per_day (E := market) 8
            "ETHUSDT" None (mk_state (E := market) tt [])).
  vm_compute. reflexivity.
Defined.

Lemma init_crypto_daily_missing_symbol_witness :
  init_crypto_daily (E := market) 8
    (mk_state (E := market) tt
       (mk_doc (Some "BTC") None [] :: three_new_assets)) =
  (Raise (KeyError "symbol"),
   mk_state (E := market) tt (mk_doc (Some "BTC") None [] :: three_new_assets),
   [EvError At_init_crypto_daily None (KeyError "symbol")]).
Proof.
  apply (init_crypto_daily_missing_symbol (E := market) 8 _
           (Some "BTC") [] three_new_assets).
  reflexivity.
Defined.

Lemma init_asset_erases_recent_history_witness :
  find_one "BTCUSDT"
    (store (state_of (init_asset (E := market) 8 (old_asset "BTCUSDT" 0)
       (mk_state (E := market) tt [old_asset "BTCUSDT" 0])))) =
  Some (mk_doc (Some "BTCUSDT") (Some "BTCUSDT") []).
Proof.
  destruct (init_asset_erases_recent_history (E := market) 8
              (old_asset "BTCUSDT" 0) (old_asset "BTCUSDT" 0) "BTCUSDT"
              (bar_at (add_days TODAY (- 0)))
              (mk_state (E := market) tt [old_asset "BTCUSDT" 0])
              eq_refl eq_refl eq_refl) as [Hrun Hfind].
  - vm_compute. discriminate.
  - rewrite Hrun. exact Hfind.
Defined.

Lemma fetch_failure_logged_at_each_level_witness :
  fetch_crypto_daily (E := market_eth_down) 8 "ETHUSDT" (Some TODAY)
    (mk_state (E := market_eth_down) tt [new_asset "ETHUSDT"]) =
  (Raise (RequestException ConnectionError),
   mk_state (E := market_eth_down) tt [new_asset "ETHUSDT"],
   failed_request
     (mk_params "ETHUSDT" (Some (timestamp (E := market_eth_down) TODAY)) None)
     ConnectionError ConnectionError ++
   [EvError At_fetch_crypto_daily_binance (Some "ETHUSDT")
      (RequestException ConnectionError);
    EvError At_fetch_crypto_daily (Some "ETHUSDT")
      (RequestException ConnectionError)]).
Proof.
  exact (fetch_failure_logged_at_each_level (E := market_eth_down) 7
           "ETHUSDT" TODAY
           (mk_state (E := market_eth_down) tt [new_asset "ETHUSDT"])
           ConnectionError ConnectionError ConnectionError tt tt tt
           eq_refl eq_refl eq_refl eq_refl).
Defined.

Lemma incremental_fetch_single_request_witness :
  fetch_crypto_daily_binance (E := market) 8 "BTCUSDT"
    (Some (add_days TODAY (-1))) (mk_state (E := market) tt []) =
  (Ok (sort_by_date
         (collect (E := market) (daily_klines (add_days TODAY (-1)) 2) [] ∅).1),
   mk_state (E := market) tt [],
   [EvRequest
      (mk_params "BTCUSDT"
         (Some (timestamp (E := market) (add_days TODAY (-1)))) None)]).
Proof.
  apply (incremental_fetch_single_request (E := market) 7 "BTCUSDT"
           (add_days TODAY (-1)) (mk_state (E := market) tt [])
           (daily_klines (add_days TODAY (-1)) 2) tt).
  - vm_compute. reflexivity.
  - vm_compute. reflexivity.
Defined.

Lemma full_history_nothing_listed_witness :
  fetch_crypto_daily_binance (E := market) 8 "XRPUSDT" None
    (mk_state (E := market) tt []) =
  (Ok [], mk_state (E := market) tt [],
   [EvRequest (mk_params "XRPUSDT" None None);
    EvRequest (mk_params "XRPUSDT" None None)]).
Proof.
  exact (full_history_nothing_listed (E := market) 7 "XRPUSDT"
           (mk_state (E := market) tt []) tt tt eq_refl eq_refl).
Defined.

Lemma daily_jobs_on_empty_collection_witness :
  init_crypto_daily (E := market) 8 (mk_state (E := market) tt []) =
    (Ok tt, mk_state (E := market) tt [], []) ∧
  update_crypto_daily (E := market) 8 (mk_state (E := market) tt []) =
    (Ok tt, mk_state (E := market) tt [], []).
Proof.
  exact (daily_jobs_on_empty_collection (E := market) 8
           (mk_state (E := market) tt []) eq_refl).
Defined.

(** ** The asset list and the entry points on the scenarios *)

Lemma fetch_crypto_list_usdt_trading_witness :
  fetch_crypto_list_binance (L := market_listing)
    (mk_state (E := market) tt []) =
  (JOk [mk_crypto_entry "BTC" "BTCUSDT"; mk_crypto_entry "ETH" "ETHUSDT";
        mk_crypto_entry "BNB" "BNBUSDT"],
   mk_state (E := market) tt [], [EvInfoRequest]).
Proof.
  exact (proj1 (fetch_crypto_list_usdt_trading (L := market_listing)
                  (mk_state (E := market) tt []) market_symbols tt
                  eq_refl)).
Defined.

Lemma initial_data_listing_failure_witness :
  initial_data (L := listing_down) 8
    (mk_state (E := market) tt [new_asset "BTCUSDT"]) =
  (JRaise (Exn (RequestException Timeout)),
   mk_state (E := market) tt [new_asset "BTCUSDT"],
   failed_listing Timeout Timeout ++
   [EvJobError At_fetch_crypto_list_binance
      (Exn (RequestException Timeout));
    EvJobError At_init_crypto_list (Exn (RequestException Timeout));
    EvJobError At_initial_data (Exn (RequestException Timeout))]).
Proof.
  exact (initial_data_listing_failure (L := listing_down) 8
           (mk_state (E := market) tt [new_asset "BTCUSDT"])
           Timeout Timeout Timeout tt tt tt eq_refl eq_refl eq_refl).
Defined.


Lemma init_crypto_list_twice_witness :
  init_crypto_list (L := market_listing)
    (jstate_of (init_crypto_list (L := market_listing)
                  (mk_state (E := market) tt [old_asset "ETHUSDT" 2]))) =
  (JOk tt,
   mk_state (E := market) tt
     (store (jstate_of (init_crypto_list (L := market_listing)
                          (mk_state (E := market) tt
                             [old_asset "ETHUSDT" 2])))),
   [EvInfoRequest]).
Proof.
  exact (init_crypto_list_twice (L := market_listing)
           (mk_state (E := market) tt [old_asset "ETHUSDT" 2])
           market_symbols tt tt eq_refl eq_refl).
Defined.

Lemma update_data_missing_symbol_witness :
  update_crypto_list (L := market_listing)
    (mk_state (E := market) tt
       [new_asset "BTCUSDT"; mk_doc (Some "ETH") None []]) =
    (JRaise (Exn (KeyError "symbol")),
     mk_state (E := market) tt
       [new_asset "BTCUSDT"; mk_doc (Some "ETH") None []],
     [EvJobError At_update_crypto_list (Exn (KeyError "symbol"))]) ∧
  update_data (L := market_listing) 8
    (mk_state (E := market) tt
       [new_asset "BTCUSDT"; mk_doc (Some "ETH") None []]) =
    (JRaise (Exn (KeyError "symbol")),
     mk_state (E := market) tt
       [new_asset "BTCUSDT"; mk_doc (Some "ETH") None []],
     [EvJobError At_update_crypto_list (Exn (KeyError "symbol"));
      EvJobError At_update_data (Exn (KeyError "symbol"))]).
Proof.
  apply (update_data_missing_symbol (L := market_listing) 8
           (mk_state (E := market) tt
              [new_asset "BTCUSDT"; mk_doc (Some "ETH") None []])
           (mk_doc (Some "ETH") None [])).
  - apply elem_of_cons. right. apply elem_of_cons. by left.
  - reflexivity.
Defined.

Lemma update_crypto_list_as_init_witness :
  update_crypto_list (L := market_listing)
    (mk_state (E := market) tt [old_asset "ETHUSDT" 2]) =
  init_crypto_list (L := market_listing)
    (mk_state (E := market) tt [old_asset "ETHUSDT" 2]).
Proof.
  apply (update_crypto_list_as_init (L := market_listing)
           (mk_state (E := market) tt [old_asset "ETHUSDT" 2])
           market_symbols tt eq_refl).
  - repeat constructor. by eexists.
  - vm_compute. repeat constructor; set_solver.
Defined.

Lemma update_data_raises_from_list_witness :
  jres_of (update_crypto_list (L := market_listing)
             (mk_state (E := market) tt [mk_doc (Some "ETH") None []])) =
  JRaise (Exn (KeyError "symbol")).
Proof.
  apply (update_data_raises_from_list (L := market_listing) 8
           (mk_state (E := market) tt [mk_doc (Some "ETH") None []])
           (Exn (KeyError "symbol"))).
  reflexivity.
Defined.

(** X19.  A listing that names one symbol twice: [init_crypto_list] asks
    the collection and inserts one document, [update_crypto_list] asks the
    set made before its loop and inserts two. *)
Lemma update_crypto_list_listed_twice :
  jtrace_of (init_crypto_list (L := listing_twice)
               (mk_state (E := market) tt [])) =
    [EvInfoRequest; EvInsert (mk_doc (Some "BTC") (Some "BTCUSDT") [])] ∧
  jtrace_of (update_crypto_list (L := listing_twice)
               (mk_state (E := market) tt [])) =
    [EvInfoRequest; EvInsert (mk_doc (Some "BTC") (Some "BTCUSDT") []);
     EvInsert (mk_doc (Some "BTC") (Some "BTCUSDT") [])] ∧
  store (jstate_of (update_crypto_list (L := listing_twice)
                      (mk_state (E := market) tt []))) =
    [mk_doc (Some "BTC") (Some "BTCUSDT") [];
     mk_doc (Some "BTC") (Some "BTCUSDT") []].
Proof. repeat split; vm_compute; reflexivity. Qed.

(** X20.  From an empty collection, on the exchange of the scenarios:
    [initial_data] inserts the three listed pairs and stores every candle
    the exchange has for them; [update_data] right after it inserts nothing
    and leaves the collection as it is. *)
Lemma initial_data_then_update_data :
  let first :=
    initial_data (L := market_listing) 8 (mk_state (E := market) tt []) in
  jres_of first = JOk tt ∧
  d_symbol <$> store (jstate_of first) =
    [Some "BTCUSDT"; Some "ETHUSDT"; Some "BNBUSDT"] ∧
  (fun d => length (d_dayline d)) <$> store (jstate_of first) =
    [11; 5; 7]%nat ∧
  jres_of (update_data (L := market_listing) 8 (jstate_of first)) = JOk tt ∧
  List.filter is_insert
    (jtrace_of (update_data (L := market_listing) 8 (jstate_of first))) =
    [] ∧
  store (jstate_of (update_data (L := market_listing) 8 (jstate_of first))) =
    store (jstate_of first).
Proof. repeat split; vm_compute; reflexivity. Qed.
